(** * llm-token-tracker: pricing, usage aggregation, tracking sessions, storage

  A shallow embedding of the metering core of the repository:

  - [src/pricing.ts]  : [normalizeModelName], [PRICING], [calculateCost],
    [estimateTokens];
  - [src/tracker.ts]  : the [TokenTracker] class (sessions, history, totals,
    per-user trackers, storage);
  - [src/storage.ts]  : [FileStorage.save] / [FileStorage.load] / [clear];
  - [src/mcp-server.ts] : the [compareCosts] tool handler;
  - [src/providers/openai.ts], [src/providers/anthropic.ts] : the wrappers
    that open and end a tracking session around an API call;
  - the exchange-rate module : [ExchangeRateManager] and its cache file.

  Data model.  A JavaScript [number] that holds money is an IEEE-754
  binary64 value, modelled by Rocq's primitive [float] (same format, same
  round-to-nearest-even operations).  A token count is a JavaScript
  number that holds an integer, and is written as that integer, in [Z]:
  [toNumber n] is the binary64 value the integer [n] stands for, which is
  [n] itself for every integer a JavaScript number can hold, and where
  the program adds two counts the model adds them as binary64 numbers
  ([addCount]).  Strings are [string]; a [Map] is a [gmap]; an object used
  as an ordered dictionary ([usageByModel], [metadata]) is an association
  list in insertion order. *)

From Stdlib Require Import ZArith Floats Uint63 Ascii String List Bool Lia.
From stdpp Require Import base option list gmap strings fin_maps pretty.

Set Warnings "-inexact-float".
Local Open Scope string_scope.
Local Open Scope Z_scope.

(** ** JavaScript string primitives used by the pricing resolver *)

Module JsString.

(** [\d] of a JavaScript regular expression: the ASCII digits. *)
Definition isDigit (c : ascii) : bool :=
  (48 <=? Z.of_nat (nat_of_ascii c)) && (Z.of_nat (nat_of_ascii c) <=? 57).

(** Longest prefix of digits, and what follows it ([\d+] is greedy). *)
Fixpoint spanDigits (s : string) : string * string :=
  match s with
  | String c s' =>
      if isDigit c
      then let '(d, r) := spanDigits s' in (String c d, r)
      else (EmptyString, s)
  | EmptyString => (EmptyString, EmptyString)
  end.

(** One attempt of [/(\d+)\.(\d+)/] anchored at the head of [s]:
    the two captured groups and the unread rest. *)
Definition matchVersion (s : string) : option (string * string * string) :=
  match spanDigits s with
  | (String c1 d1, String "."%char r1) =>
      match spanDigits r1 with
      | (String c2 d2, r2) => Some (String c1 d1, String c2 d2, r2)
      | _ => None
      end
  | _ => None
  end.

(** [s.replace(/(\d+)\.(\d+)/g, '$1-$2')]: leftmost matches, left to
    right, never overlapping.  [fuel] bounds the number of positions
    visited; [String.length s] is enough. *)
Fixpoint replaceVersions (fuel : nat) (s : string) : string :=
  match fuel with
  | O => s
  | S fuel' =>
      match matchVersion s with
      | Some (d1, d2, rest) =>
          d1 ++ "-" ++ d2 ++ replaceVersions fuel' rest
      | None =>
          match s with
          | String c s' => String c (replaceVersions fuel' s')
          | EmptyString => EmptyString
          end
      end
  end.

(** [s.startsWith(p)] *)
Definition startsWith (s p : string) : bool := String.prefix p s.

(** [s.includes(sub)] *)
Fixpoint includes (s sub : string) : bool :=
  String.prefix sub s
  || match s with
     | String _ s' => includes s' sub
     | EmptyString => false
     end.

End JsString.

(** ** JavaScript numbers *)

Module JsNumber.
Local Open Scope float_scope.

(** The number an integer stands for: the binary64 value nearest to [n],
    ties to even, as JavaScript reads the literal.  It is [n] itself for
    every integer a JavaScript number can hold (all of them up to 2^53 in
    absolute value, and the multiples of the right power of two beyond),
    and an infinity beyond the binary64 range. *)
Definition toNumber (n : Z) : float :=
  SF2Prim (binary_normalize prec emax n 0 false).

(** The integer a whole number is written as; a zero of either sign is
    0.  An infinity is written as [2^1024] with its sign, the first
    integer that [toNumber] reads as an infinity; NaN, which two counts
    add up to only when they are the two infinities, has no integer and
    is written as 0. *)
Definition toInteger (x : float) : Z :=
  match Prim2SF x with
  | S754_finite s m e => cond_Zopp s (Z.shiftl (Z.pos m) e)
  | S754_infinity s => cond_Zopp s (2 ^ 1024)%Z
  | _ => 0%Z
  end.

(** [a + b] on two counts: the binary64 sum. *)
Definition addCount (a b : Z) : Z := toInteger (toNumber a + toNumber b).

(** [x] is the positive number [v], written with an exponent that is not
    below the smallest one. *)
Definition holds (x : spec_float) (v : Z) : Prop :=
  exists m e, x = S754_finite false m e /\ (-1074 <= e)%Z
              /\ (Z.pos m * 2 ^ (e + 1074) = v * 2 ^ 1074)%Z.

(** [0 <= x && x < Infinity]: a non-negative, finite number. *)
Definition isCount (x : float) : bool := (0 <=? x) && (x <? infinity).

(** A price per unit as the tables hold it: [+0] or positive and finite. *)
Definition isRate (r : float) : bool :=
  match classify r with
  | PZero | PNormal | PSubn => true
  | _ => false
  end.

(** A number that [JSON.stringify] writes and [JSON.parse] reads back
    unchanged: finite, and not the negative zero (written as [0]). *)
Definition isJsonNumber (x : float) : bool :=
  match classify x with
  | PZero | PNormal | NNormal | PSubn | NSubn => true
  | _ => false
  end.

(** Sign classes of the binary64 specification values. *)
Definition nonnegSF (x : spec_float) : Prop :=
  match x with
  | S754_zero _ | S754_finite false _ _ | S754_infinity false => True
  | _ => False
  end.

Definition countSF (x : spec_float) : Prop :=
  match x with
  | S754_zero _ | S754_finite false _ _ => True
  | _ => False
  end.

Definition rateSF (x : spec_float) : Prop :=
  match x with
  | S754_zero false | S754_finite false _ _ => True
  | _ => False
  end.

End JsNumber.

(** ** src/pricing.ts *)

Module Pricing.
Import JsString.
Local Open Scope float_scope.

(** function normalizeModelName(model) *)
Definition normalizeModelName (model : string) : string :=
  replaceVersions (String.length model) model.

(** The shapes of the values stored in [PRICING]. *)
Inductive PricingEntry :=
| TokenRate (input output : float)          (* { input, output }  *)
| ImageByQuality (standard hd : list (string * float)) (* dall-e-3 *)
| ImageBySize (sizes : list (string * float))          (* dall-e-2 *)
| PerMinute (perMinute : float)             (* whisper-1 *)
| PerChar (perChar : float).                (* tts-1, tts-1-hd *)

Definition PricingTable := list (string * PricingEntry).

(** [table[key]], [undefined] when the key is absent. *)
Fixpoint lookupKey {A} (key : string) (table : list (string * A)) : option A :=
  match table with
  | [] => None
  | (k, v) :: rest => if String.eqb k key then Some v else lookupKey key rest
  end.

(** PRICING.openai *)
Definition PRICING_openai : PricingTable :=
  [ ("gpt-5", TokenRate 0.00125 0.010);
    ("gpt-5-mini", TokenRate 0.00025 0.0010);
    ("gpt-4.1", TokenRate 0.0020 0.008);
    ("gpt-4.1-mini", TokenRate 0.00015 0.0006);
    ("gpt-4o", TokenRate 0.0025 0.010);
    ("gpt-4o-mini", TokenRate 0.00015 0.0006);
    ("o1", TokenRate 0.015 0.060);
    ("o1-mini", TokenRate 0.0011 0.0044);
    ("o1-pro", TokenRate 0.015 0.060);
    ("o3-mini", TokenRate 0.0011 0.0044);
    ("o4-mini", TokenRate 0.0011 0.0044);
    ("gpt-4-turbo-preview", TokenRate 0.01 0.03);
    ("gpt-4-turbo", TokenRate 0.01 0.03);
    ("gpt-4", TokenRate 0.03 0.06);
    ("gpt-4-32k", TokenRate 0.06 0.12);
    ("gpt-3.5-turbo", TokenRate 0.0005 0.0015);
    ("gpt-3.5-turbo-16k", TokenRate 0.001 0.002);
    ("text-embedding-ada-002", TokenRate 0.0001 0);
    ("text-embedding-3-small", TokenRate 0.00002 0);
    ("text-embedding-3-large", TokenRate 0.00013 0);
    ("dall-e-3",
      ImageByQuality
        [("1024x1024", 0.040); ("1024x1792", 0.080); ("1792x1024", 0.080)]
        [("1024x1024", 0.080); ("1024x1792", 0.120); ("1792x1024", 0.120)]);
    ("dall-e-2",
      ImageBySize [("1024x1024", 0.020); ("512x512", 0.018); ("256x256", 0.016)]);
    ("whisper-1", PerMinute 0.006);
    ("tts-1", PerChar 0.000015);
    ("tts-1-hd", PerChar 0.000030) ].

(** PRICING.anthropic *)
Definition PRICING_anthropic : PricingTable :=
  [ ("claude-opus-4.1-20250805", TokenRate 0.015 0.075);
    ("claude-opus-4-20250522", TokenRate 0.015 0.075);
    ("claude-opus-4-20250514", TokenRate 0.015 0.075);
    ("claude-sonnet-4.5-20250929", TokenRate 0.003 0.015);
    ("claude-sonnet-4-20250514", TokenRate 0.003 0.015);
    ("claude-3.5-sonnet-20241022", TokenRate 0.003 0.015);
    ("claude-3.5-haiku-20241022", TokenRate 0.00025 0.00125);
    ("claude-3-opus-20240229", TokenRate 0.015 0.075);
    ("claude-3-sonnet-20240229", TokenRate 0.003 0.015);
    ("claude-3-haiku-20240307", TokenRate 0.00025 0.00125);
    ("claude-2.1", TokenRate 0.008 0.024);
    ("claude-2.0", TokenRate 0.008 0.024);
    ("claude-instant-1.2", TokenRate 0.0008 0.0024) ].

(** PRICING.gemini *)
Definition PRICING_gemini : PricingTable :=
  [ ("gemini-2.0-flash-exp", TokenRate 0 0);
    ("gemini-2.0-flash-thinking-exp-1219", TokenRate 0 0);
    ("gemini-1.5-pro", TokenRate 0.00125 0.005);
    ("gemini-1.5-pro-001", TokenRate 0.00125 0.005);
    ("gemini-1.5-pro-002", TokenRate 0.00125 0.005);
    ("gemini-1.5-flash", TokenRate 0.000075 0.0003);
    ("gemini-1.5-flash-001", TokenRate 0.000075 0.0003);
    ("gemini-1.5-flash-002", TokenRate 0.000075 0.0003);
    ("gemini-1.5-flash-8b", TokenRate 0.0000375 0.00015);
    ("gemini-1.0-pro", TokenRate 0.0005 0.0015);
    ("gemini-1.0-pro-001", TokenRate 0.0005 0.0015);
    ("gemini-1.0-pro-vision", TokenRate 0.00025 0.0005);
    ("gemini-ultra", TokenRate 0.002 0.006) ].

(** The three lines repeated in every per-token branch:
    [inputCost = (inputTokens / 1000) * p.input], likewise for output,
    [return inputCost + outputCost]. *)
Definition tokenCost (input output inputTokens outputTokens : float) : float :=
  let inputCost := (inputTokens / 1000) * input in
  let outputCost := (outputTokens / 1000) * output in
  inputCost + outputCost.

(** The candidate lists, in the order the loops visit them. *)
Definition gptModels : list string :=
  [ "gpt-5"; "gpt-5-mini"; "gpt-4-1"; "gpt-4-1-mini";
    "gpt-4o"; "gpt-4o-mini";
    "o1"; "o1-mini"; "o1-pro"; "o3-mini"; "o4-mini";
    "gpt-4-turbo-preview"; "gpt-4-turbo"; "gpt-4"; "gpt-4-32k";
    "gpt-3-5-turbo"; "gpt-3-5-turbo-16k" ].

Definition claudeModels : list string :=
  [ "claude-opus-4-1-20250805"; "claude-opus-4-20250522"; "claude-opus-4-20250514";
    "claude-sonnet-4-5-20250929"; "claude-sonnet-4-20250514";
    "claude-3-5-sonnet-20241022"; "claude-3-5-haiku-20241022";
    "claude-3-opus-20240229"; "claude-3-sonnet-20240229"; "claude-3-haiku-20240307";
    "claude-2-1"; "claude-2-0"; "claude-instant-1-2" ].

Definition geminiModels : list string :=
  [ "gemini-2-0-flash-exp"; "gemini-2-0-flash-thinking-exp-1219";
    "gemini-1-5-pro"; "gemini-1-5-pro-001"; "gemini-1-5-pro-002";
    "gemini-1-5-flash"; "gemini-1-5-flash-001"; "gemini-1-5-flash-002";
    "gemini-1-5-flash-8b";
    "gemini-1-0-pro"; "gemini-1-0-pro-001"; "gemini-1-0-pro-vision";
    "gemini-ultra" ].

(** "Map normalized names back to pricing keys": the chains of
    [if (m === '...') pricingKey = '...'] of each loop body. *)
Definition remap (pairs : list (string * string)) (candidate : string) : string :=
  match lookupKey candidate pairs with
  | Some key => key
  | None => candidate
  end.

Definition gptKeys : list (string * string) :=
  [ ("gpt-4-1", "gpt-4.1"); ("gpt-4-1-mini", "gpt-4.1-mini");
    ("gpt-3-5-turbo", "gpt-3.5-turbo"); ("gpt-3-5-turbo-16k", "gpt-3.5-turbo-16k") ].

Definition claudeKeys : list (string * string) :=
  [ ("claude-opus-4-1-20250805", "claude-opus-4.1-20250805");
    ("claude-sonnet-4-5-20250929", "claude-sonnet-4.5-20250929");
    ("claude-3-5-sonnet-20241022", "claude-3.5-sonnet-20241022");
    ("claude-3-5-haiku-20241022", "claude-3.5-haiku-20241022");
    ("claude-2-1", "claude-2.1"); ("claude-2-0", "claude-2.0");
    ("claude-instant-1-2", "claude-instant-1.2") ].

Definition geminiKeys : list (string * string) :=
  [ ("gemini-2-0-flash-exp", "gemini-2.0-flash-exp");
    ("gemini-2-0-flash-thinking-exp-1219", "gemini-2.0-flash-thinking-exp-1219");
    ("gemini-1-5-pro", "gemini-1.5-pro");
    ("gemini-1-5-pro-001", "gemini-1.5-pro-001");
    ("gemini-1-5-pro-002", "gemini-1.5-pro-002");
    ("gemini-1-5-flash", "gemini-1.5-flash");
    ("gemini-1-5-flash-001", "gemini-1.5-flash-001");
    ("gemini-1-5-flash-002", "gemini-1.5-flash-002");
    ("gemini-1-5-flash-8b", "gemini-1.5-flash-8b");
    ("gemini-1-0-pro", "gemini-1.0-pro");
    ("gemini-1-0-pro-001", "gemini-1.0-pro-001");
    ("gemini-1-0-pro-vision", "gemini-1.0-pro-vision") ].

(** [for (const m of candidates) { if (normalizedModel.includes(m)) {
      const p = table[remap(m)]; if (p && 'input' in p) return ...; } }]
    The first candidate that is contained in the name and resolves to a
    per-token entry decides; [None] when the loop runs to its end. *)
Fixpoint matchLoop (table : PricingTable) (keys : list (string * string))
    (candidates : list string) (normalizedModel : string)
    (inputTokens outputTokens : float) : option float :=
  match candidates with
  | [] => None
  | m :: rest =>
      if includes normalizedModel m then
        match lookupKey (remap keys m) table with
        | Some (TokenRate input output) =>
            Some (tokenCost input output inputTokens outputTokens)
        | _ => matchLoop table keys rest normalizedModel inputTokens outputTokens
        end
      else matchLoop table keys rest normalizedModel inputTokens outputTokens
  end.

(** The default entry used when the loop finds nothing. *)
Definition defaultCost (table : PricingTable) (key : string)
    (inputTokens outputTokens : float) : option float :=
  match lookupKey key table with
  | Some (TokenRate input output) =>
      Some (tokenCost input output inputTokens outputTokens)
  | _ => None
  end.

(** The body of [if (provider === 'openai') { ... }]; [None] when control
    leaves the block without returning. *)
Definition openaiBlock (normalizedModel : string)
    (inputTokens outputTokens : float) : option float :=
  let openaiPricing := PRICING_openai in
  if startsWith normalizedModel "dall-e" then
    match lookupKey "dall-e-3" openaiPricing with
    | Some (ImageByQuality standard _) =>
        match lookupKey "1024x1024" standard with
        | Some rate => Some (inputTokens * rate)
        | None => Some (inputTokens * nan) (* [inputTokens * undefined] *)
        end
    | _ => Some (inputTokens * 0.040)
    end
  else
    let whisper :=
      if String.eqb normalizedModel "whisper-1" then
        match lookupKey "whisper-1" openaiPricing with
        | Some (PerMinute perMinute) => Some ((inputTokens / 60) * perMinute)
        | _ => None
        end
      else None in
    match whisper with
    | Some c => Some c
    | None =>
        let tts :=
          if startsWith normalizedModel "tts-" then
            match lookupKey normalizedModel openaiPricing with
            | Some (PerChar perChar) => Some (inputTokens * perChar)
            | _ => None
            end
          else None in
        match tts with
        | Some c => Some c
        | None =>
            match matchLoop openaiPricing gptKeys gptModels
                    normalizedModel inputTokens outputTokens with
            | Some c => Some c
            | None => defaultCost openaiPricing "gpt-3.5-turbo" inputTokens outputTokens
            end
        end
    end.

(** "Fallback for unknown providers" *)
Definition fallbackCost (inputTokens outputTokens : float) : float :=
  (inputTokens + outputTokens) * 0.001.

(** The two later blocks end in an unconditional [return]. *)
Definition providerBlock (table : PricingTable) (keys : list (string * string))
    (candidates : list string) (defaultKey : string)
    (normalizedModel : string) (inputTokens outputTokens : float) : float :=
  match matchLoop table keys candidates normalizedModel inputTokens outputTokens with
  | Some c => c
  | None =>
      match defaultCost table defaultKey inputTokens outputTokens with
      | Some c => c
      | None => fallbackCost inputTokens outputTokens
      end
  end.

(** export function calculateCost(provider, model, inputTokens, outputTokens) *)
Definition calculateCost (provider model : string)
    (inputTokens outputTokens : float) : float :=
  let normalizedModel := normalizeModelName model in
  match (if String.eqb provider "openai"
         then openaiBlock normalizedModel inputTokens outputTokens
         else None) with
  | Some c => c
  | None =>
      if String.eqb provider "anthropic" then
        providerBlock PRICING_anthropic claudeKeys claudeModels
          "claude-3-sonnet-20240229" normalizedModel inputTokens outputTokens
      else if String.eqb provider "gemini" then
        providerBlock PRICING_gemini geminiKeys geminiModels
          "gemini-1.5-flash" normalizedModel inputTokens outputTokens
      else fallbackCost inputTokens outputTokens
  end.

(** *** The resolver's tests, named

    What the properties below say about a model name is said with the
    tests the code itself performs. *)


(** The name takes one of the special-unit exits of the openai block. *)
Definition specialUnit (normalizedModel : string) : bool :=
  startsWith normalizedModel "dall-e"
  || String.eqb normalizedModel "whisper-1"
  || (startsWith normalizedModel "tts-"
      && match lookupKey normalizedModel PRICING_openai with
         | Some (PerChar _) => true
         | _ => false
         end).


(** Every price of an entry is [+0] or positive and finite. *)
Definition entryRatesOk (e : PricingEntry) : bool :=
  match e with
  | TokenRate input output => JsNumber.isRate input && JsNumber.isRate output
  | ImageByQuality standard hd =>
      forallb (fun kv => JsNumber.isRate (snd kv)) standard
      && forallb (fun kv => JsNumber.isRate (snd kv)) hd
  | ImageBySize sizes => forallb (fun kv => JsNumber.isRate (snd kv)) sizes
  | PerMinute r => JsNumber.isRate r
  | PerChar r => JsNumber.isRate r
  end.

Definition tableRatesOk (table : PricingTable) : bool :=
  forallb (fun kv => entryRatesOk (snd kv)) table.

(** The free-preview Gemini models, in dotted and in dashed spelling. *)
Definition freePreviewModels : list string :=
  [ "gemini-2.0-flash-exp"; "gemini-2.0-flash-thinking-exp-1219";
    "gemini-2-0-flash-exp"; "gemini-2-0-flash-thinking-exp-1219" ].

End Pricing.

(** ** JavaScript values, and what survives a trip through JSON *)

Module Json.
Import JsNumber.

(** The time value of a [Date] object: milliseconds since the epoch (at
    most 8.64e15 in absolute value), or "Invalid Date". *)
Inductive Date := ValidDate (ms : Z) | InvalidDate.

(** Values that can sit in a record field or in the open [metadata] bag.
    A number is a [JsCount] where the program holds a count (tokens, a
    duration in milliseconds) and a [JsNumber], a binary64 value, where it
    holds money or anything else.  [JsIso t] is a string in the date-time
    format, as [toJSON] prints [Date t] and as [Date.parse] reads back to
    [t]; [JsString] is every other string. *)
#[local] Unset Elimination Schemes.
Inductive JsValue :=
| JsUndefined
| JsNull
| JsBool (b : bool)
| JsCount (n : Z)
| JsNumber (x : float)
| JsString (s : string)
| JsIso (t : Z)
| JsDate (d : Date)
| JsArray (items : list JsValue)
| JsObject (fields : list (string * JsValue)).
#[local] Set Elimination Schemes.

(** [JSON.stringify] of a number: [null] unless finite; [-0] prints [0]. *)
Definition jsonNumber (x : float) : JsValue :=
  if (PrimFloat.abs x <? infinity)%float
  then JsNumber (if (x =? 0)%float then 0%float else x)
  else JsNull.

(** [JSON.parse(JSON.stringify(v))].  [None]: nothing is written, which
    removes a property from its object and leaves [null] in an array. *)
Fixpoint jsonValue (v : JsValue) : option JsValue :=
  match v with
  | JsUndefined => None
  | JsNull => Some JsNull
  | JsBool b => Some (JsBool b)
  | JsCount n => Some (JsCount n)
  | JsNumber x => Some (jsonNumber x)
  | JsString s => Some (JsString s)
  | JsIso t => Some (JsIso t)
  | JsDate (ValidDate t) => Some (JsIso t)
  | JsDate InvalidDate => Some JsNull
  | JsArray items =>
      Some (JsArray (List.map (fun item =>
                        match jsonValue item with
                        | Some j => j
                        | None => JsNull
                        end) items))
  | JsObject fields =>
      Some (JsObject
              (List.flat_map (fun kv =>
                   match jsonValue (snd kv) with
                   | Some j => [(fst kv, j)]
                   | None => []
                   end) fields))
  end.

(** Values on which [jsonValue] is the identity. *)
Fixpoint jsonClean (v : JsValue) : bool :=
  match v with
  | JsUndefined => false
  | JsNull | JsBool _ | JsCount _ | JsString _ | JsIso _ => true
  | JsNumber x => isJsonNumber x
  | JsDate _ => false
  | JsArray items => forallb jsonClean items
  | JsObject fields => forallb (fun kv => jsonClean (snd kv)) fields
  end.

(** [obj[key]] *)
Definition getField (key : string) (fields : list (string * JsValue)) : JsValue :=
  match Pricing.lookupKey key fields with
  | Some v => v
  | None => JsUndefined
  end.

(** [{ ...obj, key: v }]: an existing key keeps its place. *)
Fixpoint setField (key : string) (v : JsValue) (fields : list (string * JsValue))
    : list (string * JsValue) :=
  match fields with
  | [] => [(key, v)]
  | (k, x) :: rest =>
      if String.eqb k key then (k, v) :: rest else (k, x) :: setField key v rest
  end.

(** [new Date(v)] for the values a timestamp field can hold; [None] for
    the argument shapes this model does not cover (strings in another
    format, fractional numbers, arrays, objects). *)
Definition newDate (v : JsValue) : option Date :=
  match v with
  | JsIso t => Some (ValidDate t)
  | JsDate d => Some d
  | JsUndefined => Some InvalidDate
  | JsNull => Some (ValidDate 0)
  | JsBool b => Some (ValidDate (if b then 1 else 0))
  | JsCount n =>
      Some (if (Z.abs n <=? 8640000000000000) then ValidDate n else InvalidDate)
  | JsString _ | JsNumber _ | JsArray _ | JsObject _ => None
  end.

End Json.

(** ** src/index.ts: the record types *)

Module Types.
Import Json.

Inductive Currency := USD | KRW.

Definition currencyName (c : Currency) : string :=
  match c with USD => "USD" | KRW => "KRW" end.

(** [cost: { amount: number; currency: 'USD' | 'KRW' }] *)
Record Cost := { amount : float; currency : Currency }.

(** interface TokenUsage *)
Record TokenUsage := {
  provider : string;
  model : string;
  inputTokens : option Z;
  outputTokens : option Z;
  totalTokens : Z;
  cost : Cost;
  timestamp : Date;
  userId : option string;
  sessionId : option string;
  metadata : option (list (string * JsValue))
}.

(** [Partial<TokenUsage>], the argument of [endTracking] *)
Record PartialUsage := {
  p_provider : option string;
  p_model : option string;
  p_inputTokens : option Z;
  p_outputTokens : option Z;
  p_totalTokens : option Z;
  p_cost : option Cost;
  p_metadata : option (list (string * JsValue))
}.

(** The values of [usageByModel]: [{ tokens: number; cost: number }] *)
Record ModelUsage := { tokens : Z; modelCost : float }.

(** interface UserUsage *)
Record UserUsage := {
  uu_userId : string;
  uu_totalTokens : Z;
  totalCost : float;
  uu_currency : Currency;
  usageByModel : list (string * ModelUsage);
  lastUsed : Date
}.

(** interface TrackerConfig (the fields the core reads) *)
Record TrackerConfig := {
  cfg_currency : option Currency;
  webhookUrl : option string;
  saveToDatabase : option bool;
  enableFileStorage : option bool
}.

(** [a || b] on strings: the empty string is falsy. *)
Definition orString (a : option string) (b : string) : string :=
  match a with
  | Some s => if String.eqb s "" then b else s
  | None => b
  end.

(** [a || b] on counts: zero is falsy. *)
Definition orCount (a : option Z) (b : Z) : Z :=
  match a with
  | Some n => if n =? 0 then b else n
  | None => b
  end.

(** [a || b] where a defined [a] is an object (always truthy). *)
Definition orObject {A} (a : option A) (b : A) : A :=
  match a with
  | Some x => x
  | None => b
  end.

End Types.

(** ** src/storage.ts *)

Module Storage.
Import Json Types JsNumber.

(** *** Records as the JavaScript objects they are *)

Definition optional {A} (f : A -> JsValue) (o : option A) : JsValue :=
  match o with
  | Some a => f a
  | None => JsUndefined
  end.

Definition costToJs (c : Cost) : JsValue :=
  JsObject [ ("amount", JsNumber (amount c));
             ("currency", JsString (currencyName (currency c))) ].

Definition usageToJs (u : TokenUsage) : JsValue :=
  JsObject [ ("provider", JsString (provider u));
             ("model", JsString (model u));
             ("totalTokens", JsCount (totalTokens u));
             ("inputTokens", optional JsCount (inputTokens u));
             ("outputTokens", optional JsCount (outputTokens u));
             ("cost", costToJs (cost u));
             ("timestamp", JsDate (timestamp u));
             ("userId", optional JsString (userId u));
             ("sessionId", optional JsString (sessionId u));
             ("metadata", optional JsObject (metadata u)) ].

Definition modelUsageToJs (m : ModelUsage) : JsValue :=
  JsObject [ ("tokens", JsCount (tokens m)); ("cost", JsNumber (modelCost m)) ].

Definition userUsageToJs (t : UserUsage) : JsValue :=
  JsObject [ ("userId", JsString (uu_userId t));
             ("totalTokens", JsCount (uu_totalTokens t));
             ("totalCost", JsNumber (totalCost t));
             ("currency", JsString (currencyName (uu_currency t)));
             ("usageByModel",
               JsObject (List.map (fun kv => (fst kv, modelUsageToJs (snd kv)))
                           (usageByModel t)));
             ("lastUsed", JsDate (lastUsed t)) ].

(** [Object.fromEntries(map)] *)
Definition fromEntries {A} (f : A -> JsValue) (m : gmap string A) : JsValue :=
  JsObject (List.map (fun kv => (fst kv, f (snd kv))) (map_to_list m)).

(** *** Reading a parsed document at the declared types

    The source casts ([JSON.parse(data) as StorageData]) without looking
    and keeps whatever the document holds.  The model is typed, so the
    cast is a reading: it is what the source does on the documents [save]
    writes ([Written], below); a document of another shape has no
    counterpart in the typed maps and is read as "no snapshot". *)

Definition asString (v : JsValue) : option string :=
  match v with JsString s => Some s | _ => None end.

Definition asCount (v : JsValue) : option Z :=
  match v with JsCount n => Some n | _ => None end.

Definition asNumber (v : JsValue) : option float :=
  match v with
  | JsNumber x => Some x
  | JsCount n => Some (toNumber n)
  | _ => None
  end.

Definition asObject (v : JsValue) : option (list (string * JsValue)) :=
  match v with JsObject fields => Some fields | _ => None end.

Definition asCurrency (v : JsValue) : option Currency :=
  match v with
  | JsString s =>
      if String.eqb s "USD" then Some USD
      else if String.eqb s "KRW" then Some KRW else None
  | _ => None
  end.

(** A property declared with [?]. *)
Definition asOptional {A} (f : JsValue -> option A) (v : JsValue) : option (option A) :=
  match v with
  | JsUndefined => Some None
  | _ => match f v with Some a => Some (Some a) | None => None end
  end.

Definition costOfJs (v : JsValue) : option Cost :=
  fields ← asObject v;
  a ← asNumber (getField "amount" fields);
  c ← asCurrency (getField "currency" fields);
  Some {| amount := a; currency := c |}.

(** One history item, with [usage.timestamp = new Date(usage.timestamp)]. *)
Definition usageOfJs (v : JsValue) : option TokenUsage :=
  fields ← asObject v;
  p ← asString (getField "provider" fields);
  m ← asString (getField "model" fields);
  total ← asCount (getField "totalTokens" fields);
  i ← asOptional asCount (getField "inputTokens" fields);
  o ← asOptional asCount (getField "outputTokens" fields);
  c ← costOfJs (getField "cost" fields);
  ts ← newDate (getField "timestamp" fields);
  u ← asOptional asString (getField "userId" fields);
  s ← asOptional asString (getField "sessionId" fields);
  md ← asOptional asObject (getField "metadata" fields);
  Some {| provider := p; model := m; inputTokens := i; outputTokens := o;
          totalTokens := total; cost := c; timestamp := ts;
          userId := u; sessionId := s; metadata := md |}.

Definition modelUsageOfJs (v : JsValue) : option ModelUsage :=
  fields ← asObject v;
  t ← asCount (getField "tokens" fields);
  c ← asNumber (getField "cost" fields);
  Some {| tokens := t; modelCost := c |}.

(** Every value of an object read at one type. *)
Definition entriesOf {A} (f : JsValue -> option A) (fields : list (string * JsValue))
  : option (list (string * A)) :=
  mapM (fun kv => match f (snd kv) with
                  | Some a => Some (fst kv, a)
                  | None => None
                  end) fields.

(** One total, with [userTotal.lastUsed = new Date(userTotal.lastUsed)]. *)
Definition userUsageOfJs (v : JsValue) : option UserUsage :=
  fields ← asObject v;
  u ← asString (getField "userId" fields);
  total ← asCount (getField "totalTokens" fields);
  c ← asNumber (getField "totalCost" fields);
  cur ← asCurrency (getField "currency" fields);
  byModel ← asObject (getField "usageByModel" fields) ≫= entriesOf modelUsageOfJs;
  d ← newDate (getField "lastUsed" fields);
  Some {| uu_userId := u; uu_totalTokens := total; totalCost := c;
          uu_currency := cur; usageByModel := byModel; lastUsed := d |}.

Definition historyOfJs (v : JsValue) : option (list TokenUsage) :=
  match v with
  | JsArray items => mapM usageOfJs items
  | _ => None
  end.

(** interface StorageData *)
Record StorageData := {
  history : gmap string (list TokenUsage);
  totals : gmap string UserUsage;
  lastSaved : JsValue
}.

Definition storageDataOfJs (parsed : JsValue) : option StorageData :=
  fields ← asObject parsed;
  h ← asObject (getField "history" fields) ≫= entriesOf historyOfJs;
  t ← asObject (getField "totals" fields) ≫= entriesOf userUsageOfJs;
  Some {| history := list_to_map h; totals := list_to_map t;
          lastSaved := getField "lastSaved" fields |}.

(** *** What JSON can carry

    The values a snapshot can hold without change: finite numbers other
    than the negative zero, valid dates in the two converted fields, and
    metadata made of JSON values only. *)

Definition dateStorable (d : Date) : bool :=
  match d with
  | ValidDate ms => Z.abs ms <=? 8640000000000000
  | InvalidDate => false
  end.

Definition usageStorable (u : TokenUsage) : bool :=
  isJsonNumber (amount (cost u))
  && dateStorable (timestamp u)
  && match metadata u with
     | Some fields => forallb (fun kv => jsonClean (snd kv)) fields
     | None => true
     end.

Definition totalStorable (t : UserUsage) : bool :=
  isJsonNumber (totalCost t)
  && dateStorable (lastUsed t)
  && forallb (fun kv => isJsonNumber (modelCost (snd kv))) (usageByModel t).

(** *** The file *)

(** What is at [storagePath]: nothing, text that [JSON.parse] rejects, or
    a JSON document, given by the value [JSON.parse] returns for it. *)
Inductive File := Missing | Unparsable | Document (parsed : JsValue).

(** The file together with the fate of the next write. *)
Record Disk := { file : File; writeFails : bool }.

(** FileStorage.load() *)
Definition load (disk : Disk) : option StorageData :=
  match file disk with
  | Missing => None
  | Unparsable => None
  | Document parsed => storageDataOfJs parsed
  end.

(** FileStorage.save(history, totals); [now] is the clock read by
    [new Date().toISOString()]. *)
Definition save (history : gmap string (list TokenUsage))
    (totals : gmap string UserUsage) (now : Z) (disk : Disk) : bool * Disk :=
  let data :=
    JsObject [ ("history", fromEntries (fun h => JsArray (List.map usageToJs h)) history);
               ("totals", fromEntries userUsageToJs totals);
               ("lastSaved", JsIso now) ] in
  match jsonValue data with
  | Some json =>
      if writeFails disk then (false, disk)
      else (true, {| file := Document json; writeFails := writeFails disk |})
  | None => (false, disk)
  end.


(** FileStorage.clear() *)
Definition clear (disk : Disk) : bool * Disk :=
  match file disk with
  | Missing => (true, disk)
  | _ =>
      if writeFails disk then (false, disk)
      else (true, {| file := Missing; writeFails := writeFails disk |})
  end.

End Storage.

(** ** src/tracker.ts: class TokenTracker *)

Module Tracker.
Import Json Types JsNumber Storage.
Local Open Scope float_scope.

(** The value kept in [activeTracking] between start and end. *)
Record Tracking := {
  t_userId : option string;
  t_sessionId : option string;
  startTime : Z
}.

(** The fields of a [TokenTracker] instance.  [storage] is [true] when
    [this.storage] holds a [FileStorage]. *)
Record TokenTracker := {
  config : TrackerConfig;
  usageHistory : gmap string (list TokenUsage);
  activeTracking : gmap string Tracking;
  userTotals : gmap string UserUsage;
  storage : bool;
  defaultUserId : option string
}.

(** What a call reads from outside: the clock ([Date.now()], [new Date()];
    the reads inside one synchronous call are taken at the same instant)
    and the nine characters [Math.random().toString(36).substr(2, 9)]. *)
Record Env := { now : Z; random : string }.

(** A tracker and the file its storage writes to. *)
Definition World : Type := TokenTracker * Disk.

Inductive Outcome := Returned | Threw (message : string).

Definition withMaps (t : TokenTracker)
    (h : gmap string (list TokenUsage)) (u : gmap string UserUsage) : TokenTracker :=
  {| config := config t; usageHistory := h; activeTracking := activeTracking t;
     userTotals := u; storage := storage t; defaultUserId := defaultUserId t |}.

Definition withTracking (t : TokenTracker) (a : gmap string Tracking) : TokenTracker :=
  {| config := config t; usageHistory := usageHistory t; activeTracking := a;
     userTotals := userTotals t; storage := storage t; defaultUserId := defaultUserId t |}.

(** private loadFromStorage() *)
Definition loadFromStorage (t : TokenTracker) (disk : Disk) : TokenTracker :=
  if storage t then
    match load disk with
    | Some data => withMaps t (history data) (totals data)
    | None => t
    end
  else t.

(** private saveToStorage() *)
Definition saveToStorage (env : Env) (w : World) : World :=
  let '(t, disk) := w in
  if storage t
  then (t, snd (save (usageHistory t) (userTotals t) (now env) disk))
  else w.

(** constructor(config = {}):
    [{ currency: 'USD', saveToDatabase: false, enableFileStorage: true, ...config }] *)
Definition mergeConfig (c : TrackerConfig) : TrackerConfig :=
  {| cfg_currency := Some (orObject (cfg_currency c) USD);
     webhookUrl := webhookUrl c;
     saveToDatabase := Some (orObject (saveToDatabase c) false);
     enableFileStorage := Some (orObject (enableFileStorage c) true) |}.

Definition newTokenTracker (c : TrackerConfig) (disk : Disk) : TokenTracker :=
  let t := {| config := mergeConfig c; usageHistory := ∅; activeTracking := ∅;
              userTotals := ∅; storage := false; defaultUserId := None |} in
  match enableFileStorage (config t) with
  | Some false => t
  | _ =>
      loadFromStorage
        {| config := config t; usageHistory := ∅; activeTracking := ∅;
           userTotals := ∅; storage := true; defaultUserId := None |} disk
  end.

(** [userId || this.defaultUserId] *)
Definition sessionUser (userId : option string) (t : TokenTracker) : option string :=
  match userId with
  | Some u => if String.eqb u "" then defaultUserId t else Some u
  | None => defaultUserId t
  end.

(** [`track_${Date.now()}_${Math.random().toString(36).substr(2, 9)}`] *)
Definition trackingIdOf (env : Env) : string :=
  "track_" ++ pretty (now env) ++ "_" ++ random env.

(** startTracking(userId?, sessionId?): string *)
Definition startTracking (userId sessionId : option string) (env : Env)
    (t : TokenTracker) : string * TokenTracker :=
  let trackingId := trackingIdOf env in
  (trackingId,
   withTracking t
     (<[trackingId := {| t_userId := sessionUser userId t; t_sessionId := sessionId;
                         startTime := now env |}]> (activeTracking t))).

(** private calculateCost(provider, model, inputTokens, outputTokens) *)
Definition calculateCost (t : TokenTracker) (provider model : string)
    (inputTokens outputTokens : Z) : Cost :=
  let costUSD :=
    Pricing.calculateCost provider model (toNumber inputTokens) (toNumber outputTokens) in
  match cfg_currency (config t) with
  | Some KRW => {| amount := costUSD * 1300; currency := KRW |}
  | _ => {| amount := costUSD; currency := USD |}
  end.

(** [usageByModel[modelKey]] created at zero when missing, then
    [.tokens += totalTokens; .cost += amount].  A new key goes last. *)
Fixpoint addToModel (modelKey : string) (n : Z) (c : float)
    (byModel : list (string * ModelUsage)) : list (string * ModelUsage) :=
  match byModel with
  | [] => [(modelKey, {| tokens := addCount 0 n; modelCost := 0 + c |})]
  | (k, m) :: rest =>
      if String.eqb k modelKey
      then (k, {| tokens := addCount (tokens m) n; modelCost := modelCost m + c |}) :: rest
      else (k, m) :: addToModel modelKey n c rest
  end.

(** The object [updateUserTotals] stores for a user seen for the first
    time; [lastUsed: new Date()] reads the clock. *)
Definition zeroTotal (userId : string) (env : Env) (t : TokenTracker) : UserUsage :=
  {| uu_userId := userId; uu_totalTokens := 0; totalCost := 0;
     uu_currency := orObject (cfg_currency (config t)) USD;
     usageByModel := []; lastUsed := ValidDate (now env) |}.

(** The five assignments of [updateUserTotals] on [userTotal]. *)
Definition addUsage (usage : TokenUsage) (userTotal : UserUsage) : UserUsage :=
  {| uu_userId := uu_userId userTotal;
     uu_totalTokens := addCount (uu_totalTokens userTotal) (totalTokens usage);
     totalCost := totalCost userTotal + amount (cost usage);
     uu_currency := uu_currency userTotal;
     usageByModel :=
       addToModel (provider usage ++ "/" ++ model usage)
         (totalTokens usage) (amount (cost usage)) (usageByModel userTotal);
     lastUsed := timestamp usage |}.

(** private updateUserTotals(userId, usage) *)
Definition updateUserTotals (userId : string) (usage : TokenUsage) (env : Env)
    (t : TokenTracker) : TokenTracker :=
  let userTotal :=
    match userTotals t !! userId with
    | Some total => total
    | None => zeroTotal userId env t
    end in
  withMaps t (usageHistory t) (<[userId := addUsage usage userTotal]> (userTotals t)).

(** [this.usageHistory.get(userId) || []] *)
Definition historyOf (userId : string) (t : TokenTracker) : list TokenUsage :=
  match usageHistory t !! userId with
  | Some h => h
  | None => []
  end.

(** recordUsage(usage).  The webhook POST and the database placeholder
    are fire-and-forget calls that touch neither the tracker nor the
    file; they have no counterpart here. *)
Definition recordUsage (usage : TokenUsage) (env : Env) (w : World) : World :=
  let '(t, disk) := w in
  let userId := orString (Types.userId usage) "anonymous" in
  let t1 :=
    withMaps t (<[userId := (historyOf userId t ++ [usage])%list]> (usageHistory t))
      (userTotals t) in
  let t2 := updateUserTotals userId usage env t1 in
  saveToStorage env (t2, disk).

(** The object literal [fullUsage] of [endTracking]. *)
Definition fullUsage (t : TokenTracker) (tracking : Tracking) (usage : PartialUsage)
    (env : Env) : TokenUsage :=
  {| provider := orString (p_provider usage) "openai";
     model := orString (p_model usage) "unknown";
     totalTokens :=
       orCount (p_totalTokens usage)
         (addCount (orCount (p_inputTokens usage) 0) (orCount (p_outputTokens usage) 0));
     inputTokens := p_inputTokens usage;
     outputTokens := p_outputTokens usage;
     cost :=
       orObject (p_cost usage)
         (calculateCost t
            (orString (p_provider usage) "openai")
            (orString (p_model usage) "unknown")
            (orCount (p_inputTokens usage) 0)
            (orCount (p_outputTokens usage) 0));
     timestamp := ValidDate (now env);
     userId := t_userId tracking;
     sessionId := t_sessionId tracking;
     metadata :=
       Some (setField "duration" (JsCount (now env - startTime tracking)%Z)
               (match p_metadata usage with Some md => md | None => [] end)) |}.

(** endTracking(trackingId, usage): void *)
Definition endTracking (trackingId : string) (usage : PartialUsage) (env : Env)
    (w : World) : Outcome * World :=
  let '(t, disk) := w in
  match activeTracking t !! trackingId with
  | None => (Threw ("Tracking ID " ++ trackingId ++ " not found"), w)
  | Some tracking =>
      let '(t1, disk1) := recordUsage (fullUsage t tracking usage env) env w in
      (Returned, (withTracking t1 (delete trackingId (activeTracking t1)), disk1))
  end.

(** getUserUsage(userId): UserUsage | null *)
Definition getUserUsage (userId : string) (t : TokenTracker) : option UserUsage :=
  userTotals t !! userId.

(** [array.slice(start)] *)
Definition slice {A} (start : Z) (l : list A) : list A :=
  let len := Z.of_nat (length l) in
  let k := if (start <? 0)%Z then Z.max (len + start) 0 else Z.min start len in
  drop (Z.to_nat k) l.

(** getUserHistory(userId, limit = 100) *)
Definition getUserHistory (userId : string) (limit : Z) (t : TokenTracker)
    : list TokenUsage :=
  slice (- limit) (historyOf userId t).

(** clearUserUsage(userId) *)
Definition clearUserUsage (userId : string) (env : Env) (w : World) : World :=
  let '(t, disk) := w in
  saveToStorage env
    (withMaps t (delete userId (usageHistory t)) (delete userId (userTotals t)), disk).

(** *** Sequences of calls *)

(** The calls that change a tracker. *)
Inductive Call :=
| CallStart (userId sessionId : option string)
| CallEnd (trackingId : string) (usage : PartialUsage)
| CallRecord (usage : TokenUsage)
| CallClear (userId : string).

(** One call; an [endTracking] that throws is caught by the caller. *)
Definition perform (call : Call) (env : Env) (w : World) : World :=
  match call with
  | CallStart userId sessionId => (snd (startTracking userId sessionId env (fst w)), snd w)
  | CallEnd trackingId usage => snd (endTracking trackingId usage env w)
  | CallRecord usage => recordUsage usage env w
  | CallClear userId => clearUserUsage userId env w
  end.

Definition performAll (calls : list (Call * Env)) (w : World) : World :=
  fold_left (fun w call => perform (fst call) (snd call) w) calls w.

(** The call is a [startTracking] that hands out the id [trackingId]. *)
Definition issues (trackingId : string) (call : Call * Env) : bool :=
  match fst call with
  | CallStart _ _ => String.eqb (trackingIdOf (snd call)) trackingId
  | _ => false
  end.

(** *** The aggregate as a fold of the record sequence

    The right-hand sides of the aggregate invariant: what the spec calls
    the fold of a user's UsageRecord sequence.  Sums run in recording
    order and are sums of binary64 numbers, for the counts as for the
    costs: the order is part of the value. *)

(** A sequence of [recordUsage] calls, each with what it reads from outside. *)
Definition recordAll (calls : list (TokenUsage * Env)) (w : World) : World :=
  fold_left (fun w call => recordUsage (fst call) (snd call) w) calls w.

(** The user a record is filed under: [usage.userId || 'anonymous']. *)
Definition recordUser (r : TokenUsage) : string := orString (userId r) "anonymous".

(** The breakdown key of a record: [`${usage.provider}/${usage.model}`]. *)
Definition modelKey (r : TokenUsage) : string := provider r ++ "/" ++ model r.

(** The UsageRecords of one user, in recording order. *)
Definition recordsOf (user : string) (calls : list (TokenUsage * Env)) : list TokenUsage :=
  List.filter (fun r => String.eqb (recordUser r) user) (List.map fst calls).

(** The records of a sequence that carry one breakdown key. *)
Definition forModel (key : string) (rs : list TokenUsage) : list TokenUsage :=
  List.filter (fun r => String.eqb (modelKey r) key) rs.

(** Sum of [totalTokens] over a record sequence, from 0, left to right,
    as the program adds. *)
Definition sumTokens (rs : list TokenUsage) : Z :=
  fold_left (fun acc r => addCount acc (totalTokens r)) rs 0%Z.

(** The same sum in the integers. *)
Definition exactTokens (rs : list TokenUsage) : Z :=
  fold_left (fun acc r => (acc + totalTokens r)%Z) rs 0%Z.

(** No count of the sequence is negative and their sum is at most 2^53:
    every partial sum is a safe integer. *)
Definition safeTokens (rs : list TokenUsage) : Prop :=
  Forall (fun r => (0 <= totalTokens r)%Z) rs /\ (exactTokens rs <= 2 ^ 53)%Z.

(** Sum of [cost.amount] over a record sequence, from 0, left to right. *)
Definition sumCost (rs : list TokenUsage) : float :=
  fold_left (fun acc r => acc + amount (cost r)) rs 0.

(** Sum of [tokens] across all breakdown entries, in the integers. *)
Definition breakdownTokens (agg : UserUsage) : Z :=
  fold_left (fun acc kv => (acc + tokens (snd kv))%Z) (usageByModel agg) 0%Z.

(** Sum of [cost] across all breakdown entries, in key order. *)
Definition breakdownCost (agg : UserUsage) : float :=
  fold_left (fun acc kv => acc + modelCost (snd kv)) (usageByModel agg) 0.

(** [agg] is the fold of the record sequence [rs]; while the counts add
    up to a safe integer, the total is also the sum across the breakdown. *)
Definition foldOf (rs : list TokenUsage) (agg : UserUsage) : Prop :=
  uu_totalTokens agg = sumTokens rs
  /\ totalCost agg = sumCost rs
  /\ (forall key,
        match Pricing.lookupKey key (usageByModel agg) with
        | None => forModel key rs = []
        | Some m =>
            forModel key rs <> []
            /\ tokens m = sumTokens (forModel key rs)
            /\ modelCost m = sumCost (forModel key rs)
        end)
  /\ (safeTokens rs -> uu_totalTokens agg = breakdownTokens agg).

(** The invariant of a tracker that has been fed the records [all]. *)
Definition Fed (all : list TokenUsage) (t : TokenTracker) : Prop :=
  forall user,
    let rs := List.filter (fun r => String.eqb (recordUser r) user) all in
    usageHistory t !! user = match rs with [] => None | _ :: _ => Some rs end
    /\ match userTotals t !! user with
       | None => rs = []
       | Some agg => rs <> [] /\ foldOf rs agg
       end.

(** The stored aggregate of every user is the fold of that user's stored
    history: the invariant of the data model, as a property of one state. *)
Definition Consistent (t : TokenTracker) : Prop :=
  forall user,
    match userTotals t !! user with
    | None => usageHistory t !! user = None
    | Some agg =>
        exists rs, usageHistory t !! user = Some rs /\ rs <> [] /\ foldOf rs agg
    end.

End Tracker.

(** ** src/mcp-server.ts: the compare_costs tool *)

Module McpServer.
Import Json Types JsNumber Storage Tracker.
Local Open Scope float_scope.

(** The curated list of [compareCosts]: provider, model, display name. *)
Definition models : list (string * string * string) :=
  [ ("openai", "gpt-3.5-turbo", "GPT-3.5");
    ("openai", "gpt-4", "GPT-4");
    ("anthropic", "claude-3-haiku-20240307", "Claude Haiku");
    ("anthropic", "claude-3-sonnet-20240229", "Claude Sonnet");
    ("anthropic", "claude-3-opus-20240229", "Claude Opus") ].

(** The same list as the [compare_costs] case of the JavaScript server
    names it. *)
Definition modelsJs : list (string * string * string) :=
  [ ("openai", "gpt-3.5-turbo", "GPT-3.5 Turbo");
    ("openai", "gpt-4", "GPT-4");
    ("anthropic", "claude-3-haiku-20240307", "Claude 3 Haiku");
    ("anthropic", "claude-3-sonnet-20240229", "Claude 3 Sonnet");
    ("anthropic", "claude-3-opus-20240229", "Claude 3 Opus") ].

(** [x || 0] on numbers: zero and NaN are falsy. *)
Definition orZero (x : option float) : float :=
  match x with
  | Some c => if (c =? 0) || negb (c =? c) then 0 else c
  | None => 0
  end.

(** The body of [models.map(...)] for one model: a tracking session for
    the scratch user is opened, ended with the split token count, read
    back and cleared. *)
Definition compareOne (scratch : string) (tokens : Z) (entry : string * string * string)
    (env : Env) (w : World) : (string * float) * World :=
  let '(provider, model, name) := entry in
  let '(t, disk) := w in
  let '(trackingId, t1) := startTracking (Some scratch) None env t in
  let '(_, (t2, disk2)) :=
    endTracking trackingId
      {| p_provider := Some provider; p_model := Some model;
         p_inputTokens := Some (tokens / 2)%Z;          (* Math.floor(tokens / 2) *)
         p_outputTokens := Some (- ((- tokens) / 2))%Z; (* Math.ceil(tokens / 2) *)
         p_totalTokens := Some tokens;
         p_cost := None; p_metadata := None |} env (t1, disk) in
  let usage := getUserUsage scratch t2 in
  let cost :=
    orZero (match usage with
            | Some u =>
                match Pricing.lookupKey (provider ++ "/" ++ model) (usageByModel u) with
                | Some m => Some (modelCost m)
                | None => None
                end
            | None => None
            end) in
  ((name, cost), clearUserUsage scratch env (t2, disk2)).

(** [models.map(...)], threading the tracker; [envs i] is what the
    [i]-th iteration reads from the clock and the random source. *)
Fixpoint compareAll (scratch : string) (tokens : Z)
    (entries : list (string * string * string))
    (i : nat) (envs : nat -> Env) (w : World) : list (string * float) * World :=
  match entries with
  | [] => ([], w)
  | entry :: rest =>
      let '(item, w1) := compareOne scratch tokens entry (envs i) w in
      let '(items, w2) := compareAll scratch tokens rest (S i) envs w1 in
      (item :: items, w2)
  end.

(** [Array.prototype.sort((a, b) => a.cost - b.cost)]: a stable sort;
    an element moves before another only when the comparator is
    negative. *)
Fixpoint insertByCost (x : string * float) (sorted : list (string * float))
    : list (string * float) :=
  match sorted with
  | [] => [x]
  | y :: rest =>
      if (snd x - snd y <? 0) then x :: y :: rest else y :: insertByCost x rest
  end.

Definition sortByCost (items : list (string * float)) : list (string * float) :=
  fold_left (fun sorted x => insertByCost x sorted) items [].

(** private compareCosts(args), in src/mcp-server.ts: the sorted
    [comparison] array from which the reply text is printed, rank by rank.
    The scratch user is ['_compare']. *)
Definition compareCosts (tokens : Z) (envs : nat -> Env) (w : World)
    : list (string * float) * World :=
  let '(comparison, w') := compareAll "_compare" tokens models 0 envs w in
  (sortByCost comparison, w').

(** case 'compare_costs', in the JavaScript server: the same steps with
    the scratch user ['_comparison'] and the longer display names. *)
Definition compare_costs (tokens : Z) (envs : nat -> Env) (w : World)
    : list (string * float) * World :=
  let '(comparison, w') := compareAll "_comparison" tokens modelsJs 0 envs w in
  (sortByCost comparison, w').

(** The cost the tool quotes for one model. *)
Definition quote (tokens : Z) (entry : string * string * string) : string * float :=
  let '(provider, model, name) := entry in
  (name,
   orZero (Some (0 + Pricing.calculateCost provider model
                       (toNumber (orCount (Some (tokens / 2)%Z) 0))
                       (toNumber (orCount (Some (- (- tokens / 2))%Z) 0))))).

(** Each cost is smaller than the next: no two ranks share a cost. *)
Fixpoint strictlyIncreasing (costs : list float) : bool :=
  match costs with
  | a :: (b :: _) as rest => (a <? b) && strictlyIncreasing rest
  | _ => true
  end.

(** No cost is larger than the next. *)
Fixpoint nonDecreasing (costs : list float) : bool :=
  match costs with
  | a :: (b :: _) as rest => (a <=? b) && nonDecreasing rest
  | _ => true
  end.

End McpServer.

(** ** Concrete trackers, calls and records

    The values at which the properties below are evaluated. *)

Module Scenarios.
Import Json Types JsNumber Storage Tracker.
Local Open Scope float_scope.

(** The usage argument of the worked example:
    [{ provider: 'openai', model: 'gpt-3.5-turbo', inputTokens: 100, outputTokens: 50 }] *)
Definition exampleUsage : PartialUsage :=
  {| p_provider := Some "openai"; p_model := Some "gpt-3.5-turbo";
     p_inputTokens := Some 100%Z; p_outputTokens := Some 50%Z;
     p_totalTokens := None; p_cost := None; p_metadata := None |}.

(** [new TokenTracker()] with nothing on disk. *)
Definition emptyConfig : TrackerConfig :=
  {| cfg_currency := None; webhookUrl := None; saveToDatabase := None;
     enableFileStorage := None |}.

Definition emptyDisk : Disk := {| file := Missing; writeFails := false |}.

Definition freshTracker : TokenTracker := newTokenTracker emptyConfig emptyDisk.

Definition someEnv : Env := {| now := 1759800000000; random := "k3x9q0zab" |}.

Definition laterEnv : Env := {| now := 1759800000750; random := "p07mmw2dc" |}.

(** A tracker configured for KRW, without file storage. *)
Definition wonConfig : TrackerConfig :=
  {| cfg_currency := Some KRW; webhookUrl := None; saveToDatabase := None;
     enableFileStorage := Some false |}.

(** Three calls of 100 input and 100 output tokens for one user:
    gpt-3.5-turbo, gpt-4, gpt-3.5-turbo, each cost as [endTracking] computes
    it. *)
Definition callFor (model : string) : TokenUsage * Env :=
  ({| provider := "openai"; model := model;
      inputTokens := Some 100%Z; outputTokens := Some 100%Z; totalTokens := 200;
      cost := Tracker.calculateCost freshTracker "openai" model 100 100;
      timestamp := ValidDate (now someEnv); userId := Some "ada"; sessionId := None;
      metadata := None |}, someEnv).

Definition threeCalls : list (TokenUsage * Env) :=
  [callFor "gpt-3.5-turbo"; callFor "gpt-4"; callFor "gpt-3.5-turbo"].

(** Three records of one user whose counts do not add up to a safe
    integer: 2^53 tokens on one model, then 1 and 1 on another. *)
Definition countedCall (model : string) (n : Z) : TokenUsage * Env :=
  ({| provider := "openai"; model := model;
      inputTokens := None; outputTokens := None; totalTokens := n;
      cost := {| amount := 0; currency := USD |};
      timestamp := ValidDate (now someEnv); userId := Some "ada"; sessionId := None;
      metadata := None |}, someEnv).

Definition largeCalls : list (TokenUsage * Env) :=
  [countedCall "gpt-4" (2 ^ 53); countedCall "gpt-3.5-turbo" 1;
   countedCall "gpt-3.5-turbo" 1].

(** A record with a finite cost, a valid timestamp and JSON metadata, and
    the total that [recordUsage] derives from it. *)
Definition plainUsage : TokenUsage :=
  {| provider := "openai"; model := "gpt-4";
     inputTokens := Some 100%Z; outputTokens := Some 100%Z; totalTokens := 200;
     cost := {| amount := 0.009; currency := USD |};
     timestamp := ValidDate 1759800000000; userId := Some "ada"; sessionId := None;
     metadata := Some [("duration", JsCount 750); ("error", JsBool true)] |}.





End Scenarios.

(** ** src/pricing.ts: the remaining exports, and names for the resolver *)

Module PricingTools.
Import JsString Pricing.

(** [Math.ceil(n / 4)] for a length [n]. *)
Definition ceilQuarter (n : Z) : Z := - ((- n) / 4).

(** export function estimateTokens(text, model = 'gpt-3.5-turbo').  A
    string is the sequence of its code units; [text.length] counts them. *)
Definition estimateTokens (text : string) (model : option string) : Z :=
  let model := match model with Some m => m | None => "gpt-3.5-turbo" end in
  if includes model "gpt-4" || includes model "gpt-3"
  then ceilQuarter (Z.of_nat (String.length text))
  else if includes model "claude"
  then ceilQuarter (Z.of_nat (String.length text))
  else ceilQuarter (Z.of_nat (String.length text)).

(** [dashed s s']: [s'] is [s] with some of its dots written as dashes,
    character by character. *)
Inductive dashed : string -> string -> Prop :=
| dashed_end : dashed "" ""
| dashed_same c s s' : dashed s s' -> dashed (String c s) (String c s')
| dashed_dot s s' : dashed s s' -> dashed (String "." s) (String "-" s').

(** The per-token entries of [PRICING.openai] and of [PRICING.gemini]
    whose candidate is not preceded, in the loop's list, by a candidate it
    contains. *)
Definition openaiPriced : list string :=
  [ "gpt-5"; "gpt-4.1"; "gpt-4o"; "o1"; "o3-mini"; "o4-mini";
    "gpt-4-turbo-preview"; "gpt-4-turbo"; "gpt-4"; "gpt-3.5-turbo" ].

Definition geminiPriced : list string :=
  [ "gemini-2.0-flash-exp"; "gemini-2.0-flash-thinking-exp-1219";
    "gemini-1.5-pro"; "gemini-1.5-flash"; "gemini-1.0-pro"; "gemini-ultra" ].

(** The same ten openai entries as the loop meets them: the identifier
    searched for in the normalized name, and the pricing key it stands
    for. *)
Definition openaiDeciding : list (string * string) :=
  [ ("gpt-5", "gpt-5"); ("gpt-4-1", "gpt-4.1"); ("gpt-4o", "gpt-4o");
    ("o1", "o1"); ("o3-mini", "o3-mini"); ("o4-mini", "o4-mini");
    ("gpt-4-turbo-preview", "gpt-4-turbo-preview"); ("gpt-4-turbo", "gpt-4-turbo");
    ("gpt-4", "gpt-4"); ("gpt-3-5-turbo", "gpt-3.5-turbo") ].

(** The openai entries whose identifier extends an earlier one of the
    loop's list. *)
Definition openaiShadowed : list string :=
  [ "gpt-5-mini"; "gpt-4.1-mini"; "gpt-4o-mini"; "o1-mini"; "o1-pro";
    "gpt-4-32k"; "gpt-3.5-turbo-16k" ].

(** The key of the first identifier of [pairs] that the name contains,
    [defaultKey] when it contains none. *)
Definition decidingKey (pairs : list (string * string)) (defaultKey : string)
    (normalizedModel : string) : string :=
  match List.find (fun kv => includes normalizedModel (fst kv)) pairs with
  | Some kv => snd kv
  | None => defaultKey
  end.

(** The price of nothing, at every rate of a table. *)
Definition freeAtZero (table : PricingTable) : bool :=
  forallb (fun kv =>
             match snd kv with
             | TokenRate input output => (tokenCost input output 0 0 =? 0)%float
             | PerChar perChar => (0 * perChar =? 0)%float
             | PerMinute perMinute => ((0 / 60) * perMinute =? 0)%float
             | _ => true
             end) table.

End PricingTools.

(** ** src/tracker.ts: the remaining methods, and the tracker's invariants *)

Module TrackerAdmin.
Import Json Types JsNumber Storage Tracker.
Local Open Scope float_scope.


(** clearAllStorage(): boolean *)
Definition clearAllStorage (w : World) : bool * World :=
  let '(t, disk) := w in
  if storage t then
    let '(ok, disk') := Storage.clear disk in
    (ok, (withMaps t ∅ ∅, disk'))
  else (false, w).

(** No character of the string is an underscore: so are the digits of
    [Date.now()] in a tracking id. *)
Fixpoint noUnderscore (s : string) : bool :=
  match s with
  | EmptyString => true
  | String c s' => negb (Ascii.eqb c "_") && noUnderscore s'
  end.

(** *** Bookkeeping of a stored aggregate

    What [updateUserTotals] maintains besides the sums: the aggregate
    carries its own key, the currency configured when it was created, and
    the timestamp of the user's latest record; the history under a key
    holds records of that user only. *)
Definition Tidy (t : TokenTracker) : Prop :=
  forall user,
    match userTotals t !! user with
    | None => usageHistory t !! user = None
    | Some agg =>
        uu_userId agg = user
        /\ uu_currency agg = orObject (cfg_currency (config t)) USD
        /\ exists older latest,
             usageHistory t !! user = Some (older ++ [latest])%list
             /\ lastUsed agg = timestamp latest
             /\ Forall (fun r => recordUser r = user) (older ++ [latest])%list
    end.

(** A record with a non-negative count and a non-negative cost. *)
Definition usageNonneg (r : TokenUsage) : bool :=
  (0 <=? totalTokens r)%Z && (0 <=? amount (cost r)).

(** A count that is absent or not negative. *)
Definition countNonneg (n : option Z) : bool :=
  match n with Some k => (0 <=? k)%Z | None => true end.

(** A count that is absent or within the binary64 range: beyond it the
    number is Infinity, which is not a count. *)
Definition countFinite (n : option Z) : bool :=
  match n with Some k => toNumber k <? infinity | None => true end.

(** A call that brings no negative number into the tracker, and no
    infinite one into a price. *)
Definition callNonneg (call : Call) : bool :=
  match call with
  | CallEnd _ usage =>
      countNonneg (p_inputTokens usage) && countNonneg (p_outputTokens usage)
      && countNonneg (p_totalTokens usage)
      && match p_cost usage with Some c => 0 <=? amount c | None => true end
      && countFinite (p_inputTokens usage) && countFinite (p_outputTokens usage)
  | CallRecord r => usageNonneg r
  | _ => true
  end.

(** An aggregate without a negative number. *)
Definition totalNonneg (agg : UserUsage) : bool :=
  (0 <=? uu_totalTokens agg)%Z && (0 <=? totalCost agg)
  && forallb (fun kv => (0 <=? tokens (snd kv))%Z && (0 <=? modelCost (snd kv)))
       (usageByModel agg).

(** No aggregate of the tracker holds a negative number. *)
Definition NonnegTotals (t : TokenTracker) : Prop :=
  map_Forall (fun _ agg => totalNonneg agg = true) (userTotals t).

(** Everything the tracker holds can be written to JSON and read back. *)
Definition Storable (t : TokenTracker) : Prop :=
  map_Forall (fun _ h => forallb usageStorable h = true) (usageHistory t)
  /\ map_Forall (fun _ a => totalStorable a = true) (userTotals t).

(** The call is [clearUserUsage(user)]. *)
Definition clears (user : string) (call : Call) : bool :=
  match call with
  | CallClear u => String.eqb u user
  | _ => false
  end.


End TrackerAdmin.

(** ** src/providers/openai.ts: class OpenAIWrapper *)

Module OpenAIWrapper.
Import Json Types JsNumber Storage Tracker PricingTools.
Local Open Scope float_scope.

(** How the awaited API call settles. *)
Inductive Settled (R : Type) := Resolved (response : R) | Rejected.
Arguments Resolved {R} response.
Arguments Rejected {R}.

(** How a wrapper settles in turn: with the response, to which it has
    attached [_tokenUsage]; with the generator
    [this.wrapStream(response, trackingId, usage)], not yet run, which
    holds the session's id and the model; or by rethrowing. *)
Inductive Completion :=
| Answered (_tokenUsage : JsValue)
| Streaming (trackingId model : string)
| Raised.

(** The call would end the session [trackingId] or hand its id out again. *)
Definition disturbs (trackingId : string) (call : Call * Env) : bool :=
  match fst call with
  | CallStart _ _ => String.eqb (trackingIdOf (snd call)) trackingId
  | CallEnd other _ => String.eqb other trackingId
  | _ => false
  end.

(** [this.tracker.getUserUsage('anonymous')?.totalCost || 0] *)
Definition anonymousCost (t : TokenTracker) : float :=
  McpServer.orZero (match getUserUsage "anonymous" t with
                    | Some u => Some (totalCost u)
                    | None => None
                    end).

(** The shape shared by the four wrappers:
    [const trackingId = this.tracker.startTracking();
     try { const response = await ...; usage = ...;
           this.tracker.endTracking(trackingId, usage);
           response._tokenUsage = ...; return response; }
     catch (error) { this.tracker.endTracking(trackingId, failure); throw error; }]
    [between] are the calls other tasks make on the tracker while the
    request is pending. *)
Definition tracked {R} (usageOf : R -> PartialUsage)
    (report : PartialUsage -> TokenTracker -> Env -> JsValue) (failure : PartialUsage)
    (outcome : Settled R) (envStart : Env) (between : list (Call * Env)) (envEnd : Env)
    (w : World) : Completion * World :=
  let '(t, disk) := w in
  let '(trackingId, t1) := startTracking None None envStart t in
  let pending := performAll between (t1, disk) in
  match outcome with
  | Resolved response =>
      let usage := usageOf response in
      match endTracking trackingId usage envEnd pending with
      | (Returned, done) => (Answered (report usage (fst done) envEnd), done)
      | (Threw _, done) => (Raised, snd (endTracking trackingId failure envEnd done))
      end
  | Rejected => (Raised, snd (endTracking trackingId failure envEnd pending))
  end.

(** [{ provider: 'openai', model, totalTokens: 0, metadata: { error: true } }] *)
Definition failed (model : string) : PartialUsage :=
  {| p_provider := Some "openai"; p_model := Some model;
     p_inputTokens := None; p_outputTokens := None; p_totalTokens := Some 0%Z;
     p_cost := None; p_metadata := Some [("error", JsBool true)] |}.

(** [response.usage] of a chat completion or an embeddings response. *)
Record ApiUsage := {
  prompt_tokens : option Z;
  completion_tokens : option Z;
  total_tokens : option Z
}.

(** private async wrapChatCompletion(...args) on the paths that end the
    session: a request without [stream], or a call that rejects;
    [response] is [response.usage]. *)
Definition completeChat (model : option string)
    : Settled (option ApiUsage) -> Env -> list (Call * Env) -> Env -> World
      -> Completion * World :=
  tracked
    (fun response =>
       match response with
       | Some usage =>
           {| p_provider := Some "openai"; p_model := Some (orString model "gpt-3.5-turbo");
              p_inputTokens := prompt_tokens usage;
              p_outputTokens := completion_tokens usage;
              p_totalTokens := total_tokens usage;
              p_cost := None; p_metadata := None |}
       | None =>
           {| p_provider := Some "openai"; p_model := Some (orString model "gpt-3.5-turbo");
              p_inputTokens := None; p_outputTokens := None; p_totalTokens := None;
              p_cost := None; p_metadata := None |}
       end)
    (fun usage t env =>
       JsObject [ ("tokens", optional JsCount (p_totalTokens usage));
                  ("inputTokens", optional JsCount (p_inputTokens usage));
                  ("outputTokens", optional JsCount (p_outputTokens usage));
                  ("cost", JsNumber (anonymousCost t));
                  ("model", optional JsString (p_model usage));
                  ("timestamp", JsIso (now env)) ])
    (failed (orString model "unknown")).

(** private async wrapChatCompletion(...args); [stream] is
    [args[0]?.stream].  When the awaited call of a streaming request
    resolves, the wrapper returns the generator at once
    ([return this.wrapStream(response, trackingId, usage)]) and
    [endTracking] is left to the generator. *)
Definition wrapChatCompletion (model : option string) (stream : bool)
    (outcome : Settled (option ApiUsage)) (envStart : Env) (between : list (Call * Env))
    (envEnd : Env) (w : World) : Completion * World :=
  match outcome with
  | Resolved _ =>
      if stream then
        let '(trackingId, t1) := startTracking None None envStart (fst w) in
        (Streaming trackingId (orString model "gpt-3.5-turbo"),
         performAll between (t1, snd w))
      else completeChat model outcome envStart between envEnd w
  | Rejected => completeChat model outcome envStart between envEnd w
  end.

(** private async wrapEmbeddings(...args) *)
Definition wrapEmbeddings (model : option string)
    : Settled (option ApiUsage) -> Env -> list (Call * Env) -> Env -> World
      -> Completion * World :=
  tracked
    (fun response =>
       {| p_provider := Some "openai";
          p_model := Some (orString model "text-embedding-ada-002");
          p_inputTokens :=
            Some (orCount (match response with Some u => prompt_tokens u | None => None end) 0);
          p_outputTokens := Some 0%Z;
          p_totalTokens :=
            Some (orCount (match response with Some u => total_tokens u | None => None end) 0);
          p_cost := None; p_metadata := None |})
    (fun usage t env =>
       JsObject [ ("tokens", optional JsCount (p_totalTokens usage));
                  ("cost", JsNumber (anonymousCost t));
                  ("model", optional JsString (p_model usage));
                  ("timestamp", JsIso (now env)) ])
    (failed (orString model "unknown")).

(** private async wrapImageGeneration(...args); [n] is [args[0]?.n]. *)
Definition wrapImageGeneration (model : option string) (n : option Z)
    : Settled unit -> Env -> list (Call * Env) -> Env -> World -> Completion * World :=
  tracked
    (fun _ =>
       {| p_provider := Some "openai"; p_model := Some (orString model "dall-e-3");
          p_inputTokens := Some (orCount n 1); p_outputTokens := Some 0%Z;
          p_totalTokens := Some (orCount n 1);
          p_cost := None; p_metadata := None |})
    (fun usage t env =>
       JsObject [ ("images", optional JsCount (p_totalTokens usage));
                  ("cost", JsNumber (anonymousCost t));
                  ("model", optional JsString (p_model usage));
                  ("timestamp", JsIso (now env)) ])
    (failed "dall-e-3").

(** private async wrapAudioTranscription(...args):
    [const estimatedSeconds = 60]. *)
Definition wrapAudioTranscription
    : Settled unit -> Env -> list (Call * Env) -> Env -> World -> Completion * World :=
  tracked
    (fun _ =>
       {| p_provider := Some "openai"; p_model := Some "whisper-1";
          p_inputTokens := Some 60%Z; p_outputTokens := Some 0%Z;
          p_totalTokens := Some 60%Z;
          p_cost := None; p_metadata := None |})
    (fun usage t env =>
       JsObject [ ("seconds", optional JsCount (p_totalTokens usage));
                  ("cost", JsNumber (anonymousCost t));
                  ("model", optional JsString (p_model usage));
                  ("timestamp", JsIso (now env)) ])
    (failed "whisper-1").

(** *** private async *wrapStream(stream, trackingId, usage)

    A chunk is given by [chunk.choices?.[0]?.delta?.content]; the stream
    ends or throws after the chunks listed. *)

(** [content += ...] over the chunks read so far. *)
Definition streamed (chunks : list (option string)) : string :=
  fold_left (fun content chunk =>
               match chunk with
               | Some text => content ++ text
               | None => content
               end) chunks "".

(** [accumulatedTokens = Math.ceil(content.length / 4)] *)
Definition accumulatedTokens (chunks : list (option string)) : Z :=
  ceilQuarter (Z.of_nat (String.length (streamed chunks))).

(** The [_tokenUsage.accumulated] attached to the chunks, in order. *)
Definition annotations (chunks : list (option string)) : list Z :=
  List.map (fun k => accumulatedTokens (firstn (S k) chunks)) (seq 0 (length chunks)).

(** The generator, run to its end by the consumer.  [usage] holds the
    provider and the model only, as [wrapChatCompletion] passes it. *)
Definition wrapStream (chunks : list (option string)) (ending : Settled unit)
    (trackingId : string) (model : string) (envEnd : Env) (w : World)
    : Outcome * World :=
  match ending with
  | Resolved _ =>
      endTracking trackingId
        {| p_provider := Some "openai"; p_model := Some model;
           p_inputTokens := None;
           p_outputTokens := Some (accumulatedTokens chunks);
           (* (usage.inputTokens || 0) + accumulatedTokens: 0 + n is n *)
           p_totalTokens := Some (orCount None 0 + accumulatedTokens chunks)%Z;
           p_cost := None; p_metadata := None |} envEnd w
  | Rejected =>
      (Threw "(the error of the stream)",
       snd (endTracking trackingId
              {| p_provider := Some "openai"; p_model := Some model;
                 p_inputTokens := None; p_outputTokens := None;
                 p_totalTokens := Some (accumulatedTokens chunks);
                 p_cost := None; p_metadata := Some [("error", JsBool true)] |} envEnd w))
  end.

End OpenAIWrapper.

(** ** src/providers/anthropic.ts: AnthropicWrapper.wrapStream *)

Module AnthropicWrapper.
Import Json Types JsNumber Storage Tracker PricingTools OpenAIWrapper.

(** [chunk.usage], [chunk.message?.usage]: the two counts a usage object
    may carry. *)
Record StreamUsage := { input_tokens : option Z; output_tokens : option Z }.

(** A chunk of Claude's stream, by [chunk.type], with the fields the
    wrapper reads. *)
Inductive Chunk :=
| MessageStart (usage : option StreamUsage)     (* chunk.message?.usage *)
| ContentBlockDelta (text : option string)      (* chunk.delta?.text *)
| MessageDelta (usage : option StreamUsage)     (* chunk.usage *)
| MessageStop (usage : option StreamUsage)      (* chunk.usage *)
| OtherChunk.

(** The three local variables of the generator. *)
Record Counters := {
  accumulatedContent : string;
  inputTokens : Z;
  outputTokens : Z
}.

Definition start : Counters :=
  {| accumulatedContent := ""; inputTokens := 0; outputTokens := 0 |}.

(** The body of [for await (const chunk of stream)], up to the [yield]. *)
Definition step (c : Counters) (chunk : Chunk) : Counters :=
  match chunk with
  | MessageStart (Some usage) =>
      {| accumulatedContent := accumulatedContent c;
         inputTokens := orCount (input_tokens usage) 0;
         outputTokens := outputTokens c |}
  | ContentBlockDelta (Some text) =>
      if String.eqb text "" then c
      else
        {| accumulatedContent := accumulatedContent c ++ text;
           inputTokens := inputTokens c;
           outputTokens :=
             ceilQuarter (Z.of_nat (String.length (accumulatedContent c ++ text))) |}
  | MessageDelta (Some usage) =>
      {| accumulatedContent := accumulatedContent c;
         inputTokens := inputTokens c;
         outputTokens := orCount (output_tokens usage) (outputTokens c) |}
  | MessageStop (Some usage) =>
      {| accumulatedContent := accumulatedContent c;
         inputTokens := orCount (input_tokens usage) (inputTokens c);
         outputTokens := orCount (output_tokens usage) (outputTokens c) |}
  | _ => c
  end.

Definition counters (chunks : list Chunk) : Counters := fold_left step chunks start.

(** [chunk._tokenUsage.accumulated] of the chunks, in order. *)
Definition accumulated (chunks : list Chunk) : list Z :=
  List.map (fun k =>
              let c := counters (firstn (S k) chunks) in
              addCount (inputTokens c) (outputTokens c))
    (seq 0 (length chunks)).

(** The generator run to its end by the consumer; [model] is
    [usage.model] as [wrapMessageCreate] passes it. *)
Definition wrapStream (chunks : list Chunk) (ending : Settled unit)
    (trackingId : string) (model : string) (envEnd : Env) (w : World)
    : Outcome * World :=
  let c := counters chunks in
  match ending with
  | Resolved _ =>
      endTracking trackingId
        {| p_provider := Some "anthropic"; p_model := Some model;
           p_inputTokens := Some (inputTokens c);
           p_outputTokens := Some (outputTokens c);
           p_totalTokens := Some (addCount (inputTokens c) (outputTokens c));
           p_cost := None; p_metadata := None |} envEnd w
  | Rejected =>
      (Threw "(the error of the stream)",
       snd (endTracking trackingId
              {| p_provider := Some "anthropic"; p_model := Some model;
                 p_inputTokens := None; p_outputTokens := None;
                 p_totalTokens := Some (addCount (inputTokens c) (outputTokens c));
                 p_cost := None; p_metadata := Some [("error", JsBool true)] |} envEnd w))
  end.

(** A stream as the Messages API sends it: the input count at the start,
    text, then the output count. *)
Definition reported (input output : Z) (texts : list string) : list Chunk :=
  (MessageStart (Some {| input_tokens := Some input; output_tokens := None |})
   :: List.map (fun text => ContentBlockDelta (Some text)) texts
   ++ [ MessageDelta (Some {| input_tokens := None; output_tokens := Some output |});
        MessageStop None ])%list.

End AnthropicWrapper.

(** ** The exchange-rate module: class ExchangeRateManager *)

Module ExchangeRate.
Import Json JsNumber Storage.

(** The fields of an [ExchangeRateManager]; [Disk] is the cache file. *)
Record ExchangeRateManager := {
  cacheExpiryHours : Z;
  fallbackRate : float
}.

(** constructor(cacheExpiryHours = 24), [fallbackRate = 1380] *)
Definition newExchangeRateManager (hours : option Z) : ExchangeRateManager :=
  {| cacheExpiryHours := match hours with Some h => h | None => 24 end;
     fallbackRate := 1380%float |}.

(** setFallbackRate(rate) *)
Definition setFallbackRate (rate : float) (m : ExchangeRateManager) : ExchangeRateManager :=
  {| cacheExpiryHours := cacheExpiryHours m; fallbackRate := rate |}.

(** A value in the position of a condition. *)
Definition truthy (v : JsValue) : bool :=
  match v with
  | JsUndefined | JsNull => false
  | JsBool b => b
  | JsCount n => negb (n =? 0)
  | JsNumber x => negb ((x =? 0) || negb (x =? x))%float
  | JsString s => negb (String.eqb s "")
  | JsIso _ | JsDate _ | JsArray _ | JsObject _ => true
  end.

(** [v.key] on a value that [JSON.parse] returned and that is not [null]. *)
Definition member (key : string) (v : JsValue) : JsValue :=
  match v with
  | JsObject fields => getField key fields
  | _ => JsUndefined
  end.

(** private loadFromCache(): the parsed file, [null] when it is missing
    or not JSON. *)
Definition loadFromCache (disk : Disk) : JsValue :=
  match file disk with
  | Document parsed => parsed
  | Missing | Unparsable => JsNull
  end.

(** private saveToCache(rate, source); [now] is [new Date()]. *)
Definition saveToCache (rate : float) (source : string) (now : Z) (disk : Disk) : Disk :=
  match jsonValue (JsObject [ ("rate", JsNumber rate);
                              ("lastUpdated", JsIso now);
                              ("source", JsString source) ]) with
  | Some json =>
      if writeFails disk then disk
      else {| file := Document json; writeFails := writeFails disk |}
  | None => disk
  end.

(** private isCacheExpired(lastUpdated); [None] when [new Date(lastUpdated)]
    is outside what [newDate] covers.  A comparison with NaN is false. *)
Definition isCacheExpired (m : ExchangeRateManager) (lastUpdated : JsValue) (now : Z)
    : option bool :=
  match newDate lastUpdated with
  | Some (ValidDate lastUpdateTime) =>
      Some (cacheExpiryHours m * 60 * 60 * 1000 <? now - lastUpdateTime)
  | Some InvalidDate => Some false
  | None => None
  end.

(** What the request to the rate service comes to: no response, or a
    response with its [ok] flag and [data.rates?.KRW]. *)
Inductive Response := NetworkError | Http (ok : bool) (KRW : option float).

(** private async fetchExchangeRate(); [None] when it throws. *)
Definition fetchExchangeRate (response : Response) : option float :=
  match response with
  | NetworkError => None
  | Http ok KRW =>
      if ok then
        match KRW with
        | Some rate => if truthy (JsNumber rate) then Some rate else None
        | None => None
        end
      else None
  end.

(** async getUSDtoKRW(): the rate returned and the cache file afterwards.
    [now] is read by the freshness test, [fetchedAt] when the fetched rate
    is saved. *)
Definition getUSDtoKRW (m : ExchangeRateManager) (now fetchedAt : Z)
    (response : Response) (disk : Disk) : option (JsValue * Disk) :=
  let cached := loadFromCache disk in
  let refreshed :=
    match fetchExchangeRate response with
    | Some rate => (JsNumber rate, saveToCache rate "exchangerate-api" fetchedAt disk)
    | None =>
        if truthy cached then (member "rate" cached, disk)
        else (JsNumber (fallbackRate m), disk)
    end in
  if truthy cached then
    match isCacheExpired m (member "lastUpdated" cached) now with
    | Some false => Some (member "rate" cached, disk)
    | Some true => Some refreshed
    | None => None
    end
  else Some refreshed.

(** async forceRefresh(): [None] when it rethrows. *)
Definition forceRefresh (fetchedAt : Z) (response : Response) (disk : Disk)
    : option float * Disk :=
  match fetchExchangeRate response with
  | Some rate => (Some rate, saveToCache rate "exchangerate-api" fetchedAt disk)
  | None => (None, disk)
  end.

(** getCacheInfo() *)
Definition getCacheInfo (disk : Disk) : JsValue := loadFromCache disk.

End ExchangeRate.


(** * Properties *)

(** ** Binary64 arithmetic on non-negative numbers

    The primitive operations are specified by [SpecFloat]'s bit-level
    functions; what the pricing code needs from them is that non-negative
    operands give a non-negative result (never NaN), and that dividing a
    finite count by a constant such as 1000 stays finite; what the
    aggregates need is that counts are added exactly while their sum is a
    safe integer. *)

Module Binary64.
Import JsNumber.
Local Open Scope Z_scope.

Lemma digits2_pos_size p : digits2_pos p = Pos.size p.
Proof. induction p; simpl; congruence. Qed.

Lemma Zdigits2_nonneg m : 0 <= Zdigits2 m.
Proof. destruct m; simpl; lia. Qed.

Lemma Zdigits2_gt m : 0 <= m -> m < 2 ^ Zdigits2 m.
Proof.
  destruct m as [|p|p]; simpl; intros H; try lia.
  rewrite digits2_pos_size.
  pose proof (Pos.size_gt p) as Hp.
  apply Pos2Z.pos_lt_pos in Hp. rewrite Pos2Z.inj_pow in Hp. exact Hp.
Qed.

Lemma Zdigits2_le_pow m k : 0 <= k -> 0 <= m < 2 ^ k -> Zdigits2 m <= k.
Proof.
  intros Hk [H0 Hm]. destruct m as [|p|p]; simpl; try lia.
  rewrite digits2_pos_size.
  pose proof (Pos.size_le p) as Hp.
  destruct (Z_le_gt_dec (Z.pos (Pos.size p)) k) as [|Hgt]; [assumption|exfalso].
  assert (Hpow : 2 ^ k * 2 <= 2 ^ Z.pos (Pos.size p)).
  { replace (2 ^ k * 2) with (2 ^ (k + 1)) by (rewrite Z.pow_add_r; lia).
    apply Z.pow_le_mono_r; lia. }
  apply Pos2Z.pos_le_pos in Hp. rewrite Pos2Z.inj_pow in Hp.
  lia.
Qed.

Lemma Zdigits2_mono a b : 0 <= a <= b -> Zdigits2 a <= Zdigits2 b.
Proof.
  intros [Ha Hab]. apply Zdigits2_le_pow; [apply Zdigits2_nonneg|].
  pose proof (Zdigits2_gt b). lia.
Qed.

Lemma Zdigits2_succ m : 0 <= m -> Zdigits2 (m + 1) <= Zdigits2 m + 1.
Proof.
  intros Hm. apply Zdigits2_le_pow.
  - pose proof (Zdigits2_nonneg m). lia.
  - pose proof (Zdigits2_gt m Hm). pose proof (Zdigits2_nonneg m).
    rewrite Z.pow_add_r by lia. lia.
Qed.

(** One right shift halves the mantissa. *)
Lemma shr_1_bounds r : 0 <= shr_m r -> 0 <= shr_m (shr_1 r) <= shr_m r.
Proof.
  destruct r as [m b s]; simpl. destruct m as [|[p|p|]|p]; simpl; lia.
Qed.

Lemma iter_shr_1_bounds p r :
  0 <= shr_m r -> 0 <= shr_m (SpecFloat.iter_pos shr_1 p r) <= shr_m r.
Proof.
  revert r. induction p as [p IH|p IH|]; intros r Hr; simpl.
  - pose proof (shr_1_bounds r Hr) as H1.
    pose proof (IH (shr_1 r) ltac:(lia)) as H2.
    pose proof (IH (SpecFloat.iter_pos shr_1 p (shr_1 r)) ltac:(lia)) as H3. lia.
  - pose proof (IH r Hr) as H2.
    pose proof (IH (SpecFloat.iter_pos shr_1 p r) ltac:(lia)) as H3. lia.
  - apply shr_1_bounds; assumption.
Qed.

Lemma shr_1_div2 r : 0 <= shr_m r -> shr_m (shr_1 r) = shr_m r / 2.
Proof.
  destruct r as [m b s]. destruct m as [|[p|p|]|p]; cbn [shr_m shr_1]; intros H;
    try reflexivity; try lia.
  - apply Z.div_unique with 1; lia.
  - apply Z.div_unique with 0; lia.
Qed.

Lemma iter_shr_1_div p r :
  0 <= shr_m r -> shr_m (SpecFloat.iter_pos shr_1 p r) = shr_m r / 2 ^ Z.pos p.
Proof.
  revert r. induction p as [p IH|p IH|]; intros r Hr; simpl SpecFloat.iter_pos.
  - pose proof (shr_1_bounds r Hr) as H1.
    pose proof (iter_shr_1_bounds p (shr_1 r) ltac:(lia)) as H2.
    rewrite IH by lia. rewrite IH by lia. rewrite shr_1_div2 by lia.
    rewrite !Z.div_div by lia. f_equal.
    change (Z.pos p~1) with (2 * Z.pos p + 1).
    replace (2 * Z.pos p + 1) with (1 + Z.pos p + Z.pos p) by lia.
    rewrite !Z.pow_add_r by lia. lia.
  - pose proof (iter_shr_1_bounds p r Hr) as H2.
    rewrite IH by lia. rewrite IH by lia.
    rewrite !Z.div_div by lia. f_equal.
    change (Z.pos p~0) with (2 * Z.pos p).
    replace (2 * Z.pos p) with (Z.pos p + Z.pos p) by lia.
    rewrite !Z.pow_add_r by lia. lia.
  - rewrite shr_1_div2 by lia. reflexivity.
Qed.

Lemma Zdigits2_div_pow m n :
  0 <= m -> 0 < n -> Zdigits2 (m / 2 ^ n) + n <= Z.max (Zdigits2 m) n.
Proof.
  intros Hm Hn.
  pose proof (Zdigits2_gt m Hm) as Hlt. pose proof (Zdigits2_nonneg m) as Hd.
  destruct (Z_le_gt_dec n (Zdigits2 m)) as [Hle|Hgt].
  - assert (Zdigits2 (m / 2 ^ n) <= Zdigits2 m - n); [|lia].
    apply Zdigits2_le_pow; [lia|]. split; [apply Z.div_pos; lia|].
    apply Z.div_lt_upper_bound; [lia|].
    rewrite <- Z.pow_add_r by lia. replace (n + (Zdigits2 m - n)) with (Zdigits2 m) by lia.
    exact Hlt.
  - rewrite Z.div_small; [simpl; lia|]. split; [lia|].
    apply Z.lt_trans with (2 ^ Zdigits2 m); [exact Hlt|].
    apply Z.pow_lt_mono_r; lia.
Qed.

Lemma shr_m_of_loc m l : shr_m (shr_record_of_loc m l) = m.
Proof. destruct l as [|[]]; reflexivity. Qed.

(** [shr_fexp] on a non-negative mantissa: the mantissa stays
    non-negative, the new exponent is the larger of the old one and the
    canonical one, and the position of the leading bit does not move up. *)
Lemma shr_fexp_bounds m e l :
  0 <= m ->
  let '(mrs, e') := shr_fexp prec emax m e l in
  0 <= shr_m mrs
  /\ e' = Z.max e (fexp prec emax (Zdigits2 m + e))
  /\ Zdigits2 (shr_m mrs) + e' <= Z.max (Zdigits2 m + e) e'.
Proof.
  intros Hm. unfold shr_fexp, shr.
  destruct (fexp prec emax (Zdigits2 m + e) - e) as [|p|p] eqn:En.
  - rewrite shr_m_of_loc. lia.
  - pose proof (iter_shr_1_bounds p (shr_record_of_loc m l)) as H.
    pose proof (iter_shr_1_div p (shr_record_of_loc m l)) as Hdiv.
    rewrite shr_m_of_loc in H, Hdiv. rewrite Hdiv by lia.
    pose proof (Zdigits2_div_pow m (Z.pos p) Hm ltac:(lia)). 
    split; [rewrite <- Hdiv by lia; lia|]. split; lia.
  - rewrite shr_m_of_loc. lia.
Qed.

Lemma round_nearest_even_bounds m l :
  m <= round_nearest_even m l <= m + 1.
Proof. destruct l as [|[]]; simpl; try lia. destruct (Z.even m); lia. Qed.

(** Outcome of the rounding step on a non-negative mantissa. *)
Lemma binary_round_aux_cases s m e l :
  0 <= m ->
  let r := binary_round_aux prec emax s m e l in
  r = S754_zero s \/ r = S754_infinity s \/
  exists m' e', r = S754_finite s m' e'.
Proof.
  intros Hm. unfold binary_round_aux.
  pose proof (shr_fexp_bounds m e l Hm) as B1.
  destruct (shr_fexp prec emax m e l) as [mrs1 e1].
  destruct B1 as (B1 & _ & _).
  set (m1 := round_nearest_even (shr_m mrs1) (loc_of_shr_record mrs1)).
  pose proof (round_nearest_even_bounds (shr_m mrs1) (loc_of_shr_record mrs1)) as R1.
  fold m1 in R1.
  pose proof (shr_fexp_bounds m1 e1 loc_Exact ltac:(lia)) as B2.
  destruct (shr_fexp prec emax m1 e1 loc_Exact) as [mrs2 e2].
  destruct B2 as (B2 & _ & _).
  destruct (shr_m mrs2) as [|p|p]; [left; reflexivity| |lia].
  right. destruct (e2 <=? emax - prec); [right; eauto | left; reflexivity].
Qed.

(** With head-room in the exponent the rounding step cannot overflow. *)
Lemma binary_round_aux_finite s m e l :
  0 <= m -> e <= emax - prec -> Zdigits2 m + e <= emax - 1 ->
  let r := binary_round_aux prec emax s m e l in
  r = S754_zero s \/ exists m' e', r = S754_finite s m' e'.
Proof.
  intros Hm He Hd. unfold binary_round_aux.
  pose proof (shr_fexp_bounds m e l Hm) as B1.
  destruct (shr_fexp prec emax m e l) as [mrs1 e1].
  destruct B1 as (B1 & S1 & D1).
  set (m1 := round_nearest_even (shr_m mrs1) (loc_of_shr_record mrs1)).
  pose proof (round_nearest_even_bounds (shr_m mrs1) (loc_of_shr_record mrs1)) as R1.
  fold m1 in R1.
  pose proof (shr_fexp_bounds m1 e1 loc_Exact ltac:(lia)) as B2.
  destruct (shr_fexp prec emax m1 e1 loc_Exact) as [mrs2 e2].
  destruct B2 as (B2 & S2 & _).
  destruct (shr_m mrs2) as [|p|p]; [left; reflexivity| |lia].
  right.
  assert (e2 <= emax - prec) as Hle.
  { assert (Zdigits2 m1 <= Zdigits2 (shr_m mrs1) + 1) as Hm1.
    { transitivity (Zdigits2 (shr_m mrs1 + 1)).
      - apply Zdigits2_mono; lia.
      - apply Zdigits2_succ; lia. }
    unfold fexp, emin, prec, emax in *. lia. }
  apply Z.leb_le in Hle. rewrite Hle. eauto.
Qed.

Lemma countSF_nonneg x : countSF x -> nonnegSF x.
Proof. destruct x as [|[]| |[]]; simpl; tauto. Qed.

Lemma isCount_SF x : isCount x = true -> countSF (Prim2SF x).
Proof.
  unfold isCount. rewrite andb_true_iff, FloatAxioms.leb_spec, FloatAxioms.ltb_spec.
  change (Prim2SF 0) with (S754_zero false).
  change (Prim2SF infinity) with (S754_infinity false).
  destruct (Prim2SF x) as [s|[]| |[] m e]; simpl; intros [H1 H2];
    try discriminate; exact I.
Qed.

Lemma isRate_SF r : isRate r = true -> rateSF (Prim2SF r).
Proof.
  unfold isRate. rewrite FloatAxioms.classify_spec. unfold SF64classify, SFclassify.
  destruct (Prim2SF r) as [[]|[]| |[] m e]; intros H; try exact I;
    try discriminate H.
  destruct (Z.pos (digits2_pos m) =? prec); discriminate H.
Qed.

Lemma nonneg_leb x : nonnegSF (Prim2SF x) -> (0 <=? x)%float = true.
Proof.
  rewrite FloatAxioms.leb_spec. change (Prim2SF 0) with (S754_zero false).
  destruct (Prim2SF x) as [s|[]| |[] m e]; simpl; intros H; try contradiction; reflexivity.
Qed.

(** *** Multiplication, addition *)

Lemma mul_count_rate x r :
  countSF (Prim2SF x) -> rateSF (Prim2SF r) -> nonnegSF (Prim2SF (x * r)).
Proof.
  rewrite FloatAxioms.mul_spec. unfold SF64mul.
  destruct (Prim2SF x) as [sx|[]| |[] mx ex]; simpl; try contradiction;
    destruct (Prim2SF r) as [[]|[]| |[] mr er]; simpl; try contradiction;
    intros _ _; try exact I.
  pose proof (binary_round_aux_cases false (Z.pos (mx * mr)) (ex + er) loc_Exact
                ltac:(lia)) as [H|[H|(m' & e' & H)]];
    simpl in H; rewrite H; exact I.
Qed.

Lemma mul_nonneg_positive x r mr er :
  nonnegSF (Prim2SF x) -> Prim2SF r = S754_finite false mr er ->
  nonnegSF (Prim2SF (x * r)).
Proof.
  rewrite FloatAxioms.mul_spec. unfold SF64mul. intros Hx ->.
  destruct (Prim2SF x) as [sx|[]| |[] mx ex]; simpl in *; try contradiction;
    try exact I.
  pose proof (binary_round_aux_cases false (Z.pos (mx * mr)) (ex + er) loc_Exact
                ltac:(lia)) as [H|[H|(m' & e' & H)]];
    simpl in H; rewrite H; exact I.
Qed.

Lemma mul_count_zero x :
  countSF (Prim2SF x) -> exists s, Prim2SF (x * 0) = S754_zero s.
Proof.
  rewrite FloatAxioms.mul_spec. unfold SF64mul. change (Prim2SF 0) with (S754_zero false).
  destruct (Prim2SF x) as [sx|[]| |[] mx ex]; simpl; try contradiction; eauto.
Qed.

Lemma add_nonneg x y :
  nonnegSF (Prim2SF x) -> nonnegSF (Prim2SF y) -> nonnegSF (Prim2SF (x + y)).
Proof.
  rewrite FloatAxioms.add_spec. unfold SF64add.
  destruct (Prim2SF x) as [sx|[]| |[] mx ex]; simpl; try contradiction;
    destruct (Prim2SF y) as [sy|[]| |[] my ey]; simpl; try contradiction;
    intros _ _; try exact I.
  - destruct sx, sy; exact I.
  - unfold binary_normalize. simpl Z.add. unfold binary_round.
    destruct (shl_align _ _ _) as [mz ez].
    pose proof (binary_round_aux_cases false (Z.pos mz) ez loc_Exact
                  ltac:(lia)) as [H|[H|(m' & e' & H)]];
      simpl in H; rewrite H; exact I.
Qed.

Lemma add_zero_zero x y sx sy :
  Prim2SF x = S754_zero sx -> Prim2SF y = S754_zero sy ->
  (x + y =? 0)%float = true.
Proof.
  intros Hx Hy. rewrite FloatAxioms.eqb_spec, FloatAxioms.add_spec, Hx, Hy.
  destruct sx, sy; reflexivity.
Qed.

(** *** Division by a constant that is at least four *)

Lemma valid_finite_bounds s m e :
  valid_binary (S754_finite s m e) = true ->
  Z.pos (digits2_pos m) <= prec /\ e <= emax - prec.
Proof.
  intros H. apply andb_prop in H. destruct H as [Hc Hb].
  apply Z.eqb_eq in Hc. apply Z.leb_le in Hb.
  unfold fexp, emin, prec, emax in *. lia.
Qed.

Lemma div_count x c mc ec :
  Prim2SF c = S754_finite false mc ec ->
  3 <= Z.pos (digits2_pos mc) + ec ->
  countSF (Prim2SF x) -> countSF (Prim2SF (x / c)).
Proof.
  intros Hc Hbig Hx. rewrite FloatAxioms.div_spec. unfold SF64div. rewrite Hc.
  pose proof (Prim2SF_valid x) as Hv.
  destruct (Prim2SF x) as [sx|[]| |[] mx ex]; simpl in Hx; try contradiction;
    [exact I|].
  apply valid_finite_bounds in Hv. destruct Hv as [Hd He].
  unfold SFdiv, SFdiv_core_binary.
  set (d1 := Zdigits2 (Z.pos mx)). set (d2 := Zdigits2 (Z.pos mc)).
  set (e' := Z.min (fexp prec emax (d1 + ex - (d2 + ec))) (ex - ec)).
  set (s := ex - ec - e').
  set (m' := match s with Z.pos _ => Z.shiftl (Z.pos mx) s | 0 => Z.pos mx | Z.neg _ => 0 end).
  assert (Hs : 0 <= s) by (unfold s, e'; lia).
  assert (Hm' : m' = Z.pos mx * 2 ^ s).
  { unfold m'. destruct s as [|p|p] eqn:Es; [lia| |lia].
    rewrite Z.shiftl_mul_pow2 by lia. reflexivity. }
  pose proof (Z_div_mod m' (Z.pos mc) ltac:(lia)) as Hdiv.
  destruct (Z.div_eucl m' (Z.pos mc)) as [q r]. destruct Hdiv as [Hq Hr].
  assert (Hd1 : d1 = Z.pos (digits2_pos mx)) by reflexivity.
  assert (Hd2 : d2 = Z.pos (digits2_pos mc)) by reflexivity.
  pose proof (Zdigits2_gt (Z.pos mx) ltac:(lia)) as Hmx. fold d1 in Hmx.
  assert (Hmc : 2 ^ d2 <= 2 * Z.pos mc).
  { rewrite Hd2, digits2_pos_size. pose proof (Pos.size_le mc) as Hle.
    apply Pos2Z.pos_le_pos in Hle. rewrite Pos2Z.inj_pow in Hle. exact Hle. }
  assert (H2s : 0 < 2 ^ s) by (apply Z.pow_pos_nonneg; lia).
  assert (Hq0 : 0 <= q) by nia.
  assert (Hdq : Zdigits2 q + e' <= Z.max (d1 + ex - (d2 + ec) + 1) e').
  { destruct (Z_le_gt_dec 0 (d1 + s - d2 + 1)) as [Hk|Hk].
    - assert (Zdigits2 q <= d1 + s - d2 + 1); [|unfold s in *; lia].
      apply Zdigits2_le_pow; [lia|]. split; [lia|].
      (* q * mc <= m' < 2^(d1+s), and 2^d2 <= 2 * mc *)
      assert (Hpow : 2 ^ (d1 + s - d2 + 1) * 2 ^ d2 = 2 * (2 ^ d1 * 2 ^ s)).
      { rewrite <- !Z.pow_add_r by lia.
        replace (d1 + s - d2 + 1 + d2) with (1 + (d1 + s)) by lia.
        rewrite Z.pow_add_r by lia. reflexivity. }
      assert (0 < 2 ^ d2) by (apply Z.pow_pos_nonneg; lia).
      assert (0 < 2 ^ (d1 + s - d2 + 1)) by (apply Z.pow_pos_nonneg; lia).
      nia.
    - assert (q = 0); [|subst q; simpl; lia].
      assert (Hlt : m' < Z.pos mc); [|nia].
      assert (2 ^ (d1 + s) * 2 <= 2 ^ d2).
      { replace (2 ^ (d1 + s) * 2) with (2 ^ (d1 + s + 1)) by (rewrite Z.pow_add_r; lia).
        apply Z.pow_le_mono_r; lia. }
      rewrite Z.pow_add_r in * by lia. nia. }
  assert (He' : e' <= emax - prec).
  { unfold e', fexp, emin, prec, emax in *. lia. }
  pose proof (binary_round_aux_finite false q e' (new_location (Z.pos mc) r)
                Hq0 He') as Hfin.
  simpl xorb.
  destruct Hfin as [H|(m1 & e1 & H)].
  - unfold e', fexp, emin, prec, emax in *. lia.
  - simpl in H. rewrite H. exact I.
  - simpl in H. rewrite H. exact I.
Qed.

(** *** Counts

    [toNumber] rounds as the specification of binary64 does; the sum of
    two counts is exact while it is a safe integer, and never negative
    when the counts are not. *)

Lemma shift_pos_pow d m : Z.pos (Pos.iter xO m d) = Z.pos m * 2 ^ Z.pos d.
Proof.
  induction d as [|d IH] using Pos.peano_ind.
  - simpl. lia.
  - rewrite Pos.iter_succ. rewrite Pos2Z.inj_xO, IH, Pos2Z.inj_succ, Z.pow_succ_r by lia.
    lia.
Qed.

Lemma Zdigits2_lower m : 0 < m -> 2 ^ (Zdigits2 m - 1) <= m.
Proof.
  destruct m as [|p|p]; simpl; intros H; try lia.
  rewrite digits2_pos_size. pose proof (Pos.size_le p) as Hle.
  apply Pos2Z.pos_le_pos in Hle. rewrite Pos2Z.inj_pow in Hle.
  replace (Z.pos (Pos.size p)) with (1 + (Z.pos (Pos.size p) - 1)) in Hle by lia.
  rewrite Z.pow_add_r in Hle by lia. lia.
Qed.

Lemma Zdigits2_ge j x : 0 <= j -> 2 ^ j <= x -> j + 1 <= Zdigits2 x.
Proof.
  intros Hj Hx. assert (0 < 2 ^ j) by (apply Z.pow_pos_nonneg; lia).
  pose proof (Zdigits2_gt x ltac:(lia)) as Hlt. pose proof (Zdigits2_nonneg x).
  destruct (Z_lt_le_dec j (Zdigits2 x)) as [|Hle]; [lia|exfalso].
  assert (2 ^ Zdigits2 x <= 2 ^ j) by (apply Z.pow_le_mono_r; lia). lia.
Qed.

Lemma Zdigits2_mul_pow2 x j : 0 < x -> 0 <= j -> Zdigits2 (x * 2 ^ j) = Zdigits2 x + j.
Proof.
  intros Hx Hj. assert (H2 : 0 < 2 ^ j) by (apply Z.pow_pos_nonneg; lia).
  pose proof (Zdigits2_gt x ltac:(lia)) as Hlt. pose proof (Zdigits2_lower x Hx) as Hlo.
  pose proof (Zdigits2_nonneg x) as H0.
  assert (1 <= Zdigits2 x) by (destruct x; simpl in *; lia).
  apply Z.le_antisymm.
  - apply Zdigits2_le_pow; [lia|]. rewrite Z.pow_add_r by lia. nia.
  - replace (Zdigits2 x + j) with ((Zdigits2 x - 1 + j) + 1) by lia.
    apply Zdigits2_ge; [lia|]. rewrite Z.pow_add_r by lia. nia.
Qed.

Lemma Zdigits2_div_ge m k : 0 < m -> 0 <= k -> Zdigits2 m - k <= Zdigits2 (m / 2 ^ k).
Proof.
  intros Hm Hk. pose proof (Zdigits2_lower m Hm) as Hlo.
  assert (H2 : 0 < 2 ^ k) by (apply Z.pow_pos_nonneg; lia).
  pose proof (Zdigits2_nonneg (m / 2 ^ k)) as H0.
  destruct (Z_lt_le_dec (Zdigits2 m - 1) k) as [|Hle]; [lia|].
  replace (Zdigits2 m - k) with ((Zdigits2 m - 1 - k) + 1) by lia.
  apply Zdigits2_ge; [lia|].
  apply Z.div_le_lower_bound; [lia|].
  rewrite <- Z.pow_add_r by lia. replace (k + (Zdigits2 m - 1 - k)) with (Zdigits2 m - 1) by lia.
  exact Hlo.
Qed.

Lemma Zdigits2_div_le m k : 0 <= m -> 0 <= k -> Zdigits2 (m / 2 ^ k) <= Z.max (Zdigits2 m - k) 0.
Proof.
  intros Hm Hk. destruct (Z.eq_dec k 0) as [->|Hne].
  - rewrite Z.div_1_r. lia.
  - pose proof (Zdigits2_div_pow m k Hm ltac:(lia)). lia.
Qed.

(** [shr_fexp] on a non-negative mantissa, exactly. *)
Lemma shr_fexp_spec m e l :
  0 <= m ->
  let '(mrs, e') := shr_fexp prec emax m e l in
  e' = Z.max e (fexp prec emax (Zdigits2 m + e))
  /\ shr_m mrs = m / 2 ^ (e' - e).
Proof.
  intros Hm. unfold shr_fexp, shr.
  destruct (fexp prec emax (Zdigits2 m + e) - e) as [|p|p] eqn:En.
  - rewrite shr_m_of_loc. split; [lia|]. rewrite Z.sub_diag, Z.div_1_r. reflexivity.
  - pose proof (iter_shr_1_div p (shr_record_of_loc m l)) as Hdiv.
    rewrite shr_m_of_loc in Hdiv. rewrite Hdiv by lia. split; [lia|].
    f_equal. f_equal. lia.
  - rewrite shr_m_of_loc. split; [lia|]. rewrite Z.sub_diag, Z.div_1_r. reflexivity.
Qed.

(** The rounding step gives a canonical number when the mantissa comes
    with enough digits. *)
Lemma binary_round_aux_valid s m e l :
  0 < m -> e <= fexp prec emax (Zdigits2 m + e) ->
  valid_binary (binary_round_aux prec emax s m e l) = true.
Proof.
  intros Hm He. unfold binary_round_aux.
  pose proof (shr_fexp_spec m e l ltac:(lia)) as B1.
  destruct (shr_fexp prec emax m e l) as [mrs1 e1]. destruct B1 as [E1 Q1].
  pose proof (Zdigits2_div_ge m (e1 - e) Hm ltac:(lia)) as Dlo. rewrite <- Q1 in Dlo.
  assert (Hq0 : 0 <= shr_m mrs1).
  { rewrite Q1. apply Z.div_pos; [lia|]. apply Z.pow_pos_nonneg; lia. }
  set (m1 := round_nearest_even (shr_m mrs1) (loc_of_shr_record mrs1)).
  pose proof (round_nearest_even_bounds (shr_m mrs1) (loc_of_shr_record mrs1)) as R1.
  fold m1 in R1.
  assert (Hd1 : Zdigits2 (shr_m mrs1) <= Zdigits2 m1) by (apply Zdigits2_mono; lia).
  pose proof (shr_fexp_spec m1 e1 loc_Exact ltac:(lia)) as B2.
  destruct (shr_fexp prec emax m1 e1 loc_Exact) as [mrs2 e2]. destruct B2 as [E2 Q2].
  destruct (shr_m mrs2) as [|p|p] eqn:Em2; [reflexivity| |reflexivity].
  destruct (e2 <=? emax - prec) eqn:Hle; [|reflexivity].
  apply Z.leb_le in Hle. cbn [valid_binary]. unfold bounded, canonical_mantissa.
  apply andb_true_intro. split; [|apply Z.leb_le; exact Hle].
  apply Z.eqb_eq.
  assert (Hm1 : 0 < m1).
  { destruct (Z.eq_dec m1 0) as [Hz|]; [|lia]. rewrite Hz, Z.div_0_l in Q2; [lia|].
    assert (0 < 2 ^ (e2 - e1)) by (apply Z.pow_pos_nonneg; lia). lia. }
  pose proof (Zdigits2_div_ge m1 (e2 - e1) Hm1 ltac:(lia)) as D2lo.
  pose proof (Zdigits2_div_le m1 (e2 - e1) ltac:(lia) ltac:(lia)) as D2hi.
  rewrite <- Q2 in D2lo, D2hi.
  change (Z.pos (digits2_pos p)) with (Zdigits2 (Z.pos p)).
  assert (1 <= Zdigits2 (Z.pos p)) by (simpl; lia).
  unfold fexp, emin, prec, emax in *. lia.
Qed.

Lemma Zdigits2_iter_xO m d :
  Zdigits2 (Z.pos (Pos.iter xO m d)) = Zdigits2 (Z.pos m) + Z.pos d.
Proof. rewrite shift_pos_pow. apply Zdigits2_mul_pow2; lia. Qed.

Lemma binary_round_valid s m e : valid_binary (binary_round prec emax s m e) = true.
Proof.
  unfold binary_round, shl_align.
  change (Z.pos (digits2_pos m)) with (Zdigits2 (Z.pos m)).
  destruct (fexp prec emax (Zdigits2 (Z.pos m) + e) - e) as [|p|p] eqn:Ep.
  - apply binary_round_aux_valid; lia.
  - apply binary_round_aux_valid; lia.
  - apply binary_round_aux_valid; [lia|].
    rewrite Zdigits2_iter_xO.
    replace (Zdigits2 (Z.pos m) + Z.pos p + fexp prec emax (Zdigits2 (Z.pos m) + e))
      with (Zdigits2 (Z.pos m) + e) by lia.
    lia.
Qed.

Lemma binary_normalize_valid m e :
  valid_binary (binary_normalize prec emax m e false) = true.
Proof. destruct m; [reflexivity| |]; apply binary_round_valid. Qed.

(** [toNumber n] is the binary64 number nearest to [n]. *)
Lemma toNumber_SF n : Prim2SF (toNumber n) = binary_normalize prec emax n 0 false.
Proof. apply Prim2SF_SF2Prim, binary_normalize_valid. Qed.

Lemma pow2_pos k : 0 <= k -> 0 < 2 ^ k.
Proof. intros; apply Z.pow_pos_nonneg; lia. Qed.

Lemma shr_1_even q :
  0 <= q ->
  shr_1 {| shr_m := q * 2; shr_r := false; shr_s := false |}
  = {| shr_m := q; shr_r := false; shr_s := false |}.
Proof.
  intros Hq. destruct q as [|p|p]; [reflexivity| |lia].
  change (Z.pos p * 2) with (Z.pos (p * 2)). rewrite Pos.mul_comm. reflexivity.
Qed.

(** Shifting out zeros loses nothing. *)
Lemma iter_shr_1_exact p q :
  0 <= q ->
  SpecFloat.iter_pos shr_1 p {| shr_m := q * 2 ^ Z.pos p; shr_r := false; shr_s := false |}
  = {| shr_m := q; shr_r := false; shr_s := false |}.
Proof.
  revert q. induction p as [p IH|p IH|]; intros q Hq; cbn [SpecFloat.iter_pos].
  - replace (q * 2 ^ Z.pos p~1) with ((q * 2 ^ Z.pos p * 2 ^ Z.pos p) * 2).
    + pose proof (pow2_pos (Z.pos p) ltac:(lia)).
      rewrite shr_1_even by nia. rewrite IH by nia. apply IH, Hq.
    + change (Z.pos p~1) with (2 * Z.pos p + 1).
      replace (2 * Z.pos p + 1) with (Z.pos p + Z.pos p + 1) by lia.
      rewrite !Z.pow_add_r by lia. lia.
  - replace (q * 2 ^ Z.pos p~0) with (q * 2 ^ Z.pos p * 2 ^ Z.pos p).
    + pose proof (pow2_pos (Z.pos p) ltac:(lia)).
      rewrite IH by nia. apply IH, Hq.
    + change (Z.pos p~0) with (2 * Z.pos p).
      replace (2 * Z.pos p) with (Z.pos p + Z.pos p) by lia.
      rewrite !Z.pow_add_r by lia. lia.
  - apply shr_1_even, Hq.
Qed.

Lemma digits_of_value m e v :
  0 < m -> 0 < v -> -1074 <= e -> m * 2 ^ (e + 1074) = v * 2 ^ 1074 ->
  Zdigits2 m + e = Zdigits2 v.
Proof.
  intros Hm Hv He Heq.
  pose proof (Zdigits2_mul_pow2 m (e + 1074) Hm ltac:(lia)) as H1.
  pose proof (Zdigits2_mul_pow2 v 1074 Hv ltac:(lia)) as H2.
  rewrite Heq in H1. lia.
Qed.

Lemma safe_digits v : 0 < v <= 2 ^ 53 -> 1 <= Zdigits2 v <= 54 /\ (Zdigits2 v = 54 -> v = 2 ^ 53).
Proof.
  intros [Hv Hle]. split; [split|].
  - destruct v; simpl in *; lia.
  - apply Zdigits2_le_pow; [lia|]. change (2 ^ 54) with (2 ^ 53 * 2). lia.
  - intros H. pose proof (Zdigits2_lower v Hv) as Hlo. rewrite H in Hlo.
    change (54 - 1) with 53 in Hlo. lia.
Qed.

(** The rounding step on a mantissa that carries a safe integer: nothing
    is rounded away. *)
Lemma binary_round_aux_exact m e v :
  0 < m -> 0 < v <= 2 ^ 53 -> -1074 <= e -> e <= Zdigits2 v - 53 ->
  m * 2 ^ (e + 1074) = v * 2 ^ 1074 ->
  holds (binary_round_aux prec emax false m e loc_Exact) v.
Proof.
  intros Hm Hv He He1 Heq.
  pose proof (digits_of_value m e v Hm ltac:(lia) He Heq) as Hd.
  destruct (safe_digits v Hv) as [Hdv Htop].
  set (e1 := Zdigits2 v - 53) in *.
  assert (exists q, 0 < q /\ q * 2 ^ (e1 + 1074) = v * 2 ^ 1074) as (q & Hq & Hqv).
  { destruct (Z.eq_dec (Zdigits2 v) 54) as [H54|Hne].
    - exists (2 ^ 52). split; [lia|]. rewrite (Htop H54). unfold e1. rewrite H54.
      change (54 - 53 + 1074) with (1 + 1074). rewrite Z.pow_add_r by lia. lia.
    - exists (v * 2 ^ (- e1)). pose proof (pow2_pos (- e1) ltac:(unfold e1; lia)).
      split; [nia|]. rewrite <- Z.mul_assoc, <- Z.pow_add_r by (unfold e1; lia).
      f_equal. f_equal. lia. }
  assert (Hmq : m = q * 2 ^ (e1 - e)).
  { assert (H : m * 2 ^ (e + 1074) = q * 2 ^ (e1 - e) * 2 ^ (e + 1074)).
    { rewrite <- Z.mul_assoc, <- Z.pow_add_r by lia.
      replace (e1 - e + (e + 1074)) with (e1 + 1074) by lia. congruence. }
    pose proof (pow2_pos (e + 1074) ltac:(lia)). nia. }
  pose proof (digits_of_value q e1 v Hq ltac:(lia) ltac:(unfold e1; lia) Hqv) as Hdq.
  assert (Hstep1 : shr_fexp prec emax m e loc_Exact
                   = ({| shr_m := q; shr_r := false; shr_s := false |}, e1)).
  { unfold shr_fexp, shr. rewrite Hd. cbn [shr_record_of_loc].
    replace (fexp prec emax (Zdigits2 v)) with e1
      by (unfold fexp, emin, prec, emax, e1; lia).
    destruct (e1 - e) as [|p|p] eqn:Ek; [| |lia].
    - rewrite Hmq. change (2 ^ 0) with 1. rewrite Z.mul_1_r. f_equal. lia.
    - rewrite Hmq, iter_shr_1_exact by lia. f_equal. lia. }
  assert (Hstep2 : shr_fexp prec emax q e1 loc_Exact
                   = ({| shr_m := q; shr_r := false; shr_s := false |}, e1)).
  { unfold shr_fexp, shr. rewrite Hdq. cbn [shr_record_of_loc].
    replace (fexp prec emax (Zdigits2 v)) with e1
      by (unfold fexp, emin, prec, emax, e1; lia).
    rewrite Z.sub_diag. reflexivity. }
  unfold binary_round_aux. rewrite Hstep1. cbn [shr_m loc_of_shr_record round_nearest_even].
  rewrite Hstep2. cbn [shr_m].
  destruct q as [|q'|q']; [lia| |lia].
  replace (e1 <=? emax - prec) with true
    by (symmetry; apply Z.leb_le; unfold emax, prec, e1; lia).
  exists q', e1. split; [reflexivity|]. split; [unfold e1; lia | exact Hqv].
Qed.

Lemma binary_round_exact m e v :
  0 < v <= 2 ^ 53 -> -1074 <= e ->
  Z.pos m * 2 ^ (e + 1074) = v * 2 ^ 1074 ->
  holds (binary_round prec emax false m e) v.
Proof.
  intros Hv He Heq. unfold binary_round, shl_align.
  pose proof (digits_of_value (Z.pos m) e v ltac:(lia) ltac:(lia) He Heq) as Hd.
  destruct (safe_digits v Hv) as [Hdv _].
  change (Z.pos (digits2_pos m)) with (Zdigits2 (Z.pos m)). rewrite Hd.
  assert (Hf : fexp prec emax (Zdigits2 v) = Zdigits2 v - 53)
    by (unfold fexp, emin, prec, emax; lia).
  rewrite Hf.
  destruct (Zdigits2 v - 53 - e) as [|p|p] eqn:Ek.
  - apply binary_round_aux_exact; try lia.
  - apply binary_round_aux_exact; try lia.
  - apply binary_round_aux_exact; try lia.
    rewrite shift_pos_pow, <- Z.mul_assoc, <- Z.pow_add_r by lia.
    replace (Z.pos p + (Zdigits2 v - 53 + 1074)) with (e + 1074) by lia. exact Heq.
Qed.

(** A safe integer is a binary64 number. *)
Lemma toNumber_holds n : 0 < n <= 2 ^ 53 -> holds (Prim2SF (toNumber n)) n.
Proof.
  intros Hn. rewrite toNumber_SF. destruct n as [|p|p]; [lia| |lia].
  apply binary_round_exact; lia.
Qed.

Lemma toInteger_holds x v : holds (Prim2SF x) v -> toInteger x = v.
Proof.
  intros (m & e & Hx & He & Heq). unfold toInteger. rewrite Hx. cbn [cond_Zopp].
  destruct (Z_le_gt_dec 0 e) as [Hpos|Hneg].
  - rewrite Z.shiftl_mul_pow2 by lia.
    rewrite Z.pow_add_r, Z.mul_assoc in Heq by lia.
    pose proof (pow2_pos 1074 ltac:(lia)). nia.
  - rewrite Z.shiftl_div_pow2 by lia.
    assert (Z.pos m = v * 2 ^ (- e)) as ->.
    { assert (H : Z.pos m * 2 ^ (e + 1074) = v * 2 ^ (- e) * 2 ^ (e + 1074)).
      { rewrite <- Z.mul_assoc, <- Z.pow_add_r by lia.
        replace (- e + (e + 1074)) with 1074 by lia. exact Heq. }
      pose proof (pow2_pos (e + 1074) ltac:(lia)). nia. }
    apply Z.div_mul. pose proof (pow2_pos (- e) ltac:(lia)). lia.
Qed.

Lemma shl_align_value m e e' :
  e' <= e -> Z.pos (fst (shl_align m e e')) = Z.pos m * 2 ^ (e - e').
Proof.
  intros Hle. unfold shl_align. destruct (e' - e) as [|p|p] eqn:Ek; cbn [fst].
  - replace (e - e') with 0 by lia. lia.
  - lia.
  - rewrite shift_pos_pow. f_equal. f_equal. lia.
Qed.

Lemma SFadd_holds x y a b :
  holds x a -> holds y b -> 0 < a -> 0 < b -> a + b <= 2 ^ 53 ->
  holds (SFadd prec emax x y) (a + b).
Proof.
  intros (ma & ea & -> & Hea & Ha) (mb & eb & -> & Heb & Hb) Ha0 Hb0 Hsum.
  cbn [SFadd cond_Zopp].
  set (ez := Z.min ea eb).
  pose proof (shl_align_value ma ea ez ltac:(unfold ez; lia)) as Hma.
  pose proof (shl_align_value mb eb ez ltac:(unfold ez; lia)) as Hmb.
  set (ma' := fst (shl_align ma ea ez)) in *. set (mb' := fst (shl_align mb eb ez)) in *.
  change (Z.pos ma' + Z.pos mb') with (Z.pos (ma' + mb')). cbn [binary_normalize].
  apply binary_round_exact; [lia | unfold ez; lia |].
  rewrite Pos2Z.inj_add, Hma, Hmb, Z.mul_add_distr_r, <- !Z.mul_assoc,
    <- !Z.pow_add_r by (unfold ez; lia).
  replace (ea - ez + (ez + 1074)) with (ea + 1074) by lia.
  replace (eb - ez + (ez + 1074)) with (eb + 1074) by lia. lia.
Qed.

(** On counts whose sum is a safe integer the addition of the program is
    the addition of integers. *)
Lemma addCount_exact a b : 0 <= a -> 0 <= b -> a + b <= 2 ^ 53 -> addCount a b = a + b.
Proof.
  intros Ha Hb Hsum. unfold addCount.
  destruct (Z.eq_dec a 0) as [->|Ha0]; destruct (Z.eq_dec b 0) as [->|Hb0].
  - reflexivity.
  - pose proof (toNumber_holds b ltac:(lia)) as Hy.
    apply toInteger_holds. rewrite FloatAxioms.add_spec. unfold SF64add.
    change (Prim2SF (toNumber 0)) with (S754_zero false).
    destruct Hy as (m & e & Hy & H). rewrite Hy. cbn [SFadd]. rewrite <- Hy.
    exists m, e. rewrite Hy. split; [reflexivity|]. exact H.
  - pose proof (toNumber_holds a ltac:(lia)) as Hx.
    apply toInteger_holds. rewrite FloatAxioms.add_spec. unfold SF64add.
    change (Prim2SF (toNumber 0)) with (S754_zero false).
    destruct Hx as (m & e & Hx & H). rewrite Hx. cbn [SFadd].
    exists m, e. split; [reflexivity|]. rewrite Z.add_0_r. exact H.
  - apply toInteger_holds. rewrite FloatAxioms.add_spec. unfold SF64add.
    apply SFadd_holds; try lia; apply toNumber_holds; lia.
Qed.

(** Every safe integer is a number: it is read back as written. *)
Lemma toInteger_toNumber n : 0 <= n <= 2 ^ 53 -> toInteger (toNumber n) = n.
Proof.
  intros Hn. destruct (Z.eq_dec n 0) as [->|Hne]; [reflexivity|].
  apply toInteger_holds, toNumber_holds. lia.
Qed.

(** The conversions at the edges of the integer ranges. *)
Lemma toNumber_at_the_edges :
  toNumber (2 ^ 53) = 9007199254740992%float
  /\ toNumber (2 ^ 53 + 1) = 9007199254740992%float
  /\ toNumber (2 ^ 53 + 3) = 9007199254740996%float
  /\ toNumber (2 ^ 63) = 9223372036854775808%float
  /\ toNumber (2 ^ 1024) = infinity
  /\ addCount (2 ^ 53) 1 = 2 ^ 53
  /\ addCount (2 ^ 62) (2 ^ 62) = 2 ^ 63.
Proof. repeat split. Qed.

Lemma toNumber_nonneg n : 0 <= n -> nonnegSF (Prim2SF (toNumber n)).
Proof.
  intros Hn. rewrite toNumber_SF. destruct n as [|p|p]; [exact I| |lia].
  cbn [binary_normalize]. unfold binary_round. destruct (shl_align _ _ _) as [mz ez].
  pose proof (binary_round_aux_cases false (Z.pos mz) ez loc_Exact ltac:(lia))
    as [H|[H|(m' & e' & H)]]; simpl in H; rewrite H; exact I.
Qed.

Lemma toInteger_nonneg x : nonnegSF (Prim2SF x) -> 0 <= toInteger x.
Proof.
  unfold toInteger. destruct (Prim2SF x) as [s|[]| |[] m e]; simpl; try tauto; try lia.
  intros _. apply Z.shiftl_nonneg. lia.
Qed.

Lemma addCount_nonneg a b : 0 <= a -> 0 <= b -> 0 <= addCount a b.
Proof.
  intros Ha Hb. apply toInteger_nonneg, add_nonneg; apply toNumber_nonneg; assumption.
Qed.

(** A non-negative count that is not beyond the binary64 range enters
    the price computation as a non-negative finite number. *)
Lemma toNumber_isCount n :
  0 <= n -> (toNumber n <? infinity)%float = true -> isCount (toNumber n) = true.
Proof.
  intros Hn Hfin. unfold isCount. rewrite Hfin, andb_true_r.
  apply nonneg_leb, toNumber_nonneg, Hn.
Qed.

End Binary64.


(** ** Model-name normalization *)

Module JsStringFacts.
Import JsString Pricing.
Local Open Scope nat_scope.

Lemma spanDigits_length s :
  String.length (fst (spanDigits s)) + String.length (snd (spanDigits s)) = String.length s.
Proof.
  induction s as [|c s IH]; simpl; [reflexivity|].
  destruct (isDigit c); simpl; [|reflexivity].
  destruct (spanDigits s) as [d r]. simpl in *. lia.
Qed.

(** A match consumes at least three characters. *)
Lemma matchVersion_shorter s d1 d2 rest :
  matchVersion s = Some (d1, d2, rest) -> String.length rest + 3 <= String.length s.
Proof.
  unfold matchVersion. pose proof (spanDigits_length s) as Hs.
  destruct (spanDigits s) as [[|c1 d] [|dot r1]]; try discriminate.
  destruct (Ascii.eqb_spec dot "."%char) as [->|Hne].
  - pose proof (spanDigits_length r1) as Hr.
    destruct (spanDigits r1) as [[|c2 d'] r2]; try discriminate.
    intros [= <- <- <-]. simpl in *. lia.
  - destruct dot as [[] [] [] [] [] [] [] []]; try discriminate; congruence.
Qed.

(** Any fuel that covers the length gives the same result: the
    normalization is a total function of the name. *)
Lemma replaceVersions_enough n m s :
  String.length s <= n -> String.length s <= m ->
  replaceVersions n s = replaceVersions m s.
Proof.
  revert m s. induction n as [|n IH]; intros m s Hn Hm.
  - destruct s; [|simpl in Hn; lia]. destruct m; reflexivity.
  - destruct m as [|m].
    + destruct s; [reflexivity | simpl in Hm; lia].
    + simpl. destruct (matchVersion s) as [[[d1 d2] rest]|] eqn:Hmatch.
      * apply matchVersion_shorter in Hmatch.
        rewrite (IH m rest) by lia. reflexivity.
      * destruct s as [|c s']; [reflexivity|].
        simpl in Hn, Hm. rewrite (IH m s') by lia. reflexivity.
Qed.

Example normalize_dotted_version :
  normalizeModelName "gpt-4.1-mini" = "gpt-4-1-mini"
  /\ normalizeModelName "claude-3.5-sonnet-20241022" = "claude-3-5-sonnet-20241022"
  /\ normalizeModelName "gemini-2.0-flash-exp" = "gemini-2-0-flash-exp".
Proof. repeat split. Qed.

(** Matches never overlap: after ["1.2"] the scan resumes behind the [2]. *)
Example normalize_leftmost_first :
  normalizeModelName "v1.2.3 and 10.25x" = "v1-2.3 and 10-25x".
Proof. reflexivity. Qed.

End JsStringFacts.

(** ** Pricing *)

Module PricingFacts.
Import JsString JsNumber Pricing Binary64.
Local Open Scope float_scope.

Lemma lookupKey_forallb {A} (P : A -> bool) key (table : list (string * A)) v :
  forallb (fun kv => P (snd kv)) table = true ->
  lookupKey key table = Some v -> P v = true.
Proof.
  induction table as [|[k x] rest IH]; simpl; [discriminate|].
  intros Hall Hlook. apply andb_prop in Hall. destruct Hall as [Hx Hrest].
  destruct (String.eqb k key).
  - injection Hlook as <-. exact Hx.
  - auto.
Qed.

Lemma tables_ok :
  tableRatesOk PRICING_openai = true
  /\ tableRatesOk PRICING_anthropic = true
  /\ tableRatesOk PRICING_gemini = true.
Proof. repeat split; vm_compute; reflexivity. Qed.

Lemma thousand_SF : Prim2SF 1000 = S754_finite false 8796093022208000 (-43).
Proof. reflexivity. Qed.

Lemma sixty_SF : Prim2SF 60 = S754_finite false 8444249301319680 (-47).
Proof. reflexivity. Qed.

(** The per-token formula never leaves the non-negative numbers. *)
Lemma tokenCost_nonneg input output i o :
  isRate input = true -> isRate output = true ->
  isCount i = true -> isCount o = true ->
  nonnegSF (Prim2SF (tokenCost input output i o)).
Proof.
  intros Hin Hout Hi Ho. unfold tokenCost.
  apply add_nonneg; apply mul_count_rate; try (apply isRate_SF; assumption);
    (eapply div_count; [exact thousand_SF | simpl; lia | apply isCount_SF; assumption]).
Qed.

Lemma matchLoop_nonneg table keys candidates nm i o c :
  tableRatesOk table = true ->
  isCount i = true -> isCount o = true ->
  matchLoop table keys candidates nm i o = Some c ->
  nonnegSF (Prim2SF c).
Proof.
  intros Htable Hi Ho. induction candidates as [|m rest IH]; simpl; [discriminate|].
  destruct (includes nm m); [|exact IH].
  destruct (lookupKey (remap keys m) table) as [[input output| | | |]|] eqn:Hlook;
    try exact IH.
  intros [= <-].
  pose proof (lookupKey_forallb entryRatesOk _ _ _ Htable Hlook) as Hok.
  simpl in Hok. apply andb_prop in Hok. destruct Hok.
  apply tokenCost_nonneg; assumption.
Qed.

Lemma defaultCost_nonneg table key i o c :
  tableRatesOk table = true ->
  isCount i = true -> isCount o = true ->
  defaultCost table key i o = Some c ->
  nonnegSF (Prim2SF c).
Proof.
  intros Htable Hi Ho. unfold defaultCost.
  destruct (lookupKey key table) as [[input output| | | |]|] eqn:Hlook; try discriminate.
  intros [= <-].
  pose proof (lookupKey_forallb entryRatesOk _ _ _ Htable Hlook) as Hok.
  simpl in Hok. apply andb_prop in Hok. destruct Hok.
  apply tokenCost_nonneg; assumption.
Qed.

Lemma fallbackCost_nonneg i o :
  isCount i = true -> isCount o = true ->
  nonnegSF (Prim2SF (fallbackCost i o)).
Proof.
  intros Hi Ho. unfold fallbackCost.
  assert (exists mr er, Prim2SF 0.001 = S754_finite false mr er) as (mr & er & Hr)
    by (eexists; eexists; reflexivity).
  apply (mul_nonneg_positive _ _ mr er); [|exact Hr].
  apply add_nonneg; apply countSF_nonneg, isCount_SF; assumption.
Qed.

(** The per-token tail of a block: the loop, then the default entry. *)
Lemma loop_then_default_nonneg table keys candidates key nm i o c :
  tableRatesOk table = true ->
  isCount i = true -> isCount o = true ->
  match matchLoop table keys candidates nm i o with
  | Some c' => Some c'
  | None => defaultCost table key i o
  end = Some c ->
  nonnegSF (Prim2SF c).
Proof.
  intros Htable Hi Ho.
  destruct (matchLoop table keys candidates nm i o) as [c'|] eqn:Hm.
  - intros [= <-]. exact (matchLoop_nonneg _ _ _ _ _ _ _ Htable Hi Ho Hm).
  - intros Hd. exact (defaultCost_nonneg _ _ _ _ _ Htable Hi Ho Hd).
Qed.

Lemma openaiBlock_nonneg nm i o c :
  isCount i = true -> isCount o = true ->
  openaiBlock nm i o = Some c -> nonnegSF (Prim2SF c).
Proof.
  intros Hi Ho. unfold openaiBlock.
  destruct tables_ok as (Hopenai & _ & _).
  destruct (startsWith nm "dall-e").
  { cbn. intros [= <-]. apply mul_count_rate; [apply isCount_SF; assumption|].
    apply isRate_SF. reflexivity. }
  destruct (String.eqb nm "whisper-1").
  { cbn. intros [= <-]. apply mul_count_rate.
    - eapply div_count; [exact sixty_SF | simpl; lia | apply isCount_SF; assumption].
    - apply isRate_SF. reflexivity. }
  cbv zeta.
  destruct (startsWith nm "tts-");
    [destruct (lookupKey nm PRICING_openai) as [[| | | |perChar]|] eqn:Hlook|];
    try (apply loop_then_default_nonneg; assumption).
  intros [= <-].
  pose proof (lookupKey_forallb entryRatesOk _ _ _ Hopenai Hlook) as Hok.
  apply mul_count_rate; [apply isCount_SF; assumption | apply isRate_SF; exact Hok].
Qed.

Lemma providerBlock_nonneg table keys candidates key nm i o :
  tableRatesOk table = true ->
  isCount i = true -> isCount o = true ->
  nonnegSF (Prim2SF (providerBlock table keys candidates key nm i o)).
Proof.
  intros Htable Hi Ho. unfold providerBlock.
  destruct (matchLoop _ _ _ _ _ _) eqn:Hm;
    [exact (matchLoop_nonneg _ _ _ _ _ _ _ Htable Hi Ho Hm)|].
  destruct (defaultCost _ _ _ _) eqn:Hd;
    [exact (defaultCost_nonneg _ _ _ _ _ Htable Hi Ho Hd)|].
  apply fallbackCost_nonneg; assumption.
Qed.

Lemma calculateCost_nonnegSF provider model i o :
  isCount i = true -> isCount o = true ->
  nonnegSF (Prim2SF (calculateCost provider model i o)).
Proof.
  intros Hi Ho. unfold calculateCost. destruct tables_ok as (_ & Hc & Hg).
  destruct (if String.eqb provider "openai" then _ else None) eqn:Hblock.
  - destruct (String.eqb provider "openai"); [|discriminate].
    exact (openaiBlock_nonneg _ _ _ _ Hi Ho Hblock).
  - destruct (String.eqb provider "anthropic"); [apply providerBlock_nonneg; assumption|].
    destruct (String.eqb provider "gemini"); [apply providerBlock_nonneg; assumption|].
    apply fallbackCost_nonneg; assumption.
Qed.


End PricingFacts.

Module PricingClaims.
Import JsString JsNumber Pricing Binary64 PricingFacts.
Local Open Scope float_scope.



Lemma tokenCost_free i o :
  isCount i = true -> isCount o = true -> (tokenCost 0 0 i o =? 0) = true.
Proof.
  intros Hi Ho. unfold tokenCost.
  destruct (mul_count_zero (i / 1000)) as [si Hsi].
  { eapply div_count; [exact thousand_SF | simpl; lia | apply isCount_SF; assumption]. }
  destruct (mul_count_zero (o / 1000)) as [so Hso].
  { eapply div_count; [exact thousand_SF | simpl; lia | apply isCount_SF; assumption]. }
  exact (add_zero_zero _ _ _ _ Hsi Hso).
Qed.

(** C9. The free-preview Gemini models cost zero: for every pair of
    non-negative finite token counts,
    [calculateCost('gemini', m, inputTokens, outputTokens) === 0] when [m] is
    [gemini-2.0-flash-exp] or [gemini-2.0-flash-thinking-exp-1219], written
    with dots or with dashes. *)
Theorem gemini_free_preview_costs_zero (m : string) (inputTokens outputTokens : float) :
  In m freePreviewModels ->
  isCount inputTokens = true -> isCount outputTokens = true ->
  (calculateCost "gemini" m inputTokens outputTokens =? 0) = true.
Proof.
  intros Hm Hi Ho.
  assert (calculateCost "gemini" m inputTokens outputTokens
          = tokenCost 0 0 inputTokens outputTokens) as ->.
  { simpl in Hm. destruct Hm as [<-|[<-|[<-|[<-|[]]]]]; reflexivity. }
  apply tokenCost_free; assumption.
Qed.

Lemma gemini_free_preview_costs_zero_witness :
  (calculateCost "gemini" "gemini-2.0-flash-thinking-exp-1219" 123456 789 =? 0) = true.
Proof.
  apply (gemini_free_preview_costs_zero "gemini-2.0-flash-thinking-exp-1219" 123456 789).
  - simpl. tauto.
  - reflexivity.
  - reflexivity.
Defined.

End PricingClaims.

(** ** The tracker: sessions, history, totals *)

Module TrackerFacts.
Import Json Types JsNumber Storage Tracker.

Lemma saveToStorage_tracker env t disk : fst (saveToStorage env (t, disk)) = t.
Proof. unfold saveToStorage. destruct (storage t); reflexivity. Qed.

Lemma recordUsage_tracker usage env t disk :
  fst (recordUsage usage env (t, disk))
  = updateUserTotals (orString (userId usage) "anonymous") usage env
      (withMaps t
         (<[orString (userId usage) "anonymous" :=
              (historyOf (orString (userId usage) "anonymous") t ++ [usage])%list]>
            (usageHistory t))
         (userTotals t)).
Proof. unfold recordUsage. apply saveToStorage_tracker. Qed.

Lemma recordUsage_history usage env t disk :
  usageHistory (fst (recordUsage usage env (t, disk)))
  = <[orString (userId usage) "anonymous" :=
        (historyOf (orString (userId usage) "anonymous") t ++ [usage])%list]>
      (usageHistory t).
Proof. rewrite recordUsage_tracker. reflexivity. Qed.

Lemma recordUsage_userTotals usage env t disk :
  userTotals (fst (recordUsage usage env (t, disk)))
  = <[orString (userId usage) "anonymous" :=
        addUsage usage
          match userTotals t !! orString (userId usage) "anonymous" with
          | Some total => total
          | None => zeroTotal (orString (userId usage) "anonymous") env t
          end]> (userTotals t).
Proof. rewrite recordUsage_tracker. reflexivity. Qed.

Lemma recordUsage_activeTracking usage env t disk :
  activeTracking (fst (recordUsage usage env (t, disk))) = activeTracking t.
Proof. rewrite recordUsage_tracker. reflexivity. Qed.

Lemma recordUsage_config usage env t disk :
  config (fst (recordUsage usage env (t, disk))) = config t.
Proof. rewrite recordUsage_tracker. reflexivity. Qed.

(** What a successful [endTracking] leaves behind. *)
Lemma endTracking_known trackingId tracking usage env t disk :
  activeTracking t !! trackingId = Some tracking ->
  exists t' disk',
    endTracking trackingId usage env (t, disk) = (Returned, (t', disk'))
    /\ usageHistory t'
       = <[orString (t_userId tracking) "anonymous" :=
             (historyOf (orString (t_userId tracking) "anonymous") t
              ++ [fullUsage t tracking usage env])%list]> (usageHistory t)
    /\ activeTracking t' = delete trackingId (activeTracking t)
    /\ config t' = config t
    /\ userTotals t'
       = <[orString (t_userId tracking) "anonymous" :=
             addUsage (fullUsage t tracking usage env)
               match userTotals t !! orString (t_userId tracking) "anonymous" with
               | Some total => total
               | None => zeroTotal (orString (t_userId tracking) "anonymous") env t
               end]> (userTotals t).
Proof.
  intros Hactive. unfold endTracking. rewrite Hactive.
  pose proof (recordUsage_userTotals (fullUsage t tracking usage env) env t disk) as Hu.
  pose proof (recordUsage_history (fullUsage t tracking usage env) env t disk) as Hh.
  pose proof (recordUsage_activeTracking (fullUsage t tracking usage env) env t disk) as Ha.
  pose proof (recordUsage_config (fullUsage t tracking usage env) env t disk) as Hc.
  destruct (recordUsage (fullUsage t tracking usage env) env (t, disk)) as [t1 disk1].
  simpl in Hh, Ha, Hc, Hu.
  eexists; eexists. split; [reflexivity|]. simpl.
  rewrite Ha. auto.
Qed.

(** A session that is not active stays so under every call that does not
    hand out its id again. *)
Lemma perform_keeps_ended trackingId call env w :
  issues trackingId (call, env) = false ->
  activeTracking (fst w) !! trackingId = None ->
  activeTracking (fst (perform call env w)) !! trackingId = None.
Proof.
  destruct w as [t disk]. unfold issues. cbn [fst snd].
  destruct call as [userId sessionId|other usage|usage|user]; intros Hissue Hnone;
    cbn [perform fst snd].
  - apply String.eqb_neq in Hissue. unfold startTracking. cbn [fst snd withTracking activeTracking].
    rewrite lookup_insert_ne by exact Hissue. exact Hnone.
  - unfold endTracking. destruct (activeTracking t !! other) as [tracking|] eqn:Hother;
      [|exact Hnone].
    pose proof (recordUsage_activeTracking (fullUsage t tracking usage env) env t disk) as Ha.
    destruct (recordUsage (fullUsage t tracking usage env) env (t, disk)) as [t1 disk1].
    simpl in Ha |- *. rewrite Ha.
    destruct (decide (other = trackingId)) as [->|Hne];
      [apply lookup_delete_eq | rewrite lookup_delete_ne by exact Hne; exact Hnone].
  - rewrite recordUsage_activeTracking. exact Hnone.
  - unfold clearUserUsage. rewrite saveToStorage_tracker. exact Hnone.
Qed.

Lemma performAll_keeps_ended trackingId calls w :
  forallb (fun call => negb (issues trackingId call)) calls = true ->
  activeTracking (fst w) !! trackingId = None ->
  activeTracking (fst (performAll calls w)) !! trackingId = None.
Proof.
  revert w. induction calls as [|[call env] rest IH]; intros w Hall Hnone; [exact Hnone|].
  simpl in Hall. apply andb_prop in Hall. destruct Hall as [Hcall Hrest].
  apply negb_true_iff in Hcall.
  change (performAll ((call, env) :: rest) w) with (performAll rest (perform call env w)).
  apply IH; [exact Hrest|]. apply perform_keeps_ended; assumption.
Qed.

Lemma orCount_zero (a : option Z) : orCount a 0 = default 0 a.
Proof. destruct a as [n|]; simpl; [|reflexivity]. destruct (Z.eqb_spec n 0); congruence. Qed.

Lemma slice_last {A} (l : list A) (x : A) : slice (-1) (l ++ [x])%list = [x].
Proof.
  unfold slice. rewrite length_app. simpl.
  replace (Z.to_nat _) with (length l).
  - rewrite drop_app_length. reflexivity.
  - rewrite Nat2Z.inj_add. simpl. lia.
Qed.

End TrackerFacts.

Module TrackerClaims.
Import Json Types JsNumber Storage Tracker TrackerFacts Scenarios.
Local Open Scope float_scope.

(** C2 (as the code has it). [startTracking] followed by [endTracking] with
    [{inputTokens: 100, outputTokens: 50}], provider "openai", model
    "gpt-3.5-turbo" and no explicit cost, on a tracker whose currency is
    not KRW, records a UsageRecord whose cost is
    [(100/1000)*0.0005 + (50/1000)*0.0015 = 0.000125] USD. *)
Theorem worked_cost_example t disk userId sessionId envStart envEnd :
  cfg_currency (config t) <> Some KRW ->
  let started := startTracking userId sessionId envStart t in
  let ended := endTracking (fst started) exampleUsage envEnd (snd started, disk) in
  fst ended = Returned
  /\ exists r,
       getUserHistory (orString (sessionUser userId t) "anonymous") 1 (fst (snd ended)) = [r]
       /\ provider r = "openai" /\ model r = "gpt-3.5-turbo"
       /\ amount (cost r) = (100 / 1000) * 0.0005 + (50 / 1000) * 0.0015
       /\ cost r = {| amount := 0.000125; currency := USD |}.
Proof.
  intros Hcur started ended.
  set (tracking := {| t_userId := sessionUser userId t; t_sessionId := sessionId;
                      startTime := now envStart |}).
  assert (Hactive : activeTracking (snd started) !! fst started = Some tracking)
    by apply lookup_insert_eq.
  destruct (endTracking_known _ _ exampleUsage envEnd _ disk Hactive)
    as (t' & disk' & Hend & Hhist & _).
  subst ended. rewrite Hend. simpl. split; [reflexivity|].
  exists (fullUsage (snd started) tracking exampleUsage envEnd).
  split.
  - unfold getUserHistory, historyOf. rewrite Hhist. rewrite lookup_insert_eq.
    apply slice_last.
  - simpl. repeat split; try reflexivity.
    all: unfold Tracker.calculateCost; simpl.
    all: destruct (cfg_currency (config t)) as [[]|]; try reflexivity; congruence.
Qed.

Lemma worked_cost_example_witness :
  exists r,
    getUserHistory "anonymous" 1
      (fst (snd (endTracking (fst (startTracking None None someEnv freshTracker))
                   exampleUsage laterEnv
                   (snd (startTracking None None someEnv freshTracker), emptyDisk)))) = [r]
    /\ cost r = {| amount := 0.000125; currency := USD |}.
Proof.
  destruct (worked_cost_example freshTracker emptyDisk None None someEnv laterEnv)
    as (_ & r & Hr & _ & _ & _ & Hcost).
  - simpl. discriminate.
  - exists r. split; [exact Hr | exact Hcost].
Defined.

(** C2, as the claim states it, fails: the recorded amount is not
    0.0001125. *)
Lemma worked_cost_example_is_not_0_0001125 :
  exists r,
    getUserHistory "anonymous" 1
      (fst (snd (endTracking (fst (startTracking None None someEnv freshTracker))
                   exampleUsage laterEnv
                   (snd (startTracking None None someEnv freshTracker), emptyDisk)))) = [r]
    /\ (amount (cost r) =? 0.0001125) = false
    /\ (amount (cost r) =? 0.000125) = true.
Proof. vm_compute. eexists. repeat split. Qed.

(** C4. At-most-once completion: for the trackingId that [startTracking]
    returns, a first [endTracking] returns normally, and any second
    [endTracking] with the same id (straight away, or after any calls that
    do not hand the same id out again) throws
    "Tracking ID ... not found" and leaves the tracker and the file exactly
    as they were: no record is appended. *)
Theorem endTracking_at_most_once t disk userId sessionId envStart envEnd envAgain
    usage usageAgain :
  let started := startTracking userId sessionId envStart t in
  exists w,
    endTracking (fst started) usage envEnd (snd started, disk) = (Returned, w)
    /\ activeTracking (fst w) !! fst started = None
    /\ endTracking (fst started) usageAgain envAgain w
       = (Threw ("Tracking ID " ++ fst started ++ " not found"), w)
    /\ (forall calls,
          forallb (fun call => negb (issues (fst started) call)) calls = true ->
          endTracking (fst started) usageAgain envAgain (performAll calls w)
          = (Threw ("Tracking ID " ++ fst started ++ " not found"), performAll calls w)).
Proof.
  intros started.
  set (tracking := {| t_userId := sessionUser userId t; t_sessionId := sessionId;
                      startTime := now envStart |}).
  assert (Hactive : activeTracking (snd started) !! fst started = Some tracking)
    by apply lookup_insert_eq.
  destruct (endTracking_known _ _ usage envEnd _ disk Hactive)
    as (t' & disk' & Hend & _ & Hgone & _ & _).
  exists (t', disk'). split; [exact Hend|].
  assert (Hnone : activeTracking t' !! fst started = None)
    by (rewrite Hgone; apply lookup_delete_eq).
  split; [exact Hnone|].
  assert (Hthrows : forall w : World,
             activeTracking (fst w) !! fst started = None ->
             endTracking (fst started) usageAgain envAgain w
             = (Threw ("Tracking ID " ++ fst started ++ " not found"), w)).
  { intros [t2 disk2] H2. change (activeTracking t2 !! fst started = None) in H2.
    unfold endTracking. rewrite H2. reflexivity. }
  split; [apply Hthrows; exact Hnone|].
  intros calls Hcalls. apply Hthrows.
  apply performAll_keeps_ended; [exact Hcalls | exact Hnone].
Qed.

(** C7. Default fill-in at end: for every active trackingId and every
    partial usage, [endTracking] returns normally, appends exactly one
    record to the history of the session's user, and deletes the session.
    The record keeps what the caller gave: a provider and a model that
    are not empty, the two counts, a totalTokens other than 0, the cost.
    A missing provider becomes "openai" and a missing model "unknown"; a
    missing totalTokens is inputTokens + outputTokens, a missing count
    taken as 0, added as JavaScript numbers (so exactly, while the sum is
    a safe integer); a missing cost is the tracker's [calculateCost] of
    the completed provider, the completed model and the two counts. *)
Theorem endTracking_fills_defaults t disk trackingId tracking usage env :
  activeTracking t !! trackingId = Some tracking ->
  let completedProvider := orString (p_provider usage) "openai" in
  let completedModel := orString (p_model usage) "unknown" in
  let input := default 0%Z (p_inputTokens usage) in
  let output := default 0%Z (p_outputTokens usage) in
  exists r t' disk',
    endTracking trackingId usage env (t, disk) = (Returned, (t', disk'))
    /\ usageHistory t' !! orString (t_userId tracking) "anonymous"
       = Some (historyOf (orString (t_userId tracking) "anonymous") t ++ [r])%list
    /\ activeTracking t' !! trackingId = None
    /\ provider r = completedProvider /\ model r = completedModel
    /\ (p_provider usage = None -> provider r = "openai")
    /\ inputTokens r = p_inputTokens usage /\ outputTokens r = p_outputTokens usage
    /\ totalTokens r = orCount (p_totalTokens usage) (addCount input output)
    /\ (p_totalTokens usage = None ->
          (0 <= input)%Z -> (0 <= output)%Z -> (input + output <= 2 ^ 53)%Z ->
          totalTokens r = (input + output)%Z)
    /\ cost r
       = orObject (p_cost usage)
           (Tracker.calculateCost t completedProvider completedModel input output).
Proof.
  intros Hactive completedProvider completedModel input output.
  destruct (endTracking_known _ _ usage env _ disk Hactive)
    as (t' & disk' & Hend & Hhist & Hgone & _ & _).
  exists (fullUsage t tracking usage env), t', disk'.
  split; [exact Hend|]. split; [rewrite Hhist; apply lookup_insert_eq|].
  split; [rewrite Hgone; apply lookup_delete_eq|].
  split; [reflexivity|]. split; [reflexivity|].
  split; [intros H; simpl; rewrite H; reflexivity|].
  split; [reflexivity|]. split; [reflexivity|].
  split; [simpl; rewrite !orCount_zero; reflexivity|].
  split.
  - intros H Hi Ho Hsum. simpl. rewrite H, !orCount_zero. simpl.
    apply Binary64.addCount_exact; assumption.
  - simpl. rewrite !orCount_zero. reflexivity.
Qed.

Lemma endTracking_fills_defaults_witness :
  exists r t' disk',
    endTracking "track_1759800000000_k3x9q0zab"
      {| p_provider := None; p_model := Some "gpt-4"; p_inputTokens := Some 7%Z;
         p_outputTokens := None; p_totalTokens := None; p_cost := None;
         p_metadata := None |}
      laterEnv (snd (startTracking (Some "ada") None someEnv freshTracker), emptyDisk)
    = (Returned, (t', disk'))
    /\ provider r = "openai" /\ model r = "gpt-4" /\ totalTokens r = 7%Z
    /\ inputTokens r = Some 7%Z
    /\ cost r = {| amount := 7 / 1000 * 0.03 + 0 / 1000 * 0.06; currency := USD |}
    /\ usageHistory t' !! "ada" = Some [r].
Proof.
  destruct (endTracking_fills_defaults
              (snd (startTracking (Some "ada") None someEnv freshTracker)) emptyDisk
              "track_1759800000000_k3x9q0zab"
              {| t_userId := Some "ada"; t_sessionId := None; startTime := 1759800000000 |}
              {| p_provider := None; p_model := Some "gpt-4"; p_inputTokens := Some 7%Z;
                 p_outputTokens := None; p_totalTokens := None; p_cost := None;
                 p_metadata := None |}
              laterEnv)
    as (r & t' & disk' & Hend & Hhist & _ & Hprov & Hmodel & _ & Hin & _ & Htotal & _ & Hcost).
  - vm_compute. reflexivity.
  - exists r, t', disk'. split; [exact Hend|].
    split; [exact Hprov|]. split; [exact Hmodel|]. split; [exact Htotal|].
    split; [exact Hin|]. split; [exact Hcost | exact Hhist].
Defined.

(** C8. Clear is user-scoped: after [clearUserUsage(u)], [getUserUsage(u)]
    is null and [getUserHistory(u)] is empty whatever the limit, and for
    every other user both answers are what they were before. *)
Theorem clearUserUsage_user_scoped t disk env (u : string) :
  let t' := fst (clearUserUsage u env (t, disk)) in
  getUserUsage u t' = None
  /\ (forall limit, getUserHistory u limit t' = [])
  /\ (forall v, v <> u ->
        getUserUsage v t' = getUserUsage v t
        /\ forall limit, getUserHistory v limit t' = getUserHistory v limit t).
Proof.
  intros t'. subst t'. unfold clearUserUsage. rewrite saveToStorage_tracker.
  unfold getUserUsage, getUserHistory, historyOf. simpl.
  split; [apply lookup_delete_eq|].
  split.
  - intros limit. rewrite lookup_delete_eq. unfold slice. apply drop_nil.
  - intros v Hv. rewrite !lookup_delete_ne by congruence. auto.
Qed.

(** C10. The KRW conversion constant: on a tracker configured with
    currency 'KRW', every [endTracking] without an explicit cost records
    the cost [{ amount: calculateCost(provider, model, inputTokens,
    outputTokens) * 1300, currency: 'KRW' }], with the completed provider,
    model and counts; the multiplier is the literal 1300 and no exchange
    rate enters the computation. *)
Theorem endTracking_KRW_uses_1300 t disk trackingId tracking usage env :
  activeTracking t !! trackingId = Some tracking ->
  cfg_currency (config t) = Some KRW ->
  p_cost usage = None ->
  exists r t' disk',
    endTracking trackingId usage env (t, disk) = (Returned, (t', disk'))
    /\ usageHistory t' !! orString (t_userId tracking) "anonymous"
       = Some (historyOf (orString (t_userId tracking) "anonymous") t ++ [r])%list
    /\ provider r = orString (p_provider usage) "openai"
    /\ model r = orString (p_model usage) "unknown"
    /\ cost r
       = {| amount :=
              Pricing.calculateCost (provider r) (model r)
                (toNumber (default 0%Z (p_inputTokens usage)))
                (toNumber (default 0%Z (p_outputTokens usage))) * 1300;
            currency := KRW |}.
Proof.
  intros Hactive Hkrw Hcost.
  destruct (endTracking_known _ _ usage env _ disk Hactive)
    as (t' & disk' & Hend & Hhist & _).
  exists (fullUsage t tracking usage env), t', disk'.
  split; [exact Hend|]. split; [rewrite Hhist; apply lookup_insert_eq|].
  split; [reflexivity|]. split; [reflexivity|].
  simpl. rewrite Hcost. simpl. unfold Tracker.calculateCost. rewrite Hkrw.
  rewrite !orCount_zero. reflexivity.
Qed.

Lemma endTracking_KRW_uses_1300_witness :
  exists r t' disk',
    endTracking "track_1759800000000_k3x9q0zab" exampleUsage laterEnv
      (snd (startTracking None None someEnv (newTokenTracker wonConfig emptyDisk)),
       emptyDisk)
    = (Returned, (t', disk'))
    /\ cost r = {| amount := 0.000125 * 1300; currency := KRW |}.
Proof.
  destruct (endTracking_KRW_uses_1300
              (snd (startTracking None None someEnv (newTokenTracker wonConfig emptyDisk)))
              emptyDisk "track_1759800000000_k3x9q0zab"
              {| t_userId := None; t_sessionId := None; startTime := 1759800000000 |}
              exampleUsage laterEnv)
    as (r & t' & disk' & Hend & _ & Hp & Hm & Hcost).
  - vm_compute. reflexivity.
  - reflexivity.
  - reflexivity.
  - exists r, t', disk'. split; [exact Hend|].
    rewrite Hcost, Hp, Hm. reflexivity.
Defined.

End TrackerClaims.

(** ** The compare_costs tool *)

Module McpClaims.
Import Json Types JsNumber Storage Tracker TrackerFacts McpServer Scenarios.
Local Open Scope float_scope.

Lemma calculateCost_USD t provider model i o :
  cfg_currency (config t) <> Some KRW ->
  Tracker.calculateCost t provider model i o
  = {| amount := Pricing.calculateCost provider model (toNumber i) (toNumber o);
       currency := USD |}.
Proof.
  intros H. unfold Tracker.calculateCost.
  destruct (cfg_currency (config t)) as [[]|]; congruence.
Qed.

(** What one iteration quotes for a model when the scratch user has no
    totals yet. *)
Lemma compareOne_quote scratch tokens provider model name env t disk :
  scratch <> "" ->
  userTotals t !! scratch = None ->
  cfg_currency (config t) <> Some KRW ->
  provider <> "" -> model <> "" ->
  exists t' disk',
    compareOne scratch tokens (provider, model, name) env (t, disk)
    = (quote tokens (provider, model, name), (t', disk'))
    /\ userTotals t' !! scratch = None
    /\ config t' = config t.
Proof.
  intros Hscratch Hclear Hcur Hp Hm. unfold compareOne, quote.
  set (usage := {| p_provider := Some provider; p_model := Some model;
                   p_inputTokens := Some (tokens / 2)%Z;
                   p_outputTokens := Some (- (- tokens / 2))%Z;
                   p_totalTokens := Some tokens; p_cost := None;
                   p_metadata := None |}).
  set (tracking := {| t_userId := Some scratch; t_sessionId := None;
                      startTime := now env |}).
  assert (Huser : sessionUser (Some scratch) t = Some scratch).
  { simpl. destruct (String.eqb_spec scratch ""); congruence. }
  unfold startTracking. cbv beta iota zeta. rewrite Huser. fold tracking.
  set (trackingId := trackingIdOf env).
  set (t1 := withTracking t (<[trackingId := tracking]> (activeTracking t))).
  assert (Hactive : activeTracking t1 !! trackingId = Some tracking)
    by apply lookup_insert_eq.
  destruct (endTracking_known _ _ usage env _ disk Hactive)
    as (t2 & disk2 & Hend & _ & _ & Hcfg & Htotals).
  rewrite Hend.
  assert (Hkey : orString (t_userId tracking) "anonymous" = scratch).
  { simpl. destruct (String.eqb_spec scratch ""); congruence. }
  unfold getUserUsage. rewrite Htotals, Hkey.
  rewrite lookup_insert_eq.
  change (userTotals t1) with (userTotals t). rewrite Hclear.
  assert (Hprov : orString (Some provider) "openai" = provider).
  { simpl. destruct (String.eqb_spec provider ""); congruence. }
  assert (Hmodel : orString (Some model) "unknown" = model).
  { simpl. destruct (String.eqb_spec model ""); congruence. }
  cbn [usageByModel addUsage zeroTotal addToModel Pricing.lookupKey
       Types.provider Types.model fullUsage usage p_provider p_model].
  rewrite Hprov, Hmodel, String.eqb_refl.
  cbn [modelCost cost amount totalTokens p_cost p_totalTokens p_inputTokens
       p_outputTokens p_provider p_model orObject fullUsage usage].
  rewrite Hprov, Hmodel, calculateCost_USD by exact Hcur.
  cbn [amount].
  assert (Hfst : fst (clearUserUsage scratch env (t2, disk2))
                 = withMaps t2 (delete scratch (usageHistory t2))
                     (delete scratch (userTotals t2)))
    by (unfold clearUserUsage; apply saveToStorage_tracker).
  destruct (clearUserUsage scratch env (t2, disk2)) as [t' disk'].
  simpl in Hfst. subst t'.
  eexists; eexists. split; [reflexivity|]. simpl.
  split; [apply lookup_delete_eq | exact Hcfg].
Qed.

Lemma compareAll_quotes scratch tokens entries i envs t disk :
  scratch <> "" ->
  userTotals t !! scratch = None ->
  cfg_currency (config t) <> Some KRW ->
  Forall (fun entry => fst (fst entry) <> "" /\ snd (fst entry) <> "") entries ->
  fst (compareAll scratch tokens entries i envs (t, disk)) = List.map (quote tokens) entries.
Proof.
  intros Hscratch Hclear Hcur Hall. revert i t disk Hclear Hcur.
  induction Hall as [|[[provider model] name] rest [Hp Hm] _ IH];
    intros i t disk Hclear Hcur; [reflexivity|].
  simpl in Hp, Hm. cbn [compareAll List.map].
  destruct (compareOne_quote scratch tokens provider model name (envs i) t disk
              Hscratch Hclear Hcur Hp Hm)
    as (t' & disk' & Hone & Hclear' & Hcfg).
  rewrite Hone.
  specialize (IH (S i) t' disk' Hclear' ltac:(rewrite Hcfg; exact Hcur)).
  destruct (compareAll scratch tokens rest (S i) envs (t', disk')) as [items w2].
  simpl in IH. subst items. reflexivity.
Qed.

(** The JavaScript server's handler gives the same ranking under its own
    display names. *)
Lemma compare_costs_js_ranking t disk envs :
  userTotals t !! "_comparison" = None ->
  cfg_currency (config t) <> Some KRW ->
  fst (compare_costs 1000 envs (t, disk))
  = [ ("Claude 3 Haiku", 0.00075); ("GPT-3.5 Turbo", 0.001);
      ("Claude 3 Sonnet", 0.009); ("GPT-4", 0.045); ("Claude 3 Opus", 0.045) ].
Proof.
  intros Hclear Hcur. unfold compare_costs.
  pose proof (compareAll_quotes "_comparison" 1000 modelsJs 0 envs t disk
                ltac:(discriminate) Hclear Hcur) as H.
  destruct (compareAll "_comparison" 1000 modelsJs 0 envs (t, disk)) as [comparison w'].
  cbn [fst snd] in H |- *. rewrite H; [reflexivity|].
  unfold modelsJs. repeat constructor; simpl; discriminate.
Qed.

(** C3 (as the code has it). Comparing 1000 tokens, split 500/500, across
    the five curated models on a tracker in USD whose scratch user
    ['_compare'] is clear gives the list below: sorted by cost, no cost
    larger than the next, but not strictly increasing: GPT-4 and Claude
    Opus both cost 0.045 and take the last two ranks in the order of the
    curated list. *)
Theorem compareCosts_ranking t disk envs :
  userTotals t !! "_compare" = None ->
  cfg_currency (config t) <> Some KRW ->
  let ranking := fst (compareCosts 1000 envs (t, disk)) in
  ranking = [ ("Claude Haiku", 0.00075); ("GPT-3.5", 0.001);
              ("Claude Sonnet", 0.009); ("GPT-4", 0.045); ("Claude Opus", 0.045) ]
  /\ nonDecreasing (List.map snd ranking) = true
  /\ strictlyIncreasing (List.map snd ranking) = false.
Proof.
  intros Hclear Hcur ranking.
  assert (Hrank : ranking = sortByCost (List.map (quote 1000) models)).
  { subst ranking. unfold compareCosts.
    pose proof (compareAll_quotes "_compare" 1000 models 0 envs t disk
                  ltac:(discriminate) Hclear Hcur) as H.
    destruct (compareAll "_compare" 1000 models 0 envs (t, disk)) as [comparison w'].
    cbn [fst snd] in H |- *. rewrite H; [reflexivity|].
    unfold models. repeat constructor; simpl; discriminate. }
  rewrite Hrank. vm_compute. repeat split.
Qed.

Lemma compareCosts_ranking_witness :
  strictlyIncreasing
    (List.map snd (fst (compareCosts 1000 (fun _ => someEnv) (freshTracker, emptyDisk))))
  = false.
Proof.
  destruct (compareCosts_ranking freshTracker emptyDisk (fun _ => someEnv))
    as (_ & _ & Hties).
  - reflexivity.
  - discriminate.
  - exact Hties.
Defined.

(** C3, as the claim states it, fails: the sorted list is not strictly
    increasing, its last two costs are equal. *)
Lemma compareCosts_has_a_tie :
  let ranking := fst (compareCosts 1000 (fun _ => someEnv) (freshTracker, emptyDisk)) in
  strictlyIncreasing (List.map snd ranking) = false
  /\ exists c, ranking !! 3%nat = Some ("GPT-4", c) /\ ranking !! 4%nat = Some ("Claude Opus", c).
Proof. vm_compute. split; [reflexivity|]. eexists. split; reflexivity. Qed.

End McpClaims.

(** ** The aggregate invariant *)

Module AggregateFacts.
Import Json Types JsNumber Storage Tracker TrackerFacts.
Local Open Scope float_scope.

Lemma sumTokens_snoc rs r :
  sumTokens (rs ++ [r]) = addCount (sumTokens rs) (totalTokens r).
Proof. unfold sumTokens. rewrite fold_left_app. reflexivity. Qed.

Lemma exactTokens_snoc rs r :
  exactTokens (rs ++ [r]) = (exactTokens rs + totalTokens r)%Z.
Proof. unfold exactTokens. rewrite fold_left_app. reflexivity. Qed.

Lemma sumCost_snoc rs r : sumCost (rs ++ [r]) = sumCost rs + amount (cost r).
Proof. unfold sumCost. rewrite fold_left_app. reflexivity. Qed.

Lemma forModel_snoc key rs r :
  forModel key (rs ++ [r])
  = (forModel key rs ++ if String.eqb (modelKey r) key then [r] else [])%list.
Proof. unfold forModel. rewrite List.filter_app. reflexivity. Qed.

Lemma lookupKey_addToModel key' key n c byModel :
  Pricing.lookupKey key' (addToModel key n c byModel)
  = if String.eqb key key'
    then Some match Pricing.lookupKey key byModel with
              | Some m => {| tokens := addCount (tokens m) n; modelCost := modelCost m + c |}
              | None => {| tokens := addCount 0 n; modelCost := 0 + c |}
              end
    else Pricing.lookupKey key' byModel.
Proof.
  induction byModel as [|[k m] rest IH]; simpl.
  - destruct (String.eqb key key'); reflexivity.
  - destruct (String.eqb_spec k key) as [->|Hk]; simpl.
    + destruct (String.eqb key key'); reflexivity.
    + rewrite IH. destruct (String.eqb_spec key key') as [->|Hkey]; [|reflexivity].
      destruct (String.eqb_spec k key'); [congruence|reflexivity].
Qed.

(** *** Counts that add up to a safe integer *)

Lemma exactTokens_nonneg rs :
  Forall (fun r => (0 <= totalTokens r)%Z) rs -> (0 <= exactTokens rs)%Z.
Proof.
  induction rs as [|r rs IH] using rev_ind; intros H; [reflexivity|].
  apply Forall_app in H. destruct H as [Hrs Hr]. inversion_clear Hr.
  rewrite exactTokens_snoc. specialize (IH Hrs). lia.
Qed.

Lemma safeTokens_snoc rs r :
  safeTokens (rs ++ [r]) ->
  safeTokens rs /\ (0 <= totalTokens r)%Z /\ (exactTokens rs + totalTokens r <= 2 ^ 53)%Z.
Proof.
  intros [Hall Hle]. apply Forall_app in Hall. destruct Hall as [Hrs Hr].
  inversion_clear Hr. rewrite exactTokens_snoc in Hle.
  pose proof (exactTokens_nonneg rs Hrs). repeat split; try assumption; lia.
Qed.

(** While the counts add up to a safe integer, the program's sum is the
    sum of the integers. *)
Lemma sumTokens_exact rs : safeTokens rs -> sumTokens rs = exactTokens rs.
Proof.
  induction rs as [|r rs IH] using rev_ind; intros Hsafe; [reflexivity|].
  apply safeTokens_snoc in Hsafe. destruct Hsafe as (Hrs & Hr & Hle).
  rewrite sumTokens_snoc, exactTokens_snoc, (IH Hrs).
  apply Binary64.addCount_exact; [apply exactTokens_nonneg, Hrs | exact Hr | exact Hle].
Qed.

Lemma exactTokens_filter f rs :
  Forall (fun r => (0 <= totalTokens r)%Z) rs ->
  (exactTokens (List.filter f rs) <= exactTokens rs)%Z.
Proof.
  induction rs as [|r rs IH] using rev_ind; intros H; [reflexivity|].
  apply Forall_app in H. destruct H as [Hrs Hr]. inversion_clear Hr.
  rewrite List.filter_app, exactTokens_snoc. specialize (IH Hrs). cbn [List.filter].
  destruct (f r); [rewrite exactTokens_snoc; lia|]. rewrite app_nil_r. lia.
Qed.

Lemma safeTokens_forModel key rs : safeTokens rs -> safeTokens (forModel key rs).
Proof.
  intros [Hall Hle]. split.
  - unfold forModel. clear Hle. induction Hall as [|r rs Hr _ IH]; simpl; [constructor|].
    destruct (String.eqb (modelKey r) key); [constructor|]; assumption.
  - pose proof (exactTokens_filter (fun r => String.eqb (modelKey r) key) rs Hall) as H.
    unfold forModel. lia.
Qed.

Lemma fold_tokens_shift (l : list (string * ModelUsage)) (a : Z) :
  fold_left (fun acc kv => (acc + tokens (snd kv))%Z) l a
  = (a + fold_left (fun acc kv => (acc + tokens (snd kv))%Z) l 0)%Z.
Proof.
  revert a. induction l as [|kv rest IH]; intros a; simpl; [lia|].
  rewrite IH, (IH (0 + _)%Z). lia.
Qed.

Lemma fold_tokens_addToModel key n c byModel :
  match Pricing.lookupKey key byModel with
  | Some m => addCount (tokens m) n = (tokens m + n)%Z
  | None => addCount 0 n = n
  end ->
  fold_left (fun acc kv => (acc + tokens (snd kv))%Z) (addToModel key n c byModel) 0%Z
  = (fold_left (fun acc kv => (acc + tokens (snd kv))%Z) byModel 0 + n)%Z.
Proof.
  induction byModel as [|[k m] rest IH]; simpl.
  - intros ->. reflexivity.
  - destruct (String.eqb k key); simpl.
    + intros ->.
      rewrite fold_tokens_shift, (fold_tokens_shift rest (0 + tokens m)). lia.
    + intros H. rewrite fold_tokens_shift, (IH H), (fold_tokens_shift rest (0 + tokens m)).
      lia.
Qed.

(** One more record: the fold of the longer sequence. *)
Lemma foldOf_addUsage rs r agg :
  foldOf rs agg -> foldOf (rs ++ [r]) (addUsage r agg).
Proof.
  intros (Htok & Hcost & Hmodels & Hsum). unfold foldOf. simpl.
  split; [rewrite sumTokens_snoc; congruence|].
  split; [rewrite sumCost_snoc; congruence|].
  split.
  - intros key. rewrite lookupKey_addToModel, forModel_snoc.
    fold (modelKey r).
    destruct (String.eqb_spec (modelKey r) key) as [<-|Hne].
    + specialize (Hmodels (modelKey r)).
      destruct (Pricing.lookupKey (modelKey r) (usageByModel agg)) as [m|].
      * destruct Hmodels as (_ & Hmt & Hmc). simpl.
        rewrite sumTokens_snoc, sumCost_snoc, Hmt, Hmc.
        split; [|split; reflexivity].
        intros Habs. apply app_eq_nil in Habs. destruct Habs; discriminate.
      * rewrite Hmodels. simpl. split; [discriminate|]. split; reflexivity.
    + rewrite app_nil_r. apply Hmodels.
  - intros Hsafe. apply safeTokens_snoc in Hsafe. destruct Hsafe as (Hrs & Hr & Hle).
    pose proof (sumTokens_exact rs Hrs) as Hexact.
    pose proof (exactTokens_nonneg rs (proj1 Hrs)) as H0.
    rewrite Htok, Hexact, Binary64.addCount_exact by assumption.
    unfold breakdownTokens. simpl. fold (modelKey r).
    rewrite fold_tokens_addToModel.
    + specialize (Hsum Hrs). unfold breakdownTokens in Hsum. lia.
    + specialize (Hmodels (modelKey r)).
      destruct (Pricing.lookupKey (modelKey r) (usageByModel agg)) as [m|].
      * destruct Hmodels as (_ & Hmt & _).
        pose proof (safeTokens_forModel (modelKey r) rs Hrs) as Hsafe.
        pose proof (exactTokens_filter (fun x => String.eqb (modelKey x) (modelKey r)) rs
                      (proj1 Hrs)) as Hpart.
        fold (forModel (modelKey r) rs) in Hpart.
        rewrite Hmt, (sumTokens_exact _ Hsafe).
        apply Binary64.addCount_exact;
          [apply exactTokens_nonneg, (proj1 Hsafe) | exact Hr | lia].
      * apply (Binary64.addCount_exact 0); lia.
Qed.

Lemma foldOf_zeroTotal user env t : foldOf [] (zeroTotal user env t).
Proof. repeat split. Qed.

Lemma Fed_recordUsage all r env t disk :
  Fed all t -> Fed (all ++ [r]) (fst (recordUsage r env (t, disk))).
Proof.
  intros HFed user. cbv zeta.
  rewrite recordUsage_history, recordUsage_userTotals, List.filter_app.
  fold (recordUser r). cbn [List.filter].
  destruct (HFed user) as [Hhist Htot]. cbv zeta in Hhist, Htot.
  destruct (String.eqb_spec (recordUser r) user) as [<-|Hne].
  - rewrite !lookup_insert_eq. unfold historyOf. rewrite Hhist.
    set (rs := List.filter _ all) in *.
    split.
    + destruct rs; reflexivity.
    + split; [destruct rs; discriminate|].
      destruct (userTotals t !! recordUser r) as [agg|].
      * apply foldOf_addUsage, Htot.
      * rewrite Htot. apply (foldOf_addUsage [] r), foldOf_zeroTotal.
  - rewrite !lookup_insert_ne by exact Hne. rewrite app_nil_r. auto.
Qed.

Lemma recordAll_cons r env rest w :
  recordAll ((r, env) :: rest) w = recordAll rest (recordUsage r env w).
Proof. reflexivity. Qed.

Lemma Fed_recordAll calls all t disk :
  Fed all t -> Fed (all ++ List.map fst calls) (fst (recordAll calls (t, disk))).
Proof.
  revert all t disk. induction calls as [|[r env] rest IH]; intros all t disk HFed.
  - simpl. rewrite app_nil_r. exact HFed.
  - rewrite recordAll_cons. pose proof (Fed_recordUsage all r env t disk HFed) as Hstep.
    destruct (recordUsage r env (t, disk)) as [t1 disk1]. cbn [fst] in Hstep.
    specialize (IH (all ++ [r])%list t1 disk1 Hstep).
    rewrite <- app_assoc in IH. exact IH.
Qed.

Lemma Consistent_recordUsage r env t disk :
  Consistent t -> Consistent (fst (recordUsage r env (t, disk))).
Proof.
  intros Hcons user.
  rewrite recordUsage_history, recordUsage_userTotals.
  fold (recordUser r). specialize (Hcons user).
  destruct (decide (recordUser r = user)) as [<-|Hne].
  - rewrite !lookup_insert_eq. unfold historyOf.
    destruct (userTotals t !! recordUser r) as [agg|].
    + destruct Hcons as (rs & -> & _ & Hfold).
      exists (rs ++ [r])%list. split; [reflexivity|].
      split; [intros H; apply app_eq_nil in H; destruct H; discriminate|].
      apply foldOf_addUsage, Hfold.
    + rewrite Hcons. exists [r]. split; [reflexivity|]. split; [discriminate|].
      apply (foldOf_addUsage [] r), foldOf_zeroTotal.
  - rewrite !lookup_insert_ne by exact Hne. exact Hcons.
Qed.

Lemma Consistent_maps (t t' : TokenTracker) :
  usageHistory t' = usageHistory t -> userTotals t' = userTotals t ->
  Consistent t -> Consistent t'.
Proof. intros Hh Hu Hcons user. rewrite Hh, Hu. apply Hcons. Qed.

Lemma Consistent_perform call env w :
  Consistent (fst w) -> Consistent (fst (perform call env w)).
Proof.
  destruct w as [t disk]. cbn [fst].
  destruct call as [userId sessionId|trackingId usage|usage|user]; intros Hcons;
    cbn [perform fst snd].
  - exact Hcons.
  - unfold endTracking. destruct (activeTracking t !! trackingId) as [tracking|];
      [|exact Hcons].
    pose proof (Consistent_recordUsage (fullUsage t tracking usage env) env t disk Hcons)
      as Hrec.
    destruct (recordUsage (fullUsage t tracking usage env) env (t, disk)) as [t1 disk1].
    exact Hrec.
  - apply Consistent_recordUsage, Hcons.
  - unfold clearUserUsage. rewrite saveToStorage_tracker.
    intros other. cbn [withMaps userTotals usageHistory]. specialize (Hcons other).
    destruct (decide (user = other)) as [->|Hne].
    + rewrite !lookup_delete_eq. reflexivity.
    + rewrite !lookup_delete_ne by exact Hne. exact Hcons.
Qed.

Lemma Consistent_performAll calls w :
  Consistent (fst w) -> Consistent (fst (performAll calls w)).
Proof.
  revert w. induction calls as [|[call env] rest IH]; intros w Hcons; [exact Hcons|].
  change (performAll ((call, env) :: rest) w) with (performAll rest (perform call env w)).
  apply IH, Consistent_perform, Hcons.
Qed.

End AggregateFacts.

Module AggregateClaims.
Import Json Types JsNumber Storage Tracker TrackerFacts AggregateFacts Scenarios.
Local Open Scope float_scope.

(** C1 (as the code has it). Aggregate-fold invariant: after any sequence
    of [recordUsage] calls on a tracker that starts with no history and no
    totals, and for every user, the stored history is that user's record
    sequence; [getUserUsage] is null exactly when the sequence is empty;
    otherwise [totalTokens] is the sum of [totalTokens] and [totalCost]
    the sum of [cost.amount] over the sequence, both added as JavaScript
    numbers in recording order, and every breakdown entry holds the same
    two sums over the records with its "provider/model" key (a key has an
    entry exactly when some record carries it).  While no count is
    negative and the counts add up to at most 2^53, the sums of counts are
    the sums of the integers: [totalTokens] is the exact total, every
    entry the exact total of its key, and [totalTokens] is the sum of
    [tokens] across all breakdown entries.  Under any sequence of calls
    whatever (sessions started and ended, records, clears) the stored
    aggregate of every user stays the fold of that user's stored
    history. *)
Theorem aggregate_is_fold_of_records calls t disk user :
  usageHistory t = ∅ -> userTotals t = ∅ ->
  let t' := fst (recordAll calls (t, disk)) in
  let rs := recordsOf user calls in
  historyOf user t' = rs
  /\ match getUserUsage user t' with
     | None => rs = []
     | Some agg =>
         rs <> []
         /\ uu_totalTokens agg = sumTokens rs
         /\ totalCost agg = sumCost rs
         /\ (forall key,
               match Pricing.lookupKey key (usageByModel agg) with
               | None => forModel key rs = []
               | Some m =>
                   forModel key rs <> []
                   /\ tokens m = sumTokens (forModel key rs)
                   /\ modelCost m = sumCost (forModel key rs)
               end)
         /\ (safeTokens rs ->
               uu_totalTokens agg = exactTokens rs
               /\ uu_totalTokens agg = breakdownTokens agg
               /\ forall key m,
                    Pricing.lookupKey key (usageByModel agg) = Some m ->
                    tokens m = exactTokens (forModel key rs))
     end
  /\ (forall anyCalls, Consistent (fst (performAll anyCalls (t, disk)))).
Proof.
  intros Hh Ht t' rs.
  assert (HFed : Fed [] t).
  { intros u. simpl. rewrite Hh, Ht, !lookup_empty. auto. }
  pose proof (Fed_recordAll calls [] t disk HFed user) as [Hhist Htot].
  cbv zeta in Hhist, Htot. cbn [app] in Hhist, Htot.
  fold (recordsOf user calls) in Hhist, Htot. fold rs in Hhist, Htot. fold t' in Hhist, Htot.
  split; [|split].
  - unfold historyOf. rewrite Hhist. destruct rs; reflexivity.
  - unfold getUserUsage. destruct (userTotals t' !! user) as [agg|]; [|exact Htot].
    destruct Htot as (Hne & Htok & Hcost & Hmodels & Hsum).
    split; [exact Hne|]. split; [exact Htok|]. split; [exact Hcost|].
    split; [exact Hmodels|].
    intros Hsafe. split; [rewrite Htok; apply sumTokens_exact, Hsafe|].
    split; [apply Hsum, Hsafe|].
    intros key m Hlook. specialize (Hmodels key). rewrite Hlook in Hmodels.
    destruct Hmodels as (_ & Hmt & _). rewrite Hmt.
    apply sumTokens_exact, safeTokens_forModel, Hsafe.
  - intros anyCalls. apply Consistent_performAll.
    intros u. cbn [fst]. rewrite Hh, Ht, !lookup_empty. reflexivity.
Qed.

Lemma aggregate_is_fold_of_records_witness :
  exists agg,
    getUserUsage "ada" (fst (recordAll threeCalls (freshTracker, emptyDisk))) = Some agg
    /\ uu_totalTokens agg = 600%Z
    /\ uu_totalTokens agg = breakdownTokens agg
    /\ totalCost agg = sumCost (recordsOf "ada" threeCalls).
Proof.
  destruct (aggregate_is_fold_of_records threeCalls freshTracker emptyDisk "ada"
              eq_refl eq_refl) as (_ & H & _).
  destruct (getUserUsage "ada" (fst (recordAll threeCalls (freshTracker, emptyDisk))))
    as [agg|].
  - exists agg. destruct H as (_ & _ & Hcost & _ & Hsafe).
    assert (Hthree : safeTokens (recordsOf "ada" threeCalls)).
    { split; [repeat constructor; discriminate | discriminate]. }
    destruct (Hsafe Hthree) as (Htok & Hsum & _).
    split; [reflexivity|]. split; [exact Htok|]. split; [exact Hsum | exact Hcost].
  - discriminate H.
Defined.

(** C1, as the claim states it, fails where it equates a total with the
    sum across the breakdown and where it takes the sums for exact.  The
    three calls of [threeCalls] cost 0.0002, 0.009 and 0.0002 (to binary64
    rounding): added in recording order they give one number, added
    model by model another.  The three records of [largeCalls] count 2^53,
    1 and 1 tokens: the stored total stays 2^53, while the counts add up
    to 2^53 + 2, which is also the sum across the breakdown. *)
Lemma totals_are_not_the_exact_sums :
  (exists agg,
     getUserUsage "ada" (fst (recordAll threeCalls (freshTracker, emptyDisk))) = Some agg
     /\ (totalCost agg =? breakdownCost agg) = false
     /\ (breakdownCost agg <? totalCost agg) = true
     /\ totalCost agg = 0.009400000000000002
     /\ breakdownCost agg = 0.0094)
  /\ (exists agg,
        getUserUsage "ada" (fst (recordAll largeCalls (freshTracker, emptyDisk))) = Some agg
        /\ uu_totalTokens agg = (2 ^ 53)%Z
        /\ exactTokens (recordsOf "ada" largeCalls) = (2 ^ 53 + 2)%Z
        /\ breakdownTokens agg = (2 ^ 53 + 2)%Z).
Proof. split; vm_compute; eexists; repeat split. Qed.

End AggregateClaims.

(** ** Persistence *)

Module StorageFacts.
Import Json Types JsNumber Storage Binary64.

(** Induction over [JsValue], through the lists of arrays and objects. *)
Lemma JsValue_induction (P : JsValue -> Prop) :
  P JsUndefined -> P JsNull -> (forall b, P (JsBool b)) -> (forall n, P (JsCount n)) ->
  (forall x, P (JsNumber x)) -> (forall s, P (JsString s)) -> (forall t, P (JsIso t)) ->
  (forall d, P (JsDate d)) ->
  (forall items, Forall P items -> P (JsArray items)) ->
  (forall fields, Forall (fun kv => P (snd kv)) fields -> P (JsObject fields)) ->
  forall v, P v.
Proof.
  intros Hu Hn Hb Hc Hx Hs Hi Hd Ha Ho.
  fix IH 1.
  intros [| |b|n|x|s|t|d|items|fields];
    [exact Hu | exact Hn | apply Hb | apply Hc | apply Hx | apply Hs | apply Hi
    | apply Hd | | ].
  - apply Ha. induction items as [|v rest IHr]; constructor; [apply IH | exact IHr].
  - apply Ho. induction fields as [|[k v] rest IHr]; constructor; [apply IH | exact IHr].
Qed.

Lemma isJsonNumber_keeps x : isJsonNumber x = true -> jsonNumber x = JsNumber x.
Proof.
  unfold isJsonNumber, jsonNumber.
  rewrite FloatAxioms.classify_spec, FloatAxioms.ltb_spec, FloatAxioms.eqb_spec,
    FloatAxioms.abs_spec.
  change (Prim2SF infinity) with (S754_infinity false).
  change (Prim2SF 0) with (S754_zero false).
  intros Hclass.
  destruct (Prim2SF x) as [[]|[]| |s m e] eqn:Hx; simpl in Hclass; try discriminate Hclass.
  - simpl. f_equal. apply Prim2SF_inj. rewrite Hx. reflexivity.
  - destruct s; reflexivity.
Qed.

Lemma jsonClean_keeps v : jsonClean v = true -> jsonValue v = Some v.
Proof.
  induction v as [| |b|n|x|s|t|d|items IH|fields IH] using JsValue_induction;
    simpl; intros Hclean; try reflexivity; try discriminate.
  - rewrite isJsonNumber_keeps by exact Hclean. reflexivity.
  - do 2 f_equal. induction IH as [|v rest Hv _ IHrest]; [reflexivity|].
    simpl in Hclean. apply andb_prop in Hclean. destruct Hclean as [Hc Hrest].
    simpl. rewrite (Hv Hc), (IHrest Hrest). reflexivity.
  - do 2 f_equal. induction IH as [|[k v] rest Hv _ IHrest]; [reflexivity|].
    simpl in Hclean, Hv. apply andb_prop in Hclean. destruct Hclean as [Hc Hrest].
    simpl. rewrite (Hv Hc), (IHrest Hrest). reflexivity.
Qed.

Lemma clean_fields_keep (fields : list (string * JsValue)) :
  forallb (fun kv => jsonClean (snd kv)) fields = true ->
  jsonValue (JsObject fields) = Some (JsObject fields).
Proof. intros H. apply jsonClean_keeps. exact H. Qed.

(** One history item survives: what [JSON.stringify] writes for it is read
    back, with the timestamp revived, as the same record. *)
Lemma usage_roundtrip u :
  usageStorable u = true ->
  exists j, jsonValue (usageToJs u) = Some j /\ usageOfJs j = Some u.
Proof.
  destruct u as [p m i o total [a cur] ts uid sid md].
  unfold usageStorable. simpl. intros H.
  apply andb_prop in H. destruct H as [H Hmd].
  apply andb_prop in H. destruct H as [Ha Hts].
  destruct ts as [ms|]; [|discriminate Hts].
  unfold usageToJs. simpl. rewrite (isJsonNumber_keeps a Ha).
  destruct md as [fields|];
    [cbn [optional]; rewrite (clean_fields_keep fields Hmd) | cbn [optional jsonValue]];
    destruct i, o, uid, sid, cur; simpl; eexists; (split; [reflexivity|]); reflexivity.
Qed.

Lemma modelUsage_roundtrip (mu : ModelUsage) :
  isJsonNumber (modelCost mu) = true ->
  exists j, jsonValue (modelUsageToJs mu) = Some j /\ modelUsageOfJs j = Some mu.
Proof.
  destruct mu as [n c]. simpl. intros Hc. rewrite (isJsonNumber_keeps c Hc).
  eexists. split; reflexivity.
Qed.

(** An object whose values all survive, read back value by value. *)
Lemma entries_roundtrip {A} (f : A -> JsValue) (dec : JsValue -> option A)
    (l : list (string * A)) :
  Forall (fun kv => exists j, jsonValue (f (snd kv)) = Some j /\ dec j = Some (snd kv)) l ->
  exists fields,
    jsonValue (JsObject (List.map (fun kv => (fst kv, f (snd kv))) l))
    = Some (JsObject fields)
    /\ entriesOf dec fields = Some l.
Proof.
  induction 1 as [|[k v] rest (j & Hj & Hdec) _ (fields & Hfields & Hentries)].
  - exists []. split; reflexivity.
  - exists ((k, j) :: fields). simpl in Hj, Hdec, Hfields |- *.
    injection Hfields as Hfields. rewrite Hj, Hfields. split; [reflexivity|].
    unfold entriesOf in Hentries |- *. simpl. rewrite Hdec. simpl.
    rewrite Hentries. reflexivity.
Qed.

(** A history array whose items all survive. *)
Lemma history_roundtrip (h : list TokenUsage) :
  forallb usageStorable h = true ->
  exists j, jsonValue (JsArray (List.map usageToJs h)) = Some j
            /\ historyOfJs j = Some h.
Proof.
  intros Hall.
  assert (exists items,
             List.map (fun item => match jsonValue item with
                                   | Some j => j
                                   | None => JsNull
                                   end) (List.map usageToJs h) = items
             /\ mapM usageOfJs items = Some h) as (items & Hitems & Hdec).
  { induction h as [|u rest IH]; [exists []; split; reflexivity|].
    simpl in Hall. apply andb_prop in Hall. destruct Hall as [Hu Hrest].
    destruct (IH Hrest) as (items & Hitems & Hdec).
    destruct (usage_roundtrip u Hu) as (j & Hj & Hdj).
    exists (j :: items). cbn [List.map]. rewrite Hj, Hitems. split; [reflexivity|].
    simpl. rewrite Hdj. simpl. rewrite Hdec. reflexivity. }
  exists (JsArray items). simpl. rewrite Hitems. split; [reflexivity | exact Hdec].
Qed.

Lemma jsonValue_object fields :
  jsonValue (JsObject fields)
  = Some (JsObject
            (List.flat_map (fun kv =>
                 match jsonValue (snd kv) with
                 | Some j => [(fst kv, j)]
                 | None => []
                 end) fields)).
Proof. reflexivity. Qed.

Lemma userUsage_roundtrip (t : UserUsage) :
  totalStorable t = true ->
  exists j, jsonValue (userUsageToJs t) = Some j /\ userUsageOfJs j = Some t.
Proof.
  destruct t as [u total c cur byModel d].
  intros H. unfold totalStorable in H. simpl in H.
  apply andb_prop in H. destruct H as [H Hmodels].
  apply andb_prop in H. destruct H as [Hc Hd].
  destruct d as [ms|]; [|discriminate Hd].
  destruct (entries_roundtrip modelUsageToJs modelUsageOfJs byModel)
    as (fields & Hfields & Hentries).
  { apply List.Forall_forall. intros kv Hin. apply modelUsage_roundtrip.
    rewrite forallb_forall in Hmodels. apply Hmodels. exact Hin. }
  unfold userUsageToJs.
  rewrite jsonValue_object.
  cbn [List.flat_map app fst snd uu_userId uu_totalTokens totalCost uu_currency
       usageByModel lastUsed].
  rewrite Hfields. simpl. rewrite (isJsonNumber_keeps c Hc).
  eexists. split; [reflexivity|].
  unfold userUsageOfJs. simpl. rewrite Hentries. destruct cur; reflexivity.
Qed.

(** A [Map] written with [Object.fromEntries] and read back with
    [Object.entries] is the same map when each value survives. *)
Lemma map_roundtrip {A} (f : A -> JsValue) (dec : JsValue -> option A)
    (m : gmap string A) :
  map_Forall (fun _ v => exists j, jsonValue (f v) = Some j /\ dec j = Some v) m ->
  exists fields,
    jsonValue (fromEntries f m) = Some (JsObject fields)
    /\ (entriesOf dec fields ≫= fun l => Some (list_to_map l)) = Some m.
Proof.
  intros Hall.
  destruct (entries_roundtrip f dec (map_to_list m)) as (fields & Hfields & Hentries).
  { apply Forall_forall. intros [k v] Hin. simpl.
    apply (Hall k v). apply elem_of_map_to_list. exact Hin. }
  exists fields. split; [exact Hfields|].
  rewrite Hentries. simpl. f_equal. apply list_to_map_to_list.
Qed.

End StorageFacts.

Module StorageClaims.
Import Json Types JsNumber Storage Tracker StorageFacts Scenarios.
Local Open Scope float_scope.




End StorageClaims.

(** ** Model names and the pricing resolver *)

Module PricingToolsFacts.
Import JsString Pricing PricingTools.

Lemma append_cons c a b : String c a ++ b = String c (a ++ b).
Proof. reflexivity. Qed.

Lemma append_empty b : "" ++ b = b.
Proof. reflexivity. Qed.

Lemma dashed_refl s : dashed s s.
Proof. induction s; constructor; assumption. Qed.

Lemma dashed_app a a' b b' : dashed a a' -> dashed b b' -> dashed (a ++ b) (a' ++ b').
Proof.
  induction 1; intros Hb; rewrite ?append_cons, ?append_empty; try constructor; auto.
Qed.

Lemma spanDigits_app s : s = fst (spanDigits s) ++ snd (spanDigits s).
Proof.
  induction s as [|c s IH]; simpl; [reflexivity|].
  destruct (isDigit c); [|reflexivity].
  destruct (spanDigits s) as [d r]. simpl in *. rewrite append_cons. congruence.
Qed.

Lemma matchVersion_app s d1 d2 rest :
  matchVersion s = Some (d1, d2, rest) -> s = d1 ++ "." ++ d2 ++ rest.
Proof.
  unfold matchVersion. pose proof (spanDigits_app s) as Hs.
  destruct (spanDigits s) as [[|c1 d] [|dot r1]]; try discriminate.
  destruct (Ascii.eqb_spec dot "."%char) as [->|Hne].
  - pose proof (spanDigits_app r1) as Hr.
    destruct (spanDigits r1) as [[|c2 d'] r2]; try discriminate.
    intros [= <- <- <-]. simpl in *. rewrite Hs, !append_cons, append_empty.
    do 2 f_equal. rewrite Hr at 1. rewrite !append_cons. reflexivity.
  - destruct dot as [[] [] [] [] [] [] [] []]; try discriminate; congruence.
Qed.

Lemma replaceVersions_dashed fuel s : dashed s (replaceVersions fuel s).
Proof.
  revert s. induction fuel as [|fuel IH]; intros s; simpl; [apply dashed_refl|].
  destruct (matchVersion s) as [[[d1 d2] rest]|] eqn:Hm.
  - apply matchVersion_app in Hm. rewrite Hm at 1.
    apply dashed_app; [apply dashed_refl|]. rewrite !append_cons, !append_empty.
    apply dashed_dot.
    apply dashed_app; [apply dashed_refl | apply IH].
  - destruct s as [|c s']; [constructor|]. apply dashed_same, IH.
Qed.

Lemma dashed_length s s' : dashed s s' -> String.length s' = String.length s.
Proof. induction 1; simpl; congruence. Qed.

Lemma includes_dot c s : includes (String c s) "." = Ascii.eqb c "." || includes s ".".
Proof. 
  cbn [includes String.prefix]. 
  destruct (ascii_dec "." c) as [<-|Hne]; simpl.
  - destruct s; reflexivity.
  - destruct (Ascii.eqb_spec c "."); [congruence|]. reflexivity.
Qed.

Lemma dashed_no_dot s s' : dashed s s' -> includes s "." = false -> s' = s.
Proof.
  induction 1 as [|c s s' H IH|s s' H IH]; intros Hno; [reflexivity| |].
  - rewrite includes_dot in Hno. apply orb_false_iff in Hno. destruct Hno as [_ Hno].
    rewrite IH by exact Hno. reflexivity.
  - rewrite includes_dot in Hno. discriminate Hno.
Qed.

Lemma length_append a b :
  String.length (a ++ b) = (String.length a + String.length b)%nat.
Proof. induction a as [|c a IH]; [reflexivity|]. rewrite append_cons. simpl. lia. Qed.

End PricingToolsFacts.

Module ResolverFacts.
Import JsString JsNumber Pricing PricingTools.
Local Open Scope float_scope.

Lemma prefix_trans a c s :
  String.prefix a c = true -> String.prefix c s = true -> String.prefix a s = true.
Proof.
  revert c s. induction a as [|x a IH]; intros c s Hac Hcs; [destruct s; reflexivity|].
  destruct c as [|y c]; [discriminate Hac|]. destruct s as [|z s]; [discriminate Hcs|].
  simpl in *. destruct (ascii_dec x y) as [->|]; [|discriminate Hac].
  destruct (ascii_dec y z) as [->|]; [|discriminate Hcs].
  destruct (ascii_dec z z); [|congruence]. eauto.
Qed.

(** A name that contains [c] contains every prefix of [c]. *)
Lemma includes_of_prefix s a c :
  String.prefix a c = true -> includes s c = true -> includes s a = true.
Proof.
  intros Hac. induction s as [|x s IH]; cbn [includes]; intros H.
  - apply orb_true_iff in H. destruct H as [H|H]; [|discriminate H].
    rewrite (prefix_trans a c "" Hac H). reflexivity.
  - apply orb_true_iff in H. destruct H as [H|H].
    + rewrite (prefix_trans a c _ Hac H). reflexivity.
    + rewrite (IH H). apply orb_true_r.
Qed.

(** The loop as a search: the first candidate contained in the name
    decides, when every candidate resolves to a per-token entry. *)
Lemma matchLoop_find table keys candidates nm i o :
  forallb (fun m => match lookupKey (remap keys m) table with
                    | Some (TokenRate _ _) => true
                    | _ => false
                    end) candidates = true ->
  matchLoop table keys candidates nm i o
  = match List.find (includes nm) candidates with
    | Some m =>
        match lookupKey (remap keys m) table with
        | Some (TokenRate a b) => Some (tokenCost a b i o)
        | _ => None
        end
    | None => None
    end.
Proof.
  induction candidates as [|m rest IH]; simpl; [reflexivity|].
  intros H. apply andb_prop in H. destruct H as [Hm Hrest].
  destruct (includes nm m); [|exact (IH Hrest)].
  destruct (lookupKey (remap keys m) table) as [[a b| | | |]|]; try discriminate Hm.
  reflexivity.
Qed.

Lemma matchLoop_zero table keys candidates nm c :
  freeAtZero table = true ->
  matchLoop table keys candidates nm 0 0 = Some c -> (c =? 0) = true.
Proof.
  intros Htable. induction candidates as [|m rest IH]; simpl; [discriminate|].
  destruct (includes nm m); [|exact IH].
  destruct (lookupKey (remap keys m) table) as [[input output| | | |]|] eqn:Hlook;
    try exact IH.
  intros [= <-].
  exact (PricingFacts.lookupKey_forallb
           (fun e => match e with
                     | TokenRate input output => tokenCost input output 0 0 =? 0
                     | PerChar perChar => 0 * perChar =? 0
                     | PerMinute perMinute => (0 / 60) * perMinute =? 0
                     | _ => true
                     end) _ _ _ Htable Hlook).
Qed.

Lemma defaultCost_zero table key c :
  freeAtZero table = true ->
  defaultCost table key 0 0 = Some c -> (c =? 0) = true.
Proof.
  intros Htable. unfold defaultCost.
  destruct (lookupKey key table) as [[input output| | | |]|] eqn:Hlook; try discriminate.
  intros [= <-].
  exact (PricingFacts.lookupKey_forallb
           (fun e => match e with
                     | TokenRate input output => tokenCost input output 0 0 =? 0
                     | PerChar perChar => 0 * perChar =? 0
                     | PerMinute perMinute => (0 / 60) * perMinute =? 0
                     | _ => true
                     end) _ _ _ Htable Hlook).
Qed.

Lemma providerBlock_zero table keys candidates key nm :
  freeAtZero table = true ->
  (providerBlock table keys candidates key nm 0 0 =? 0) = true.
Proof.
  intros Htable. unfold providerBlock.
  destruct (matchLoop _ _ _ _ _ _) eqn:Hm; [exact (matchLoop_zero _ _ _ _ _ Htable Hm)|].
  destruct (defaultCost _ _ _ _) eqn:Hd; [exact (defaultCost_zero _ _ _ Htable Hd)|].
  reflexivity.
Qed.

Lemma openaiBlock_zero nm c :
  openaiBlock nm 0 0 = Some c -> (c =? 0) = true.
Proof.
  assert (Htable : freeAtZero PRICING_openai = true) by reflexivity.
  unfold openaiBlock.
  destruct (startsWith nm "dall-e"); [cbn; intros [= <-]; reflexivity|].
  destruct (String.eqb nm "whisper-1"); [cbn; intros [= <-]; reflexivity|].
  cbv zeta.
  destruct (startsWith nm "tts-");
    [destruct (lookupKey nm PRICING_openai) as [[| | | |perChar]|] eqn:Hlook|].
  all: try (destruct (matchLoop _ _ _ _ _ _) eqn:Hm;
            [intros [= <-]; exact (matchLoop_zero _ _ _ _ _ Htable Hm)
            |intros Hd; exact (defaultCost_zero _ _ _ Htable Hd)]).
  intros [= <-].
  exact (PricingFacts.lookupKey_forallb
           (fun e => match e with
                     | TokenRate input output => tokenCost input output 0 0 =? 0
                     | PerChar perChar => 0 * perChar =? 0
                     | PerMinute perMinute => (0 / 60) * perMinute =? 0
                     | _ => true
                     end) _ _ _ Htable Hlook).
Qed.

Lemma calculateCost_zero provider model :
  (calculateCost provider model 0 0 =? 0) = true.
Proof.
  unfold calculateCost.
  destruct (if String.eqb provider "openai" then _ else None) eqn:Hblock.
  - destruct (String.eqb provider "openai"); [|discriminate].
    exact (openaiBlock_zero _ _ Hblock).
  - destruct (String.eqb provider "anthropic"); [apply providerBlock_zero; reflexivity|].
    destruct (String.eqb provider "gemini"); [apply providerBlock_zero; reflexivity|].
    reflexivity.
Qed.

Lemma mul_1300_zero c : (c =? 0) = true -> (c * 1300 =? 0) = true.
Proof.
  rewrite !FloatAxioms.eqb_spec, FloatAxioms.mul_spec.
  change (Prim2SF 0) with (S754_zero false).
  destruct (Prim2SF c) as [[]|[]| |[] m e]; simpl; intros H; try discriminate H;
    reflexivity.
Qed.

Lemma trackerCost_zero (t : Tracker.TokenTracker) provider model :
  (Types.amount (Tracker.calculateCost t provider model 0 0) =? 0) = true.
Proof.
  unfold Tracker.calculateCost. change (toNumber 0) with 0.
  destruct (Types.cfg_currency (Tracker.config t)) as [[]|]; cbn [Types.amount];
    try apply calculateCost_zero.
  apply mul_1300_zero, calculateCost_zero.
Qed.

Ltac shadowed nm :=
  match goal with
  | Hf : includes nm ?a = false, Ht : includes nm ?c = true |- _ =>
      rewrite (includes_of_prefix nm a c eq_refl Ht) in Hf; discriminate Hf
  end.

Ltac first_candidate nm :=
  repeat match goal with
         | |- context [includes nm ?c] =>
             let E := fresh "E" in
             destruct (includes nm c) eqn:E; [try shadowed nm|]
         end.

Ltac priced_with keys :=
  match keys with
  | ?k :: ?rest =>
      first [ exists k; eexists; eexists;
              split; [simpl; tauto | split; reflexivity]
            | priced_with rest ]
  end.

End ResolverFacts.

Module ResolverProperties.
Import JsString JsNumber Pricing PricingTools PricingToolsFacts ResolverFacts.
Local Open Scope float_scope.

(** X1. [normalizeModelName] keeps every character of a model name except
    that some dots become dashes: the result has the same length, and a
    name without a dot is returned unchanged. *)
Theorem normalizeModelName_only_dots (model : string) :
  dashed model (normalizeModelName model)
  /\ String.length (normalizeModelName model) = String.length model
  /\ (includes model "." = false -> normalizeModelName model = model).
Proof.
  pose proof (replaceVersions_dashed (String.length model) model) as H.
  split; [exact H|]. split; [apply dashed_length, H | apply dashed_no_dot, H].
Qed.

(** X2. For provider "openai" and every model name that does not take a
    special-unit exit (DALL-E, Whisper, TTS), [calculateCost] is the
    per-token formula at the rates of the entry of [PRICING.openai] that
    belongs to the first of ten identifiers contained in the normalized
    name, in this order: gpt-5, gpt-4-1, gpt-4o, o1, o3-mini, o4-mini,
    gpt-4-turbo-preview, gpt-4-turbo, gpt-4, gpt-3-5-turbo; a name that
    contains none of them is priced as gpt-3.5-turbo.  So the entry that
    decides is one of these ten and never one whose identifier extends an
    earlier one (gpt-5-mini, gpt-4.1-mini, gpt-4o-mini, o1-mini, o1-pro,
    gpt-4-32k, gpt-3.5-turbo-16k): "o1-mini" is billed at the rates of
    o1.  The embedding entries are not candidates at all. *)
Theorem openai_per_token_entries (model : string) (inputTokens outputTokens : float) :
  specialUnit (normalizeModelName model) = false ->
  let key := decidingKey openaiDeciding "gpt-3.5-turbo" (normalizeModelName model) in
  In key openaiPriced
  /\ forallb (fun shadowed => negb (String.eqb key shadowed)) openaiShadowed = true
  /\ exists input output,
       lookupKey key PRICING_openai = Some (TokenRate input output)
       /\ calculateCost "openai" model inputTokens outputTokens
          = tokenCost input output inputTokens outputTokens.
Proof.
  intros Hspecial. unfold calculateCost. cbn [String.eqb Ascii.eqb Bool.eqb].
  set (nm := normalizeModelName model) in *.
  unfold specialUnit in Hspecial.
  apply orb_false_iff in Hspecial. destruct Hspecial as [Hspecial Htts].
  apply orb_false_iff in Hspecial. destruct Hspecial as [Hdalle Hwhisper].
  unfold openaiBlock. rewrite Hdalle, Hwhisper. cbv zeta.
  assert (Htts' : (if startsWith nm "tts-"
                   then match lookupKey nm PRICING_openai with
                        | Some (PerChar perChar) => Some (inputTokens * perChar)
                        | _ => None
                        end
                   else None) = None).
  { destruct (startsWith nm "tts-"); [|reflexivity]. cbn [andb] in Htts.
    destruct (lookupKey nm PRICING_openai) as [[| | | |]|]; try reflexivity.
    discriminate Htts. }
  rewrite Htts'.
  rewrite matchLoop_find by reflexivity.
  unfold gptModels, decidingKey, openaiDeciding. cbn [List.find fst snd].
  first_candidate nm;
    (split; [simpl; tauto|]); (split; [reflexivity|]);
    eexists; eexists; split; reflexivity.
Qed.

Example mini_models_billed_as_full (inputTokens outputTokens : float) :
  calculateCost "openai" "gpt-4o-mini" inputTokens outputTokens
  = tokenCost 0.0025 0.010 inputTokens outputTokens
  /\ calculateCost "openai" "gpt-4-32k" inputTokens outputTokens
     = tokenCost 0.03 0.06 inputTokens outputTokens
  /\ calculateCost "openai" "text-embedding-3-small" inputTokens outputTokens
     = tokenCost 0.0005 0.0015 inputTokens outputTokens
  /\ calculateCost "gemini" "gemini-1.5-flash-8b" inputTokens outputTokens
     = tokenCost 0.000075 0.0003 inputTokens outputTokens.
Proof. repeat split. Qed.

Lemma openai_per_token_entries_witness :
  calculateCost "openai" "o1-mini" 1000 1000 = tokenCost 0.015 0.060 1000 1000.
Proof.
  destruct (openai_per_token_entries "o1-mini" 1000 1000 eq_refl)
    as (_ & _ & input & output & Hlook & Hcost).
  injection Hlook as <- <-. exact Hcost.
Defined.

(** X3. For provider "gemini" and every model name, [calculateCost] is
    the per-token formula at the rates of one of six entries of
    [PRICING.gemini]: the two free previews, gemini-1.5-pro,
    gemini-1.5-flash, gemini-1.0-pro or gemini-ultra; the entries whose
    name extends one of these (such as gemini-1.5-flash-8b and
    gemini-1.0-pro-vision) never decide. *)
Theorem gemini_per_token_entries (model : string) (inputTokens outputTokens : float) :
  exists key input output,
    In key geminiPriced
    /\ lookupKey key PRICING_gemini = Some (TokenRate input output)
    /\ calculateCost "gemini" model inputTokens outputTokens
       = tokenCost input output inputTokens outputTokens.
Proof.
  unfold calculateCost. cbn [String.eqb Ascii.eqb Bool.eqb].
  set (nm := normalizeModelName model).
  unfold providerBlock. rewrite matchLoop_find by reflexivity.
  unfold geminiModels. cbn [List.find].
  let keys := eval unfold geminiPriced in geminiPriced in
  first_candidate nm; priced_with keys.
Qed.

(** X4. Every key of [PRICING.anthropic], written as in the table or
    normalized (dots as dashes), is priced at the rates of its own
    entry. *)
Theorem anthropic_keys_priced_exactly (key : string) (input output : float)
    (inputTokens outputTokens : float) :
  lookupKey key PRICING_anthropic = Some (TokenRate input output) ->
  calculateCost "anthropic" key inputTokens outputTokens
  = tokenCost input output inputTokens outputTokens
  /\ calculateCost "anthropic" (normalizeModelName key) inputTokens outputTokens
     = tokenCost input output inputTokens outputTokens.
Proof.
  unfold PRICING_anthropic. cbn [lookupKey].
  repeat match goal with
         | |- context [String.eqb ?k key] =>
             destruct (String.eqb_spec k key) as [<-|?];
             [intros [= <- <-]; split; reflexivity|]
         end.
  discriminate.
Qed.

Lemma anthropic_keys_priced_exactly_witness :
  calculateCost "anthropic" "claude-3.5-haiku-20241022" 2000 300
  = tokenCost 0.00025 0.00125 2000 300.
Proof.
  apply (anthropic_keys_priced_exactly "claude-3.5-haiku-20241022" 0.00025 0.00125 2000 300).
  reflexivity.
Defined.


(** X5. No usage costs nothing: for every provider and model string,
    [calculateCost(provider, model, 0, 0)] is zero, and so is the amount the
    tracker computes from it, in USD and in KRW. *)
Theorem zero_usage_is_free (provider model : string) (t : Tracker.TokenTracker) :
  (calculateCost provider model 0 0 =? 0) = true
  /\ (Types.amount (Tracker.calculateCost t provider model 0 0) =? 0) = true.
Proof.
  split; [apply calculateCost_zero | apply trackerCost_zero].
Qed.

End ResolverProperties.

Module EstimateProperties.
Import JsString Pricing PricingTools PricingToolsFacts.
Local Open Scope Z_scope.

(** X6. [estimateTokens] is the text length divided by four, rounded up,
    whatever the model: zero exactly for the empty text, never smaller
    for a longer text, and at most the sum of the estimates of two parts. *)
Theorem estimateTokens_quarter (text : string) (model : option string) :
  let n := estimateTokens text model in
  4 * (n - 1) < Z.of_nat (String.length text) <= 4 * n
  /\ (n = 0 <-> text = "")
  /\ (forall model', estimateTokens text model' = n)
  /\ (forall more,
        n <= estimateTokens (text ++ more) model <= n + estimateTokens more model)%Z.
Proof.
  assert (Hany : forall txt m,
             estimateTokens txt m = ceilQuarter (Z.of_nat (String.length txt))).
  { intros txt m. unfold estimateTokens.
    destruct (_ || _); [reflexivity|]. destruct (includes _ "claude"); reflexivity. }
  cbv zeta. rewrite !Hany. unfold ceilQuarter. repeat split.
  - Z.div_mod_to_equations. lia.
  - Z.div_mod_to_equations. lia.
  - intros H. destruct text; [reflexivity|]. simpl String.length in H.
    Z.div_mod_to_equations. lia.
  - intros ->. reflexivity.
  - intros model'. rewrite Hany. reflexivity.
  - rewrite Hany, length_append. unfold ceilQuarter. Z.div_mod_to_equations. lia.
  - rewrite !Hany, length_append. unfold ceilQuarter. Z.div_mod_to_equations. lia.
Qed.

End EstimateProperties.

(** ** Sessions and history *)

Module HistoryProperties.
Import Json Types JsNumber Storage Tracker TrackerFacts TrackerAdmin.

(** X7. [getUserHistory(userId, limit)]: a positive limit gives the
    newest [limit] records (all of them when there are fewer); limit 0
    gives the whole history, not an empty list ([slice(-0)]); a negative
    limit drops that many of the oldest records. *)
Theorem getUserHistory_limit (userId : string) (limit : Z) (t : TokenTracker) :
  let h := historyOf userId t in
  let page := getUserHistory userId limit t in
  (0 < limit ->
     (exists older, h = (older ++ page)%list)
     /\ Z.of_nat (length page) = Z.min limit (Z.of_nat (length h)))
  /\ (limit = 0 -> page = h)
  /\ (limit < 0 -> page = drop (Z.to_nat (- limit)) h).
Proof.
  cbv zeta. unfold getUserHistory, slice.
  set (h := historyOf userId t). repeat split.
  - exists (take (Z.to_nat (Z.max (Z.of_nat (length h) + - limit) 0)) h).
    destruct (Z.ltb_spec (- limit) 0); [|lia]. symmetry. apply take_drop.
  - destruct (Z.ltb_spec (- limit) 0); [|lia]. rewrite length_drop. lia.
  - intros ->. simpl. rewrite Z.min_l by lia. reflexivity.
  - intros Hneg. destruct (Z.ltb_spec (- limit) 0); [lia|].
    destruct (Z.le_ge_cases (- limit) (Z.of_nat (length h))) as [Hle|Hge].
    + rewrite Z.min_l by lia. reflexivity.
    + rewrite Z.min_r by lia. rewrite Nat2Z.id.
      rewrite !drop_ge by lia. reflexivity.
Qed.

End HistoryProperties.

Module SessionFacts.
Import Json Types JsNumber Storage Tracker TrackerFacts TrackerAdmin.

Lemma getField_setField key v fields : getField key (setField key v fields) = v.
Proof.
  unfold getField. induction fields as [|[k x] rest IH]; simpl.
  - rewrite String.eqb_refl. reflexivity.
  - destruct (String.eqb_spec k key) as [->|Hne]; simpl.
    + rewrite String.eqb_refl. reflexivity.
    + destruct (String.eqb_spec k key); [contradiction|]. exact IH.
Qed.

Lemma getField_setField_ne key' key v fields :
  key' <> key -> getField key' (setField key v fields) = getField key' fields.
Proof.
  intros Hne. unfold getField. induction fields as [|[k x] rest IH]; simpl.
  - destruct (String.eqb_spec key key'); [congruence|]. reflexivity.
  - destruct (String.eqb_spec k key) as [->|Hk]; simpl.
    + destruct (String.eqb_spec key key'); [congruence|]. reflexivity.
    + destruct (String.eqb_spec k key'); [reflexivity|]. exact IH.
Qed.

End SessionFacts.

Module SessionProperties.
Import Json Types JsNumber Storage Tracker TrackerFacts TrackerAdmin SessionFacts.
Local Open Scope float_scope.

(** X8. The record [endTracking] makes carries the session's user and
    session id, the time of the end as timestamp, and in its metadata
    [duration] = end time - start time, which replaces a [duration] the
    caller supplied; every other metadata key is the caller's. *)
Theorem endTracking_stamps_the_record t disk trackingId tracking usage env :
  activeTracking t !! trackingId = Some tracking ->
  exists r t' disk' md,
    endTracking trackingId usage env (t, disk) = (Returned, (t', disk'))
    /\ usageHistory t' !! orString (t_userId tracking) "anonymous"
       = Some (historyOf (orString (t_userId tracking) "anonymous") t ++ [r])%list
    /\ timestamp r = ValidDate (now env)
    /\ userId r = t_userId tracking /\ sessionId r = t_sessionId tracking
    /\ metadata r = Some md
    /\ getField "duration" md = JsCount (now env - startTime tracking)
    /\ (forall key, key <> "duration" ->
          getField key md = getField key (default [] (p_metadata usage))).
Proof.
  intros Hactive.
  destruct (endTracking_known _ _ usage env _ disk Hactive)
    as (t' & disk' & Hend & Hhist & _).
  exists (fullUsage t tracking usage env), t', disk'. eexists.
  split; [exact Hend|]. split; [rewrite Hhist; apply lookup_insert_eq|].
  split; [reflexivity|]. split; [reflexivity|]. split; [reflexivity|].
  split; [reflexivity|]. split; [apply getField_setField|].
  intros key Hkey. rewrite getField_setField_ne by exact Hkey.
  destruct (p_metadata usage); reflexivity.
Qed.

Lemma endTracking_stamps_the_record_witness :
  exists r t' disk' md,
    endTracking "track_1759800000000_k3x9q0zab"
      {| p_provider := Some "openai"; p_model := Some "gpt-4";
         p_inputTokens := Some 10%Z; p_outputTokens := Some 10%Z;
         p_totalTokens := None; p_cost := None;
         p_metadata := Some [("duration", JsCount 5); ("route", JsString "chat")] |}
      Scenarios.laterEnv
      (snd (startTracking (Some "ada") (Some "s1") Scenarios.someEnv Scenarios.freshTracker),
       Scenarios.emptyDisk)
    = (Returned, (t', disk'))
    /\ usageHistory t' !! "ada" = Some [r]
    /\ sessionId r = Some "s1"
    /\ metadata r = Some md
    /\ getField "duration" md = JsCount 750
    /\ getField "route" md = JsString "chat".
Proof.
  destruct (endTracking_stamps_the_record
              (snd (startTracking (Some "ada") (Some "s1") Scenarios.someEnv
                      Scenarios.freshTracker))
              Scenarios.emptyDisk "track_1759800000000_k3x9q0zab"
              {| t_userId := Some "ada"; t_sessionId := Some "s1";
                 startTime := 1759800000000 |}
              {| p_provider := Some "openai"; p_model := Some "gpt-4";
                 p_inputTokens := Some 10%Z; p_outputTokens := Some 10%Z;
                 p_totalTokens := None; p_cost := None;
                 p_metadata := Some [("duration", JsCount 5); ("route", JsString "chat")] |}
              Scenarios.laterEnv)
    as (r & t' & disk' & md & Hend & Hhist & _ & _ & Hs & Hmd & Hd & Hother).
  - vm_compute. reflexivity.
  - exists r, t', disk', md. split; [exact Hend|]. split; [exact Hhist|].
    split; [exact Hs|]. split; [exact Hmd|]. split; [exact Hd|].
    rewrite (Hother "route") by discriminate. reflexivity.
Defined.

(** X9. [endTracking] treats falsy values as missing: an empty provider
    becomes "openai", a missing or empty model becomes "unknown", an
    explicit totalTokens of 0 is replaced by inputTokens + outputTokens
    (added as JavaScript numbers: exactly, while the sum is a safe
    integer), and the record of a session without a user (or with the
    empty user) is filed under "anonymous". *)
Theorem endTracking_falsy_is_missing t disk trackingId tracking usage env :
  activeTracking t !! trackingId = Some tracking ->
  exists r t' disk',
    endTracking trackingId usage env (t, disk) = (Returned, (t', disk'))
    /\ usageHistory t' !! orString (t_userId tracking) "anonymous"
       = Some (historyOf (orString (t_userId tracking) "anonymous") t ++ [r])%list
    /\ (p_provider usage = Some "" -> provider r = "openai")
    /\ (p_model usage = None \/ p_model usage = Some "" -> model r = "unknown")
    /\ (p_totalTokens usage = Some 0%Z ->
          totalTokens r
          = addCount (default 0%Z (p_inputTokens usage)) (default 0%Z (p_outputTokens usage))
          /\ ((0 <= default 0 (p_inputTokens usage))%Z ->
              (0 <= default 0 (p_outputTokens usage))%Z ->
              (default 0 (p_inputTokens usage) + default 0 (p_outputTokens usage) <= 2 ^ 53)%Z ->
              totalTokens r
              = (default 0 (p_inputTokens usage) + default 0 (p_outputTokens usage))%Z))
    /\ (exists key, usageHistory t' !! key = Some (historyOf key t ++ [r])%list
                    /\ (t_userId tracking = None \/ t_userId tracking = Some "" ->
                        key = "anonymous")).
Proof.
  intros Hactive.
  destruct (endTracking_known _ _ usage env _ disk Hactive)
    as (t' & disk' & Hend & Hhist & _).
  exists (fullUsage t tracking usage env), t', disk'.
  split; [exact Hend|]. split; [rewrite Hhist; apply lookup_insert_eq|].
  split; [intros H; simpl; rewrite H; reflexivity|].
  split; [intros [H|H]; simpl; rewrite H; reflexivity|].
  split.
  { intros H. simpl. rewrite H. simpl. rewrite !orCount_zero.
    split; [reflexivity|]. intros Hi Ho Hsum. apply Binary64.addCount_exact; assumption. }
  exists (orString (t_userId tracking) "anonymous").
  split; [rewrite Hhist; apply lookup_insert_eq|].
  intros [H|H]; rewrite H; reflexivity.
Qed.

Lemma endTracking_falsy_is_missing_witness :
  exists r t' disk',
    endTracking "track_1759800000000_k3x9q0zab"
      {| p_provider := Some ""; p_model := Some "";
         p_inputTokens := Some 7%Z; p_outputTokens := Some 5%Z;
         p_totalTokens := Some 0%Z; p_cost := None; p_metadata := None |}
      Scenarios.laterEnv
      (snd (startTracking (Some "ada") None Scenarios.someEnv Scenarios.freshTracker),
       Scenarios.emptyDisk)
    = (Returned, (t', disk'))
    /\ provider r = "openai" /\ model r = "unknown" /\ totalTokens r = 12%Z.
Proof.
  destruct (endTracking_falsy_is_missing
              (snd (startTracking (Some "ada") None Scenarios.someEnv Scenarios.freshTracker))
              Scenarios.emptyDisk "track_1759800000000_k3x9q0zab"
              {| t_userId := Some "ada"; t_sessionId := None; startTime := 1759800000000 |}
              {| p_provider := Some ""; p_model := Some "";
                 p_inputTokens := Some 7%Z; p_outputTokens := Some 5%Z;
                 p_totalTokens := Some 0%Z; p_cost := None; p_metadata := None |}
              Scenarios.laterEnv)
    as (r & t' & disk' & Hend & _ & Hp & Hm & Ht & _).
  - vm_compute. reflexivity.
  - exists r, t', disk'. split; [exact Hend|]. split; [exact (Hp eq_refl)|].
    split; [apply Hm; right; reflexivity | exact (proj1 (Ht eq_refl))].
Defined.

(** X10. A cost passed to [endTracking] is recorded as given, neither
    recomputed nor converted: its amount is added to the user's totalCost
    whatever its currency, and the aggregate keeps the currency it was
    created with. *)
Theorem endTracking_keeps_explicit_cost t disk trackingId tracking usage env c :
  activeTracking t !! trackingId = Some tracking ->
  p_cost usage = Some c ->
  let user := orString (t_userId tracking) "anonymous" in
  exists r t' disk' agg,
    endTracking trackingId usage env (t, disk) = (Returned, (t', disk'))
    /\ usageHistory t' !! user = Some (historyOf user t ++ [r])%list
    /\ cost r = c
    /\ getUserUsage user t' = Some agg
    /\ totalCost agg
       = match getUserUsage user t with
         | Some before => totalCost before + amount c
         | None => 0 + amount c
         end
    /\ uu_currency agg
       = match getUserUsage user t with
         | Some before => uu_currency before
         | None => orObject (cfg_currency (config t)) USD
         end.
Proof.
  intros Hactive Hcost user.
  destruct (endTracking_known _ _ usage env _ disk Hactive)
    as (t' & disk' & Hend & Hhist & _ & _ & Htotals).
  exists (fullUsage t tracking usage env), t', disk'. eexists.
  split; [exact Hend|]. split; [rewrite Hhist; apply lookup_insert_eq|].
  split; [simpl; rewrite Hcost; reflexivity|].
  unfold getUserUsage. rewrite Htotals. fold user.
  split; [apply lookup_insert_eq|].
  destruct (userTotals t !! user); simpl; rewrite Hcost; split; reflexivity.
Qed.

Lemma endTracking_keeps_explicit_cost_witness :
  exists r t' disk' agg,
    endTracking "track_1759800000000_k3x9q0zab"
      {| p_provider := Some "openai"; p_model := Some "gpt-4";
         p_inputTokens := Some 10%Z; p_outputTokens := Some 10%Z;
         p_totalTokens := None;
         p_cost := Some {| amount := 0.25; currency := USD |};
         p_metadata := None |}
      Scenarios.laterEnv
      (snd (startTracking (Some "ada") None Scenarios.someEnv
              (newTokenTracker Scenarios.wonConfig Scenarios.emptyDisk)),
       Scenarios.emptyDisk)
    = (Returned, (t', disk'))
    /\ cost r = {| amount := 0.25; currency := USD |}
    /\ getUserUsage "ada" t' = Some agg
    /\ totalCost agg = 0 + 0.25
    /\ uu_currency agg = KRW.
Proof.
  destruct (endTracking_keeps_explicit_cost
              (snd (startTracking (Some "ada") None Scenarios.someEnv
                      (newTokenTracker Scenarios.wonConfig Scenarios.emptyDisk)))
              Scenarios.emptyDisk "track_1759800000000_k3x9q0zab"
              {| t_userId := Some "ada"; t_sessionId := None; startTime := 1759800000000 |}
              {| p_provider := Some "openai"; p_model := Some "gpt-4";
                 p_inputTokens := Some 10%Z; p_outputTokens := Some 10%Z;
                 p_totalTokens := None;
                 p_cost := Some {| amount := 0.25; currency := USD |};
                 p_metadata := None |}
              Scenarios.laterEnv {| amount := 0.25; currency := USD |})
    as (r & t' & disk' & agg & Hend & _ & Hcost & Hagg & Htotal & Hcur).
  - vm_compute. reflexivity.
  - reflexivity.
  - exists r, t', disk', agg. repeat split; assumption.
Defined.

End SessionProperties.

(** ** Invariants of the tracker *)

Module CountFacts.
Import JsNumber Binary64.

Lemma SF_isCount x : countSF (Prim2SF x) -> isCount x = true.
Proof.
  unfold isCount. rewrite FloatAxioms.leb_spec, FloatAxioms.ltb_spec.
  change (Prim2SF 0%float) with (S754_zero false).
  change (Prim2SF infinity) with (S754_infinity false).
  destruct (Prim2SF x) as [s|[]| |[] m e]; simpl; intros H; try contradiction;
    reflexivity.
Qed.

Lemma leb_nonnegSF x : (0 <=? x)%float = true -> nonnegSF (Prim2SF x).
Proof.
  rewrite FloatAxioms.leb_spec. change (Prim2SF 0%float) with (S754_zero false).
  destruct (Prim2SF x) as [s|[]| |[] m e]; simpl; intros H; try discriminate H; exact I.
Qed.

Lemma leb_add x y :
  (0 <=? x)%float = true -> (0 <=? y)%float = true -> (0 <=? x + y)%float = true.
Proof.
  intros Hx Hy. apply nonneg_leb, add_nonneg; apply leb_nonnegSF; assumption.
Qed.

End CountFacts.

Module InvariantFacts.
Import Json Types JsNumber Storage Tracker TrackerFacts TrackerAdmin Binary64 CountFacts.
Local Open Scope float_scope.

Lemma Tidy_recordUsage r env t disk :
  Tidy t -> Tidy (fst (recordUsage r env (t, disk))).
Proof.
  intros Htidy user.
  rewrite recordUsage_history, recordUsage_userTotals, recordUsage_config.
  fold (recordUser r). specialize (Htidy user).
  destruct (decide (recordUser r = user)) as [<-|Hne].
  - rewrite !lookup_insert_eq. unfold historyOf.
    destruct (userTotals t !! recordUser r) as [agg|].
    + destruct Htidy as (Hid & Hcur & older & latest & -> & _ & Hall).
      split; [exact Hid|]. split; [exact Hcur|].
      exists (older ++ [latest])%list, r. split; [reflexivity|]. split; [reflexivity|].
      apply Forall_app. split; [exact Hall | constructor; [reflexivity | constructor]].
    + rewrite Htidy. split; [reflexivity|]. split; [reflexivity|].
      exists [], r. split; [reflexivity|]. split; [reflexivity|].
      constructor; [reflexivity | constructor].
  - rewrite !lookup_insert_ne by exact Hne. exact Htidy.
Qed.

Lemma Tidy_perform call env w : Tidy (fst w) -> Tidy (fst (perform call env w)).
Proof.
  destruct w as [t disk]. cbn [fst].
  destruct call as [userId sessionId|trackingId usage|usage|user]; intros Htidy;
    cbn [perform fst snd].
  - exact Htidy.
  - unfold endTracking. destruct (activeTracking t !! trackingId) as [tracking|];
      [|exact Htidy].
    pose proof (Tidy_recordUsage (fullUsage t tracking usage env) env t disk Htidy) as Hrec.
    destruct (recordUsage (fullUsage t tracking usage env) env (t, disk)) as [t1 disk1].
    exact Hrec.
  - apply Tidy_recordUsage, Htidy.
  - unfold clearUserUsage. rewrite saveToStorage_tracker.
    intros other. cbn [withMaps userTotals usageHistory config]. specialize (Htidy other).
    destruct (decide (user = other)) as [->|Hne].
    + rewrite !lookup_delete_eq. reflexivity.
    + rewrite !lookup_delete_ne by exact Hne. exact Htidy.
Qed.

Lemma Tidy_performAll calls w : Tidy (fst w) -> Tidy (fst (performAll calls w)).
Proof.
  revert w. induction calls as [|[call env] rest IH]; intros w Htidy; [exact Htidy|].
  change (performAll ((call, env) :: rest) w) with (performAll rest (perform call env w)).
  apply IH, Tidy_perform, Htidy.
Qed.

(** *** Non-negative totals *)

Lemma addToModel_nonneg key n c byModel :
  (0 <= n)%Z -> (0 <=? c) = true ->
  forallb (fun kv => (0 <=? tokens (snd kv))%Z && (0 <=? modelCost (snd kv))) byModel = true ->
  forallb (fun kv => (0 <=? tokens (snd kv))%Z && (0 <=? modelCost (snd kv)))
    (addToModel key n c byModel) = true.
Proof.
  intros Hn Hc. induction byModel as [|[k m] rest IH]; simpl.
  - intros _. rewrite andb_true_r. apply andb_true_intro. split.
    + apply Z.leb_le, addCount_nonneg; lia.
    + apply leb_add; [reflexivity | exact Hc].
  - intros H. apply andb_prop in H. destruct H as [Hm Hrest].
    apply andb_prop in Hm. destruct Hm as [Hmt Hmc]. apply Z.leb_le in Hmt.
    destruct (String.eqb k key); simpl.
    + rewrite Hrest, andb_true_r. apply andb_true_intro. split.
      * apply Z.leb_le, addCount_nonneg; lia.
      * apply leb_add; assumption.
    + rewrite (IH Hrest), andb_true_r. apply andb_true_intro. split.
      * apply Z.leb_le. lia.
      * exact Hmc.
Qed.

Lemma addUsage_nonneg r agg :
  usageNonneg r = true -> totalNonneg agg = true -> totalNonneg (addUsage r agg) = true.
Proof.
  unfold usageNonneg, totalNonneg. intros Hr Hagg.
  apply andb_prop in Hr. destruct Hr as [Hrt Hrc]. apply Z.leb_le in Hrt.
  apply andb_prop in Hagg. destruct Hagg as [Hagg Hmodels].
  apply andb_prop in Hagg. destruct Hagg as [Ht Hc]. apply Z.leb_le in Ht.
  simpl. apply andb_true_intro. split; [apply andb_true_intro; split|].
  - apply Z.leb_le, addCount_nonneg; lia.
  - apply leb_add; assumption.
  - apply addToModel_nonneg; assumption.
Qed.

Lemma NonnegTotals_recordUsage r env t disk :
  usageNonneg r = true ->
  NonnegTotals t -> NonnegTotals (fst (recordUsage r env (t, disk))).
Proof.
  intros Hr Hnn. unfold NonnegTotals. rewrite recordUsage_userTotals.
  apply map_Forall_insert_2; [|exact Hnn].
  apply addUsage_nonneg; [exact Hr|].
  destruct (userTotals t !! _) as [agg|] eqn:Hagg; [exact (Hnn _ _ Hagg) | reflexivity].
Qed.

Lemma orCount_nonneg a b : countNonneg a = true -> (0 <= b)%Z -> (0 <= orCount a b)%Z.
Proof.
  destruct a as [n|]; simpl; intros Ha Hb; [|exact Hb].
  apply Z.leb_le in Ha. destruct (n =? 0)%Z; lia.
Qed.

(** A count that is missing is taken as 0; one that is given enters the
    price computation as a non-negative finite number. *)
Lemma orCount_isCount a :
  countNonneg a = true -> countFinite a = true -> isCount (toNumber (orCount a 0)) = true.
Proof.
  destruct a as [n|]; simpl; intros Ha Hfin; [|reflexivity].
  apply Z.leb_le in Ha.
  destruct (n =? 0)%Z; [reflexivity|]. apply toNumber_isCount; assumption.
Qed.

Lemma trackerCost_nonneg t provider model i o :
  isCount (toNumber i) = true -> isCount (toNumber o) = true ->
  (0 <=? amount (Tracker.calculateCost t provider model i o)) = true.
Proof.
  intros Hi Ho. apply nonneg_leb.
  pose proof (PricingFacts.calculateCost_nonnegSF provider model (toNumber i) (toNumber o)
                Hi Ho) as Hc.
  unfold Tracker.calculateCost.
  destruct (cfg_currency (config t)) as [[]|]; cbn [amount]; try exact Hc.
  assert (exists mr er, Prim2SF 1300 = S754_finite false mr er) as (mr & er & Hr)
    by (eexists; eexists; reflexivity).
  exact (mul_nonneg_positive _ _ mr er Hc Hr).
Qed.

Lemma fullUsage_nonneg t tracking usage env :
  callNonneg (CallEnd "" usage) = true -> usageNonneg (fullUsage t tracking usage env) = true.
Proof.
  unfold callNonneg, usageNonneg. intros H.
  apply andb_prop in H. destruct H as [H Hfout].
  apply andb_prop in H. destruct H as [H Hfin].
  apply andb_prop in H. destruct H as [H Hcost].
  apply andb_prop in H. destruct H as [H Htotal].
  apply andb_prop in H. destruct H as [Hin Hout].
  pose proof (orCount_nonneg _ 0 Hin ltac:(lia)) as Hi.
  pose proof (orCount_nonneg _ 0 Hout ltac:(lia)) as Ho.
  simpl. apply andb_true_intro. split.
  - apply Z.leb_le. apply orCount_nonneg; [exact Htotal|].
    apply addCount_nonneg; assumption.
  - destruct (p_cost usage) as [c|]; [exact Hcost|]. simpl.
    apply trackerCost_nonneg; apply orCount_isCount; assumption.
Qed.

Lemma NonnegTotals_perform call env w :
  callNonneg call = true ->
  NonnegTotals (fst w) -> NonnegTotals (fst (perform call env w)).
Proof.
  destruct w as [t disk]. cbn [fst].
  destruct call as [userId sessionId|trackingId usage|usage|user]; intros Hcall Hnn;
    cbn [perform fst snd].
  - exact Hnn.
  - unfold endTracking. destruct (activeTracking t !! trackingId) as [tracking|];
      [|exact Hnn].
    pose proof (NonnegTotals_recordUsage (fullUsage t tracking usage env) env t disk
                  (fullUsage_nonneg t tracking usage env Hcall) Hnn) as Hrec.
    destruct (recordUsage (fullUsage t tracking usage env) env (t, disk)) as [t1 disk1].
    exact Hrec.
  - apply NonnegTotals_recordUsage; assumption.
  - unfold clearUserUsage. rewrite saveToStorage_tracker.
    unfold NonnegTotals. cbn [withMaps userTotals]. apply map_Forall_delete. exact Hnn.
Qed.

Lemma NonnegTotals_performAll calls w :
  forallb (fun call => callNonneg (fst call)) calls = true ->
  NonnegTotals (fst w) -> NonnegTotals (fst (performAll calls w)).
Proof.
  revert w. induction calls as [|[call env] rest IH]; intros w Hall Hnn; [exact Hnn|].
  simpl in Hall. apply andb_prop in Hall. destruct Hall as [Hcall Hrest].
  change (performAll ((call, env) :: rest) w) with (performAll rest (perform call env w)).
  apply IH; [exact Hrest|]. apply NonnegTotals_perform; assumption.
Qed.

Lemma recordUsage_extends r env t disk user :
  exists added,
    historyOf user (fst (recordUsage r env (t, disk))) = (historyOf user t ++ added)%list
    /\ (length added <= 1)%nat.
Proof.
  unfold historyOf at 1. rewrite recordUsage_history.
  destruct (decide (orString (userId r) "anonymous" = user)) as [<-|Hne].
  - rewrite lookup_insert_eq. exists [r]. split; [reflexivity | simpl; lia].
  - rewrite lookup_insert_ne by exact Hne. exists []. rewrite app_nil_r.
    split; [reflexivity | simpl; lia].
Qed.

Lemma perform_extends call env w user :
  clears user call = false ->
  exists added,
    historyOf user (fst (perform call env w)) = (historyOf user (fst w) ++ added)%list
    /\ (length added <= 1)%nat.
Proof.
  destruct w as [t disk]. cbn [fst].
  destruct call as [userId sessionId|trackingId usage|usage|other]; intros Hclear;
    cbn [perform fst snd].
  - exists []. rewrite app_nil_r. split; [reflexivity | simpl; lia].
  - unfold endTracking. destruct (activeTracking t !! trackingId) as [tracking|].
    + destruct (recordUsage_extends (fullUsage t tracking usage env) env t disk user)
        as (added & Hadd & Hlen).
      destruct (recordUsage (fullUsage t tracking usage env) env (t, disk)) as [t1 disk1].
      exists added. split; [exact Hadd | exact Hlen].
    + exists []. rewrite app_nil_r. split; [reflexivity | simpl; lia].
  - apply recordUsage_extends.
  - simpl in Hclear. apply String.eqb_neq in Hclear.
    unfold clearUserUsage. rewrite saveToStorage_tracker.
    exists []. rewrite app_nil_r. split; [|simpl; lia].
    unfold historyOf. cbn [withMaps usageHistory].
    rewrite lookup_delete_ne by exact Hclear. reflexivity.
Qed.

End InvariantFacts.

Module DiskFacts.
Import Json Types JsNumber Storage Tracker TrackerFacts TrackerAdmin StorageFacts.

(** The tracker part of a call's result does not depend on the disk. *)
Lemma perform_tracker call env t disk disk' :
  fst (perform call env (t, disk)) = fst (perform call env (t, disk')).
Proof.
  destruct call as [userId sessionId|trackingId usage|usage|user]; cbn [perform fst snd].
  - reflexivity.
  - unfold endTracking. destruct (activeTracking t !! trackingId) as [tracking|];
      [|reflexivity].
    pose proof (recordUsage_tracker (fullUsage t tracking usage env) env t disk) as H1.
    pose proof (recordUsage_tracker (fullUsage t tracking usage env) env t disk') as H2.
    destruct (recordUsage _ env (t, disk)) as [t1 d1].
    destruct (recordUsage _ env (t, disk')) as [t2 d2].
    simpl in *. congruence.
  - rewrite !recordUsage_tracker. reflexivity.
  - unfold clearUserUsage. rewrite !saveToStorage_tracker. reflexivity.
Qed.

Lemma performAll_tracker calls t disk disk' :
  fst (performAll calls (t, disk)) = fst (performAll calls (t, disk')).
Proof.
  revert t disk disk'. induction calls as [|[call env] rest IH]; intros t disk disk';
    [reflexivity|].
  change (performAll ((call, env) :: rest) ?w) with (performAll rest (perform call env w)).
  pose proof (perform_tracker call env t disk disk') as H.
  destruct (perform call env (t, disk)) as [t1 d1].
  destruct (perform call env (t, disk')) as [t2 d2].
  simpl in H. subst t2. apply IH.
Qed.

Lemma perform_storage call env w : storage (fst (perform call env w)) = storage (fst w).
Proof.
  destruct w as [t disk].
  destruct call as [userId sessionId|trackingId usage|usage|user]; cbn [perform fst snd].
  - reflexivity.
  - unfold endTracking. destruct (activeTracking t !! trackingId) as [tracking|];
      [|reflexivity].
    pose proof (recordUsage_tracker (fullUsage t tracking usage env) env t disk) as H1.
    destruct (recordUsage _ env (t, disk)) as [t1 d1]. simpl in *. subst t1. reflexivity.
  - rewrite recordUsage_tracker. reflexivity.
  - unfold clearUserUsage. rewrite saveToStorage_tracker. reflexivity.
Qed.

Lemma saveToStorage_off env t disk :
  storage t = false -> saveToStorage env (t, disk) = (t, disk).
Proof. intros H. unfold saveToStorage. rewrite H. reflexivity. Qed.

Lemma perform_off call env t disk :
  storage t = false -> snd (perform call env (t, disk)) = disk.
Proof.
  intros Hoff.
  destruct call as [userId sessionId|trackingId usage|usage|user]; cbn [perform fst snd].
  - reflexivity.
  - unfold endTracking. destruct (activeTracking t !! trackingId) as [tracking|];
      [|reflexivity].
    unfold recordUsage. rewrite saveToStorage_off by exact Hoff. reflexivity.
  - unfold recordUsage. rewrite saveToStorage_off by exact Hoff. reflexivity.
  - unfold clearUserUsage. rewrite saveToStorage_off by exact Hoff. reflexivity.
Qed.

Lemma performAll_off calls t disk :
  storage t = false -> snd (performAll calls (t, disk)) = disk.
Proof.
  revert t disk. induction calls as [|[call env] rest IH]; intros t disk Hoff;
    [reflexivity|].
  change (performAll ((call, env) :: rest) ?w) with (performAll rest (perform call env w)).
  pose proof (perform_off call env t disk Hoff) as Hd.
  pose proof (perform_storage call env (t, disk)) as Hs.
  destruct (perform call env (t, disk)) as [t1 d1]. simpl in Hd, Hs. subst d1.
  apply IH. rewrite Hs. exact Hoff.
Qed.

(** A snapshot that JSON can carry is read back as written. *)
Lemma snapshot_roundtrip (history : gmap string (list TokenUsage))
    (totals : gmap string UserUsage) (now : Z) (disk : Disk) :
  writeFails disk = false ->
  map_Forall (fun _ h => forallb usageStorable h = true) history ->
  map_Forall (fun _ t => totalStorable t = true) totals ->
  load (snd (save history totals now disk))
  = Some {| Storage.history := history; Storage.totals := totals;
            lastSaved := JsIso now |}.
Proof.
  intros Hwrite Hh Ht.
  destruct (map_roundtrip (fun h => JsArray (List.map usageToJs h)) historyOfJs history)
    as (hfields & Hhj & Hhdec).
  { intros k h Hk. apply history_roundtrip. exact (Hh k h Hk). }
  destruct (map_roundtrip userUsageToJs userUsageOfJs totals)
    as (tfields & Htj & Htdec).
  { intros k t Hk. apply userUsage_roundtrip. exact (Ht k t Hk). }
  unfold save. rewrite jsonValue_object.
  cbn [List.flat_map app fst snd]. rewrite Hhj, Htj, Hwrite.
  unfold load, storageDataOfJs. simpl.
  destruct (entriesOf historyOfJs hfields) as [hl|]; [|discriminate Hhdec].
  destruct (entriesOf userUsageOfJs tfields) as [tl|]; [|discriminate Htdec].
  cbn [mbind option_bind] in Hhdec, Htdec |- *.
  injection Hhdec as Hhl. injection Htdec as Htl. rewrite Hhl, Htl. reflexivity.
Qed.

Lemma saveToStorage_restart env t disk c :
  storage t = true -> writeFails disk = false -> Storable t ->
  enableFileStorage c <> Some false ->
  usageHistory (newTokenTracker c (snd (saveToStorage env (t, disk)))) = usageHistory t
  /\ userTotals (newTokenTracker c (snd (saveToStorage env (t, disk)))) = userTotals t.
Proof.
  intros Hon Hwrite [Hh Ht] Hc. unfold saveToStorage. rewrite Hon. cbn [snd].
  pose proof (snapshot_roundtrip _ _ (now env) disk Hwrite Hh Ht) as Hload.
  unfold newTokenTracker, loadFromStorage. simpl.
  destruct (enableFileStorage c) as [[]|]; simpl; rewrite ?Hload; simpl; tauto.
Qed.

Lemma saveToStorage_writeFails env t disk :
  writeFails (snd (saveToStorage env (t, disk))) = writeFails disk.
Proof.
  unfold saveToStorage. destruct (storage t); [|reflexivity]. cbn [snd].
  unfold save. destruct (jsonValue _); [|reflexivity].
  destruct (writeFails disk) eqn:H; simpl; congruence.
Qed.

End DiskFacts.

Module InvariantProperties.
Import Json Types JsNumber Storage Tracker TrackerFacts TrackerAdmin InvariantFacts DiskFacts.
Import Scenarios.
Local Open Scope float_scope.

(** X11. On a tracker that starts empty, after any sequence of calls
    (sessions started and ended, records, clears), every stored
    aggregate carries its own key as userId, the tracker's configured
    currency, and as lastUsed the timestamp of the user's latest record;
    a user has an aggregate exactly when that user has a history, which is
    not empty and holds that user's records only. *)
Theorem bookkeeping_is_kept calls t disk :
  usageHistory t = ∅ -> userTotals t = ∅ ->
  Tidy (fst (performAll calls (t, disk))).
Proof.
  intros Hh Ht. apply Tidy_performAll.
  intros user. cbn [fst]. rewrite Hh, Ht, !lookup_empty. reflexivity.
Qed.

Lemma bookkeeping_is_kept_witness :
  Tidy (fst (performAll
               [ (CallStart (Some "ada") None, someEnv);
                 (CallEnd "track_1759800000000_k3x9q0zab" exampleUsage, laterEnv);
                 (CallRecord plainUsage, laterEnv) ]
               (freshTracker, emptyDisk))).
Proof. apply bookkeeping_is_kept; reflexivity. Defined.

(** X12. On a tracker that starts without totals, when no call brings in
    a negative count or a negative (or NaN) explicit cost, and no
    [endTracking] an input or output count beyond the binary64 range
    (Infinity, which is not a count), every aggregate has totalTokens >= 0
    and totalCost >= 0 (so not NaN), and so has each of its per-model
    entries; the costs [endTracking] computes itself are never
    negative. *)
Theorem totals_stay_nonnegative calls t disk user agg :
  userTotals t = ∅ ->
  forallb (fun call => callNonneg (fst call)) calls = true ->
  getUserUsage user (fst (performAll calls (t, disk))) = Some agg ->
  totalNonneg agg = true.
Proof.
  intros Ht Hcalls Hagg.
  assert (Hnn : NonnegTotals (fst (performAll calls (t, disk)))).
  { apply NonnegTotals_performAll; [exact Hcalls|].
    unfold NonnegTotals. cbn [fst]. rewrite Ht. apply map_Forall_empty. }
  exact (Hnn user agg Hagg).
Qed.

Lemma totals_stay_nonnegative_witness :
  exists agg,
    getUserUsage "ada"
      (fst (performAll
              [ (CallStart (Some "ada") None, someEnv);
                (CallEnd "track_1759800000000_k3x9q0zab" exampleUsage, laterEnv);
                (CallRecord plainUsage, laterEnv) ]
              (freshTracker, emptyDisk))) = Some agg
    /\ totalNonneg agg = true.
Proof.
  eexists. split; [vm_compute; reflexivity|].
  eapply (totals_stay_nonnegative
            [ (CallStart (Some "ada") None, someEnv);
              (CallEnd "track_1759800000000_k3x9q0zab" exampleUsage, laterEnv);
              (CallRecord plainUsage, laterEnv) ]
            freshTracker emptyDisk "ada").
  - reflexivity.
  - reflexivity.
  - vm_compute. reflexivity.
Defined.

(** X13. A user's history only grows at its end: after any sequence of
    calls that does not clear that user, the earlier history is a prefix
    of the later one, at most one record was added per call, and
    [getUserHistory] with a limit up to the number of added records
    returns the newest of them. *)
Theorem history_is_append_only calls t disk user :
  forallb (fun call => negb (clears user (fst call))) calls = true ->
  exists added,
    historyOf user (fst (performAll calls (t, disk))) = (historyOf user t ++ added)%list
    /\ (length added <= length calls)%nat
    /\ (forall limit,
          (0 < limit <= Z.of_nat (length added))%Z ->
          exists older,
            added = (older ++ getUserHistory user limit (fst (performAll calls (t, disk))))%list).
Proof.
  intros Hcalls.
  assert (H : exists added,
             historyOf user (fst (performAll calls (t, disk)))
             = (historyOf user t ++ added)%list
             /\ (length added <= length calls)%nat).
  { revert t disk. induction calls as [|[call env] rest IH]; intros t disk.
    - exists []. rewrite app_nil_r. split; [reflexivity | simpl; lia].
    - simpl in Hcalls. apply andb_prop in Hcalls. destruct Hcalls as [Hcall Hrest].
      apply negb_true_iff in Hcall.
      change (performAll ((call, env) :: rest) (t, disk))
        with (performAll rest (perform call env (t, disk))).
      destruct (perform_extends call env (t, disk) user Hcall) as (a1 & H1 & L1).
      destruct (perform call env (t, disk)) as [t1 disk1].
      destruct (IH Hrest t1 disk1) as (a2 & H2 & L2).
      exists (a1 ++ a2)%list. cbn [fst] in *.
      rewrite H2, H1, <- app_assoc. split; [reflexivity|].
      rewrite length_app. simpl. lia. }
  destruct H as (added & Hadd & Hlen). exists added.
  split; [exact Hadd|]. split; [exact Hlen|].
  intros limit [Hpos Hle]. unfold getUserHistory, slice. rewrite Hadd.
  destruct (Z.ltb_spec (- limit) 0); [|lia].
  rewrite length_app.
  replace (Z.to_nat (Z.max (Z.of_nat (length (historyOf user t) + length added) + - limit) 0))
    with (length (historyOf user t) + (length added - Z.to_nat limit))%nat by lia.
  rewrite drop_app_add'. 2: reflexivity.
  exists (take (length added - Z.to_nat limit) added). symmetry. apply take_drop.
Qed.

Lemma history_is_append_only_witness :
  exists added,
    historyOf "ada"
      (fst (performAll
              [ (CallClear "bob", someEnv); (CallRecord plainUsage, laterEnv) ]
              (fst (recordAll threeCalls (freshTracker, emptyDisk)), emptyDisk)))
    = (historyOf "ada" (fst (recordAll threeCalls (freshTracker, emptyDisk))) ++ added)%list
    /\ (length added <= 2)%nat.
Proof.
  destruct (history_is_append_only
              [ (CallClear "bob", someEnv); (CallRecord plainUsage, laterEnv) ]
              (fst (recordAll threeCalls (freshTracker, emptyDisk))) emptyDisk "ada" eq_refl)
    as (added & Hadd & Hlen & _).
  exists added. split; [exact Hadd | exact Hlen].
Defined.

End InvariantProperties.

(** ** The tracker and its file *)

Module DiskProperties.
Import Json Types JsNumber Storage Tracker TrackerFacts TrackerAdmin DiskFacts.
Import Scenarios.
Local Open Scope float_scope.

Lemma perform_failing call env t disk :
  writeFails disk = true -> snd (perform call env (t, disk)) = disk.
Proof.
  intros Hfail.
  assert (Hsave : forall t', snd (saveToStorage env (t', disk)) = disk).
  { intros t'. unfold saveToStorage. destruct (storage t'); [|reflexivity]. cbn [snd].
    unfold save. destruct (jsonValue _); [|reflexivity]. rewrite Hfail. reflexivity. }
  destruct call as [userId sessionId|trackingId usage|usage|user]; cbn [perform fst snd].
  - reflexivity.
  - unfold endTracking. destruct (activeTracking t !! trackingId) as [tracking|];
      [|reflexivity].
    unfold recordUsage. specialize (Hsave (updateUserTotals
      (orString (userId (fullUsage t tracking usage env)) "anonymous")
      (fullUsage t tracking usage env) env
      (withMaps t
         (<[orString (userId (fullUsage t tracking usage env)) "anonymous" :=
              (historyOf (orString (userId (fullUsage t tracking usage env)) "anonymous") t
               ++ [fullUsage t tracking usage env])%list]> (usageHistory t))
         (userTotals t)))).
    destruct (saveToStorage env _) as [t1 d1]. exact Hsave.
  - unfold recordUsage. apply Hsave.
  - unfold clearUserUsage. apply Hsave.
Qed.

Lemma performAll_failing calls t disk :
  writeFails disk = true -> snd (performAll calls (t, disk)) = disk.
Proof.
  revert t. induction calls as [|[call env] rest IH]; intros t Hfail; [reflexivity|].
  change (performAll ((call, env) :: rest) ?w) with (performAll rest (perform call env w)).
  pose proof (perform_failing call env t disk Hfail) as Hd.
  destruct (perform call env (t, disk)) as [t1 d1]. simpl in Hd. subst d1.
  apply IH. exact Hfail.
Qed.

(** X14. When writing the file fails, no call fails: the file stays as it
    is, and the tracker ends in the same state as it would with a working
    file.  After construction the state in memory never depends on the
    file. *)
Theorem storage_failures_are_swallowed calls t disk :
  writeFails disk = true ->
  snd (performAll calls (t, disk)) = disk
  /\ (forall working, fst (performAll calls (t, disk)) = fst (performAll calls (t, working))).
Proof.
  intros Hfail. split; [apply performAll_failing; exact Hfail|].
  intros working. apply performAll_tracker.
Qed.

Lemma storage_failures_are_swallowed_witness :
  snd (performAll [(CallRecord plainUsage, someEnv)]
         (freshTracker, {| file := Unparsable; writeFails := true |}))
  = {| file := Unparsable; writeFails := true |}
  /\ getUserHistory "ada" 10
       (fst (performAll [(CallRecord plainUsage, someEnv)]
               (freshTracker, {| file := Unparsable; writeFails := true |})))
     = [plainUsage].
Proof.
  destruct (storage_failures_are_swallowed [(CallRecord plainUsage, someEnv)] freshTracker
              {| file := Unparsable; writeFails := true |} eq_refl) as [Hdisk Hmem].
  split; [exact Hdisk|]. rewrite (Hmem emptyDisk). vm_compute. reflexivity.
Defined.

(** X15. With [enableFileStorage: false] the tracker starts empty
    whatever the file holds, no sequence of calls changes the file, and
    [clearAllStorage] returns false and changes nothing, in memory
    either. *)
Theorem storage_off_leaves_the_file c disk calls :
  enableFileStorage c = Some false ->
  let t := newTokenTracker c disk in
  usageHistory t = ∅ /\ userTotals t = ∅
  /\ snd (performAll calls (t, disk)) = disk
  /\ clearAllStorage (performAll calls (t, disk)) = (false, performAll calls (t, disk)).
Proof.
  intros Hoff t.
  assert (Hstorage : storage t = false).
  { subst t. unfold newTokenTracker. simpl. rewrite Hoff. reflexivity. }
  split; [subst t; unfold newTokenTracker; simpl; rewrite Hoff; reflexivity|].
  split; [subst t; unfold newTokenTracker; simpl; rewrite Hoff; reflexivity|].
  split; [apply performAll_off; exact Hstorage|].
  assert (Hs : storage (fst (performAll calls (t, disk))) = false).
  { clear -Hstorage. revert Hstorage. generalize t disk.
    induction calls as [|[call env] rest IH]; intros t0 d0 H0; [exact H0|].
    change (performAll ((call, env) :: rest) ?w) with (performAll rest (perform call env w)).
    pose proof (perform_storage call env (t0, d0)) as Hp.
    destruct (perform call env (t0, d0)) as [t1 d1]. apply IH. simpl in Hp. congruence. }
  destruct (performAll calls (t, disk)) as [t' disk']. simpl in Hs.
  unfold clearAllStorage. rewrite Hs. reflexivity.
Qed.

Lemma storage_off_leaves_the_file_witness :
  snd (performAll [(CallRecord plainUsage, someEnv)]
         (newTokenTracker wonConfig {| file := Unparsable; writeFails := false |},
          {| file := Unparsable; writeFails := false |}))
  = {| file := Unparsable; writeFails := false |}.
Proof.
  destruct (storage_off_leaves_the_file wonConfig {| file := Unparsable; writeFails := false |}
              [(CallRecord plainUsage, someEnv)] eq_refl) as (_ & _ & H & _).
  exact H.
Defined.

Lemma zero_plus_json x : isJsonNumber x = true -> isJsonNumber (0 + x) = true.
Proof.
  intros H. replace (0 + x) with x; [exact H|].
  apply Prim2SF_inj. rewrite FloatAxioms.add_spec.
  change (Prim2SF 0) with (S754_zero false).
  unfold isJsonNumber in H. rewrite FloatAxioms.classify_spec in H.
  destruct (Prim2SF x) as [[]|[]| |s m e]; simpl in H; try discriminate H; reflexivity.
Qed.

Lemma restart_like r env t disk c :
  storage t = true -> writeFails disk = false ->
  Storable (fst (recordUsage r env (t, disk))) ->
  enableFileStorage c <> Some false ->
  usageHistory (newTokenTracker c (snd (recordUsage r env (t, disk))))
  = usageHistory (fst (recordUsage r env (t, disk)))
  /\ userTotals (newTokenTracker c (snd (recordUsage r env (t, disk))))
     = userTotals (fst (recordUsage r env (t, disk))).
Proof.
  intros Hon Hwrite Hst Hc. unfold recordUsage in *.
  set (t2 := updateUserTotals _ _ env _) in *.
  rewrite saveToStorage_tracker in *.
  apply saveToStorage_restart; assumption.
Qed.




(** X17. [clearAllStorage] with storage enabled empties history and
    totals and keeps the active sessions.  When the file can be removed
    it returns true and a new tracker starts empty; when the removal
    fails it returns false and the file is left as it was, although the
    memory has been emptied. *)
Theorem clearAllStorage_wipes_memory t disk :
  storage t = true ->
  exists ok t' disk',
    clearAllStorage (t, disk) = (ok, (t', disk'))
    /\ usageHistory t' = ∅ /\ userTotals t' = ∅
    /\ activeTracking t' = activeTracking t
    /\ (writeFails disk = false ->
          ok = true /\ file disk' = Missing
          /\ forall c, usageHistory (newTokenTracker c disk') = ∅
                       /\ userTotals (newTokenTracker c disk') = ∅)
    /\ (writeFails disk = true -> file disk <> Missing -> ok = false /\ disk' = disk).
Proof.
  intros Hon. unfold clearAllStorage. rewrite Hon. unfold Storage.clear.
  assert (Hfresh : forall c d, file d = Missing ->
             usageHistory (newTokenTracker c d) = ∅
             /\ userTotals (newTokenTracker c d) = ∅).
  { intros c d Hd. unfold newTokenTracker, loadFromStorage, load. simpl. rewrite Hd.
    destruct (enableFileStorage c) as [[]|]; split; reflexivity. }
  destruct (file disk) eqn:Hfile.
  - exists true, (withMaps t ∅ ∅), disk.
    split; [reflexivity|]. split; [reflexivity|]. split; [reflexivity|].
    split; [reflexivity|]. split.
    + intros _. split; [reflexivity|]. split; [exact Hfile|].
      intros c. apply Hfresh, Hfile.
    + intros _ H. contradiction.
  - destruct (writeFails disk) eqn:Hw.
    + exists false, (withMaps t ∅ ∅), disk.
      split; [reflexivity|]. split; [reflexivity|]. split; [reflexivity|].
      split; [reflexivity|]. split; [discriminate|]. intros _ _. split; reflexivity.
    + exists true, (withMaps t ∅ ∅), {| file := Missing; writeFails := false |}.
      split; [reflexivity|]. split; [reflexivity|]. split; [reflexivity|].
      split; [reflexivity|]. split; [|discriminate].
      intros _. split; [reflexivity|]. split; [reflexivity|].
      intros c. apply Hfresh. reflexivity.
  - destruct (writeFails disk) eqn:Hw.
    + exists false, (withMaps t ∅ ∅), disk.
      split; [reflexivity|]. split; [reflexivity|]. split; [reflexivity|].
      split; [reflexivity|]. split; [discriminate|]. intros _ _. split; reflexivity.
    + exists true, (withMaps t ∅ ∅), {| file := Missing; writeFails := false |}.
      split; [reflexivity|]. split; [reflexivity|]. split; [reflexivity|].
      split; [reflexivity|]. split; [|discriminate].
      intros _. split; [reflexivity|]. split; [reflexivity|].
      intros c. apply Hfresh. reflexivity.
Qed.

Lemma clearAllStorage_wipes_memory_witness :
  exists ok t' disk',
    clearAllStorage (perform (CallRecord plainUsage) someEnv (freshTracker, emptyDisk))
    = (ok, (t', disk'))
    /\ usageHistory t' = ∅ /\ file disk' = Missing.
Proof.
  destruct (clearAllStorage_wipes_memory
              (fst (perform (CallRecord plainUsage) someEnv (freshTracker, emptyDisk)))
              (snd (perform (CallRecord plainUsage) someEnv (freshTracker, emptyDisk)))
              eq_refl)
    as (ok & t' & disk' & Hclear & Hh & _ & _ & Hok & _).
  exists ok, t', disk'. split; [exact Hclear|]. split; [exact Hh | apply Hok; reflexivity].
Defined.

(** X18. A missing or unparsable file gives an empty tracker, not an
    error; the next recorded usage replaces the file, and a tracker
    constructed from it afterwards holds exactly that record. *)
Theorem bad_file_gives_an_empty_tracker c disk :
  file disk = Missing \/ file disk = Unparsable ->
  let t := newTokenTracker c disk in
  usageHistory t = ∅ /\ userTotals t = ∅ /\ activeTracking t = ∅
  /\ (forall r env,
        storage t = true -> writeFails disk = false ->
        usageStorable r = true ->
        forall c', enableFileStorage c' <> Some false ->
        getUserHistory (recordUser r) 1
          (newTokenTracker c' (snd (recordUsage r env (t, disk)))) = [r]).
Proof.
  intros Hfile t.
  assert (Hempty : usageHistory t = ∅ /\ userTotals t = ∅ /\ activeTracking t = ∅).
  { subst t. unfold newTokenTracker, loadFromStorage, load. simpl.
    destruct Hfile as [-> | ->]; destruct (enableFileStorage c) as [[]|]; simpl; auto. }
  destruct Hempty as (Hh & Ht & Ha). repeat split; try assumption.
  intros r env Hon Hwrite Hr c' Hc'.
  destruct (restart_like r env t disk c' Hon Hwrite) as [Hhist _]; try assumption.
  - split.
    + rewrite recordUsage_history, Hh. apply map_Forall_insert_2; [|apply map_Forall_empty].
      unfold historyOf. rewrite Hh, lookup_empty. simpl. rewrite Hr. reflexivity.
    + rewrite recordUsage_userTotals, Ht, lookup_empty.
      apply map_Forall_insert_2; [|apply map_Forall_empty].
      unfold usageStorable in Hr. apply andb_prop in Hr. destruct Hr as [Hr _].
      apply andb_prop in Hr. destruct Hr as [Hamount Hts].
      unfold totalStorable. simpl.
      rewrite (zero_plus_json _ Hamount), Hts. reflexivity.
  - unfold getUserHistory, historyOf. rewrite Hhist, recordUsage_history.
    fold (recordUser r). rewrite lookup_insert_eq. unfold historyOf.
    rewrite Hh, lookup_empty. reflexivity.
Qed.


Lemma bad_file_gives_an_empty_tracker_witness :
  usageHistory (newTokenTracker emptyConfig {| file := Unparsable; writeFails := false |}) = ∅
  /\ getUserHistory "ada" 1
       (newTokenTracker emptyConfig
          (snd (recordUsage plainUsage someEnv
                  (newTokenTracker emptyConfig {| file := Unparsable; writeFails := false |},
                   {| file := Unparsable; writeFails := false |}))))
     = [plainUsage].
Proof.
  destruct (bad_file_gives_an_empty_tracker emptyConfig
              {| file := Unparsable; writeFails := false |})
    as (Hh & _ & _ & Hnext).
  - right. reflexivity.
  - split; [exact Hh|].
    apply (Hnext plainUsage someEnv); [reflexivity | reflexivity | reflexivity | discriminate].
Defined.

End DiskProperties.

(** ** Tracking ids, per-user trackers *)

Module IdFacts.
Import Json Types JsNumber Storage Tracker TrackerFacts TrackerAdmin.

Lemma pretty_N_char_plain n : Ascii.eqb (pretty_N_char n) "_" = false.
Proof.
  unfold pretty_N_char.
  repeat match goal with
         | |- context [match ?x with _ => _ end] => destruct x
         end; reflexivity.
Qed.

Lemma pretty_N_go_plain x s :
  noUnderscore s = true -> noUnderscore (pretty_N_go x s) = true.
Proof.
  revert s. induction (N.lt_wf_0 x) as [x _ IH]. intros s Hs.
  destruct (decide (x = 0%N)) as [->|Hx].
  - rewrite pretty_N_go_0. exact Hs.
  - rewrite pretty_N_go_step by lia. apply IH.
    + apply N.div_lt; lia.
    + simpl. rewrite pretty_N_char_plain. exact Hs.
Qed.

Lemma pretty_Z_plain (n : Z) : noUnderscore (pretty n) = true.
Proof.
  assert (HN : forall x : N, noUnderscore (pretty x) = true).
  { intros x. unfold pretty, pretty_N. destruct (decide (x = 0%N)); [reflexivity|].
    apply pretty_N_go_plain. reflexivity. }
  destruct n as [|p|p]; [reflexivity | apply (HN (N.pos p)) |].
  change (pretty (Z.neg p)) with ("-" ++ pretty (N.pos p)).
  change ("-" ++ pretty (N.pos p)) with (String "-" (pretty (N.pos p))).
  simpl. apply (HN (N.pos p)).
Qed.

(** Two strings cut at their first underscore. *)
Lemma cut_at_underscore a b r r' :
  noUnderscore a = true -> noUnderscore b = true ->
  a ++ "_" ++ r = b ++ "_" ++ r' -> a = b /\ r = r'.
Proof.
  revert b. induction a as [|x a IH]; intros [|y b] Ha Hb H.
  - injection H as H. auto.
  - injection H as Hy _. subst y. simpl in Hb. discriminate Hb.
  - injection H as Hx _. subst x. simpl in Ha. discriminate Ha.
  - change (String x (a ++ "_" ++ r) = String y (b ++ "_" ++ r')) in H.
    injection H as -> H. simpl in Ha, Hb.
    apply andb_prop in Ha. apply andb_prop in Hb.
    destruct (IH b (proj2 Ha) (proj2 Hb) H) as [-> ->]. auto.
Qed.

Lemma trackingIdOf_inj env env' :
  trackingIdOf env = trackingIdOf env' -> now env = now env' /\ random env = random env'.
Proof.
  unfold trackingIdOf. intros H.
  apply (String.app_inj "track_") in H.
  apply cut_at_underscore in H; try apply pretty_Z_plain.
  destruct H as [Hn Hr]. split; [|exact Hr].
  exact (pretty_Z_inj _ _ Hn).
Qed.

End IdFacts.

Module IdProperties.
Import Json Types JsNumber Storage Tracker TrackerFacts TrackerAdmin IdFacts.

(** X19. Two [startTracking] calls return the same id exactly when they
    read the same clock value and the same random suffix.  Otherwise the
    first session stays active beside the second; with equal reads the
    second replaces the first.  Starting sessions changes neither
    history nor totals. *)
Theorem trackingIds_collide_only_on_equal_reads
    userId sessionId env userId' sessionId' env' t :
  let first := startTracking userId sessionId env t in
  let second := startTracking userId' sessionId' env' (snd first) in
  (fst first = fst second <-> now env = now env' /\ random env = random env')
  /\ (fst first <> fst second ->
        activeTracking (snd second) !! fst first
        = Some {| t_userId := sessionUser userId t; t_sessionId := sessionId;
                  startTime := now env |})
  /\ (fst first = fst second ->
        activeTracking (snd second) !! fst first
        = Some {| t_userId := sessionUser userId' t; t_sessionId := sessionId';
                  startTime := now env' |})
  /\ usageHistory (snd second) = usageHistory t
  /\ userTotals (snd second) = userTotals t.
Proof.
  cbv zeta. unfold startTracking. cbn [fst snd withTracking activeTracking usageHistory
                                       userTotals].
  split; [split|].
  - apply trackingIdOf_inj.
  - intros [Hn Hr]. unfold trackingIdOf. rewrite Hn, Hr. reflexivity.
  - split; [|split; [|split; reflexivity]].
    + intros Hne. rewrite lookup_insert_ne by congruence. apply lookup_insert_eq.
    + intros ->. apply lookup_insert_eq.
Qed.

End IdProperties.

Module ForUserProperties.
Import Json Types JsNumber Storage Tracker TrackerFacts TrackerAdmin DiskFacts.
Import Scenarios.



End ForUserProperties.

(** ** The provider wrappers *)

Module WrapperFacts.
Import Json Types JsNumber Storage Tracker TrackerFacts TrackerAdmin OpenAIWrapper.
Local Open Scope float_scope.

(** An active session stays as it is under every call that neither ends
    it nor hands its id out again. *)
Lemma perform_keeps_active trackingId tracking call env w :
  disturbs trackingId (call, env) = false ->
  activeTracking (fst w) !! trackingId = Some tracking ->
  activeTracking (fst (perform call env w)) !! trackingId = Some tracking.
Proof.
  destruct w as [t disk]. unfold disturbs. cbn [fst snd].
  destruct call as [userId sessionId|other usage|usage|user]; intros Hcall Hactive;
    cbn [perform fst snd].
  - apply String.eqb_neq in Hcall. unfold startTracking.
    cbn [fst snd withTracking activeTracking].
    rewrite lookup_insert_ne by exact Hcall. exact Hactive.
  - apply String.eqb_neq in Hcall.
    unfold endTracking. destruct (activeTracking t !! other) as [tr|] eqn:Hother;
      [|exact Hactive].
    pose proof (recordUsage_activeTracking (fullUsage t tr usage env) env t disk) as Ha.
    destruct (recordUsage (fullUsage t tr usage env) env (t, disk)) as [t1 disk1].
    simpl in Ha |- *. rewrite Ha, lookup_delete_ne by exact Hcall. exact Hactive.
  - rewrite recordUsage_activeTracking. exact Hactive.
  - unfold clearUserUsage. rewrite saveToStorage_tracker. exact Hactive.
Qed.

Lemma performAll_keeps_active trackingId tracking calls w :
  forallb (fun call => negb (disturbs trackingId call)) calls = true ->
  activeTracking (fst w) !! trackingId = Some tracking ->
  activeTracking (fst (performAll calls w)) !! trackingId = Some tracking.
Proof.
  revert w. induction calls as [|[call env] rest IH]; intros w Hall Hactive;
    [exact Hactive|].
  simpl in Hall. apply andb_prop in Hall. destruct Hall as [Hcall Hrest].
  apply negb_true_iff in Hcall.
  change (performAll ((call, env) :: rest) w) with (performAll rest (perform call env w)).
  apply IH; [exact Hrest|]. apply perform_keeps_active; assumption.
Qed.

Lemma perform_defaultUserId call env w :
  defaultUserId (fst (perform call env w)) = defaultUserId (fst w).
Proof.
  destruct w as [t disk].
  destruct call as [userId sessionId|trackingId usage|usage|user]; cbn [perform fst snd].
  - reflexivity.
  - unfold endTracking. destruct (activeTracking t !! trackingId) as [tracking|];
      [|reflexivity].
    pose proof (recordUsage_tracker (fullUsage t tracking usage env) env t disk) as H1.
    destruct (recordUsage _ env (t, disk)) as [t1 d1]. simpl in *. subst t1. reflexivity.
  - rewrite recordUsage_tracker. reflexivity.
  - unfold clearUserUsage. rewrite saveToStorage_tracker. reflexivity.
Qed.

(** What every wrapper built on [tracked] does to the tracker. *)
Lemma tracked_ends_session {R} (usageOf : R -> PartialUsage) report failure
    (outcome : Settled R) envStart between envEnd t disk :
  forallb (fun call => negb (disturbs (trackingIdOf envStart) call)) between = true ->
  let tracking := {| t_userId := defaultUserId t; t_sessionId := None;
                     startTime := now envStart |} in
  let user := orString (defaultUserId t) "anonymous" in
  let pending := performAll between (snd (startTracking None None envStart t), disk) in
  let usage := match outcome with
               | Resolved response => usageOf response
               | Rejected => failure
               end in
  let r := fullUsage (fst pending) tracking usage envEnd in
  exists t' disk',
    tracked usageOf report failure outcome envStart between envEnd (t, disk)
    = (match outcome with
       | Resolved response => Answered (report (usageOf response) t' envEnd)
       | Rejected => Raised
       end, (t', disk'))
    /\ activeTracking t' !! trackingIdOf envStart = None
    /\ usageHistory t' !! user = Some (historyOf user (fst pending) ++ [r])%list
    /\ (forall other, other <> user ->
          usageHistory t' !! other = usageHistory (fst pending) !! other
          /\ userTotals t' !! other = userTotals (fst pending) !! other).
Proof.
  intros Hbetween. cbv zeta. unfold tracked, startTracking. cbv beta iota zeta.
  cbn [fst snd].
  set (tracking := {| t_userId := sessionUser None t; t_sessionId := None;
                      startTime := now envStart |}).
  set (pending := performAll between _).
  assert (Hactive : activeTracking (fst pending) !! trackingIdOf envStart = Some tracking).
  { apply performAll_keeps_active; [exact Hbetween|]. apply lookup_insert_eq. }
  clearbody pending. destruct pending as [tp dp]. cbn [fst] in *.
  set (usage := match outcome with
                | Resolved response => usageOf response
                | Rejected => failure
                end).
  destruct (endTracking_known _ _ usage envEnd _ dp Hactive)
    as (t' & disk' & Hend & Hhist & Hgone & _ & Htotals).
  exists t', disk'.
  assert (Hnone : activeTracking t' !! trackingIdOf envStart = None)
    by (rewrite Hgone; apply lookup_delete_eq).
  split.
  - subst usage. destruct outcome as [response|]; rewrite Hend; reflexivity.
  - split; [exact Hnone|]. split.
    + rewrite Hhist. apply lookup_insert_eq.
    + intros other Hother.
      assert (Hne : orString (t_userId tracking) "anonymous" <> other)
        by (intros Heq; apply Hother; rewrite <- Heq; reflexivity).
      rewrite Hhist, Htotals. split; apply lookup_insert_ne; exact Hne.
Qed.

Lemma perform_config call env w : config (fst (perform call env w)) = config (fst w).
Proof.
  destruct w as [t disk].
  destruct call as [userId sessionId|trackingId usage|usage|user]; cbn [perform fst snd].
  - reflexivity.
  - unfold endTracking. destruct (activeTracking t !! trackingId) as [tracking|];
      [|reflexivity].
    pose proof (recordUsage_tracker (fullUsage t tracking usage env) env t disk) as H1.
    destruct (recordUsage _ env (t, disk)) as [t1 d1]. simpl in *. subst t1. reflexivity.
  - rewrite recordUsage_tracker. reflexivity.
  - unfold clearUserUsage. rewrite saveToStorage_tracker. reflexivity.
Qed.

Lemma performAll_config calls w : config (fst (performAll calls w)) = config (fst w).
Proof.
  revert w. induction calls as [|[call env] rest IH]; intros w; [reflexivity|].
  change (performAll ((call, env) :: rest) w) with (performAll rest (perform call env w)).
  rewrite IH. apply perform_config.
Qed.

Lemma performAll_defaultUserId calls w :
  defaultUserId (fst (performAll calls w)) = defaultUserId (fst w).
Proof.
  revert w. induction calls as [|[call env] rest IH]; intros w; [reflexivity|].
  change (performAll ((call, env) :: rest) w) with (performAll rest (perform call env w)).
  rewrite IH. apply perform_defaultUserId.
Qed.

Lemma streamed_grows chunks more :
  (String.length (streamed chunks) <= String.length (streamed (chunks ++ more)))%nat.
Proof.
  unfold streamed. rewrite fold_left_app.
  generalize (fold_left (fun content chunk =>
                           match chunk with
                           | Some text => content ++ text
                           | None => content
                           end) chunks "").
  induction more as [|[text|] rest IH]; intros content; simpl; [lia| |apply IH].
  etransitivity; [|apply IH]. rewrite PricingToolsFacts.length_append. lia.
Qed.

End WrapperFacts.

Module WrapperProperties.
Import Json Types JsNumber Storage Tracker TrackerFacts TrackerAdmin OpenAIWrapper.
Import WrapperFacts PricingTools Scenarios.
Local Open Scope float_scope.

(** X21. The wrapped chat completion, for a request without [stream]
    or when the API call rejects, ends the session it started, whatever
    other calls run meanwhile (as long as they do not touch that
    session): exactly one record is appended to the history of the
    tracker's default user (or "anonymous") and no other history changes.
    A rejected call, streaming or not, is recorded with zero tokens, zero
    cost and [error: true], and rethrown; a resolved one reports as cost
    the running total of user "anonymous", which this call does not
    change on a per-user tracker.  For a streaming request that resolves
    the wrapper makes no record and leaves the session open: it is ended,
    with one record, when the returned generator has been read to its
    end or has failed, and not before. *)
Theorem wrapChatCompletion_ends_its_session
    model stream outcome envStart between envEnd t disk :
  forallb (fun call => negb (disturbs (trackingIdOf envStart) call)) between = true ->
  let user := orString (defaultUserId t) "anonymous" in
  let pending := performAll between (snd (startTracking None None envStart t), disk) in
  let run := wrapChatCompletion model stream outcome envStart between envEnd (t, disk) in
  match outcome, stream with
  | Resolved _, true =>
      run = (Streaming (trackingIdOf envStart) (orString model "gpt-3.5-turbo"), pending)
      /\ activeTracking (fst pending) !! trackingIdOf envStart
         = Some {| t_userId := defaultUserId t; t_sessionId := None;
                   startTime := now envStart |}
      /\ forall later chunks ending envLast,
           forallb (fun call => negb (disturbs (trackingIdOf envStart) call)) later = true ->
           let reading := performAll later pending in
           exists r t' disk',
             snd (wrapStream chunks ending (trackingIdOf envStart)
                    (orString model "gpt-3.5-turbo") envLast reading) = (t', disk')
             /\ activeTracking (fst reading) !! trackingIdOf envStart <> None
             /\ activeTracking t' !! trackingIdOf envStart = None
             /\ usageHistory t' !! user = Some (historyOf user (fst reading) ++ [r])%list
             /\ provider r = "openai" /\ userId r = defaultUserId t
             /\ Types.model r = orString model "gpt-3.5-turbo"
  | _, _ =>
      exists r t' disk',
        snd run = (t', disk')
        /\ activeTracking t' !! trackingIdOf envStart = None
        /\ usageHistory t' !! user = Some (historyOf user (fst pending) ++ [r])%list
        /\ (forall other, other <> user ->
              usageHistory t' !! other = usageHistory (fst pending) !! other)
        /\ provider r = "openai" /\ userId r = defaultUserId t
        /\ match outcome with
           | Rejected =>
               fst run = Raised
               /\ Types.model r = orString model "unknown"
               /\ totalTokens r = 0%Z
               /\ (amount (cost r) =? 0) = true
               /\ getField "error" (default [] (metadata r)) = JsBool true
           | Resolved response =>
               exists report,
                 fst run = Answered (JsObject report)
                 /\ Types.model r = orString model "gpt-3.5-turbo"
                 /\ getField "cost" report = JsNumber (anonymousCost t')
                 /\ (user <> "anonymous" -> anonymousCost t' = anonymousCost (fst pending))
           end
  end.
Proof.
  intros Hbetween user pending run.
  assert (Hmodel : forall fallback, fallback <> "" ->
            orString (Some (orString model fallback)) "unknown" = orString model fallback).
  { intros fallback Hf. simpl.
    destruct (String.eqb_spec (orString model fallback) "") as [He|]; [|reflexivity].
    exfalso. destruct model as [m|]; simpl in He; [|contradiction].
    destruct (String.eqb_spec m ""); [contradiction | contradiction]. }
  assert (Hcomplete : forall outcome',
            exists r t' disk',
              snd (completeChat model outcome' envStart between envEnd (t, disk)) = (t', disk')
              /\ activeTracking t' !! trackingIdOf envStart = None
              /\ usageHistory t' !! user = Some (historyOf user (fst pending) ++ [r])%list
              /\ (forall other, other <> user ->
                    usageHistory t' !! other = usageHistory (fst pending) !! other)
              /\ provider r = "openai" /\ userId r = defaultUserId t
              /\ match outcome' with
                 | Rejected =>
                     fst (completeChat model outcome' envStart between envEnd (t, disk))
                     = Raised
                     /\ Types.model r = orString model "unknown"
                     /\ totalTokens r = 0%Z
                     /\ (amount (cost r) =? 0) = true
                     /\ getField "error" (default [] (metadata r)) = JsBool true
                 | Resolved response =>
                     exists report,
                       fst (completeChat model outcome' envStart between envEnd (t, disk))
                       = Answered (JsObject report)
                       /\ Types.model r = orString model "gpt-3.5-turbo"
                       /\ getField "cost" report = JsNumber (anonymousCost t')
                       /\ (user <> "anonymous" ->
                           anonymousCost t' = anonymousCost (fst pending))
                 end).
  { intros outcome'. unfold completeChat.
    match goal with
    | |- context [tracked ?u ?rep ?f outcome' envStart between envEnd (t, disk)] =>
        destruct (tracked_ends_session u rep f outcome' envStart between envEnd t disk
                    Hbetween) as (t' & disk' & Hrun & Hnone & Hhist & Hframe)
    end.
    cbv zeta in Hrun, Hhist, Hframe. fold pending in Hhist, Hframe.
    fold user in Hhist, Hframe.
    rewrite Hrun. cbn [fst snd].
    eexists; exists t', disk'. split; [reflexivity|]. split; [exact Hnone|].
    split; [exact Hhist|]. split; [intros other Hother; apply Hframe, Hother|].
    destruct outcome' as [response|].
    - split; [destruct response; reflexivity|]. split; [reflexivity|].
      eexists. split; [reflexivity|].
      split.
      { destruct response; cbn [fullUsage Types.model p_model];
          apply Hmodel; discriminate. }
      split; [reflexivity|].
      intros Huser. unfold anonymousCost, getUserUsage.
      rewrite (proj2 (Hframe "anonymous" ltac:(congruence))). reflexivity.
    - split; [reflexivity|]. split; [reflexivity|].
      split; [reflexivity|].
      split; [cbn [fullUsage Types.model p_model failed]; apply Hmodel; discriminate|].
      split; [reflexivity|].
      split; [|reflexivity].
      cbn [fullUsage cost failed p_cost p_provider p_model p_inputTokens p_outputTokens
           orObject orCount].
      apply ResolverFacts.trackerCost_zero. }
  destruct outcome as [response|]; [destruct stream|].
  - set (tracking := {| t_userId := defaultUserId t; t_sessionId := None;
                        startTime := now envStart |}).
    assert (Hactive : activeTracking (fst pending) !! trackingIdOf envStart = Some tracking).
    { apply performAll_keeps_active; [exact Hbetween|]. apply lookup_insert_eq. }
    split; [reflexivity|]. split; [exact Hactive|].
    intros later chunks ending envLast Hlater reading.
    assert (Hstill : activeTracking (fst reading) !! trackingIdOf envStart = Some tracking)
      by (apply performAll_keeps_active; assumption).
    destruct reading as [tr dr]. cbn [fst] in *.
    unfold wrapStream.
    destruct ending as [[]|];
      match goal with
      | |- context [endTracking (trackingIdOf envStart) ?u envLast (tr, dr)] =>
          destruct (endTracking_known _ _ u envLast _ dr Hstill)
            as (t' & disk' & Hend & Hhist & Hgone & _ & _)
      end;
      rewrite Hend; eexists; exists t', disk'; (split; [reflexivity|]);
      (split; [rewrite Hstill; discriminate|]);
      (split; [rewrite Hgone; apply lookup_delete_eq|]);
      (split; [rewrite Hhist; apply lookup_insert_eq|]);
      (split; [reflexivity|]); (split; [reflexivity|]);
      cbn [fullUsage Types.model p_model]; apply Hmodel; discriminate.
  - exact (Hcomplete (Resolved response)).
  - destruct stream; exact (Hcomplete Rejected).
Qed.

Lemma wrapChatCompletion_ends_its_session_witness :
  snd (wrapChatCompletion (Some "gpt-4") true (Resolved None) someEnv [] laterEnv
         (freshTracker, emptyDisk))
  = (snd (startTracking None None someEnv freshTracker), emptyDisk)
  /\ exists r t' disk',
       snd (wrapStream [Some "Hello"] (Resolved tt) (trackingIdOf someEnv) "gpt-4" laterEnv
              (snd (startTracking None None someEnv freshTracker), emptyDisk)) = (t', disk')
       /\ activeTracking t' !! trackingIdOf someEnv = None
       /\ usageHistory t' !! "anonymous" = Some [r].
Proof.
  destruct (wrapChatCompletion_ends_its_session (Some "gpt-4") true (Resolved None)
              someEnv [] laterEnv freshTracker emptyDisk eq_refl)
    as (Hrun & _ & Hread).
  split; [rewrite Hrun; reflexivity|].
  destruct (Hread [] [Some "Hello"] (Resolved tt) laterEnv eq_refl)
    as (r & t' & disk' & Hstream & _ & Hnone & Hhist & _).
  exists r, t', disk'. split; [exact Hstream|]. split; [exact Hnone | exact Hhist].
Defined.

(** X22. On a USD tracker, every wrapped transcription is recorded as 60
    seconds and costs 0.006, whatever the audio; every wrapped image
    generation with a DALL-E model (or none) costs 0.040 per image
    ([n], or 1), whatever the model, size or quality requested. *)
Theorem audio_and_images_are_billed_flat model n envStart between envEnd t disk :
  forallb (fun call => negb (disturbs (trackingIdOf envStart) call)) between = true ->
  cfg_currency (config t) <> Some KRW ->
  JsString.startsWith (Pricing.normalizeModelName (orString model "dall-e-3")) "dall-e" = true ->
  let user := orString (defaultUserId t) "anonymous" in
  let pending := performAll between (snd (startTracking None None envStart t), disk) in
  (exists r t' disk',
     snd (wrapAudioTranscription (Resolved tt) envStart between envEnd (t, disk)) = (t', disk')
     /\ usageHistory t' !! user = Some (historyOf user (fst pending) ++ [r])%list
     /\ totalTokens r = 60%Z
     /\ cost r = {| amount := 0.006; currency := USD |})
  /\ (exists r t' disk',
        snd (wrapImageGeneration model n (Resolved tt) envStart between envEnd (t, disk))
        = (t', disk')
        /\ usageHistory t' !! user = Some (historyOf user (fst pending) ++ [r])%list
        /\ totalTokens r = orCount n 1
        /\ cost r = {| amount := toNumber (orCount n 1) * 0.040; currency := USD |}).
Proof.
  intros Hbetween Hcur Hdalle user pending.
  assert (Hcfg : cfg_currency (config (fst pending)) <> Some KRW).
  { subst pending. rewrite performAll_config. exact Hcur. }
  split.
  - unfold wrapAudioTranscription.
    match goal with
    | |- context [tracked ?u ?rep ?f ?o envStart between envEnd (t, disk)] =>
        destruct (tracked_ends_session u rep f o envStart between envEnd t disk Hbetween)
          as (t' & disk' & Hrun & _ & Hhist & _)
    end.
    cbv zeta in Hrun, Hhist. fold pending in Hhist. fold user in Hhist.
    rewrite Hrun. eexists; exists t', disk'. split; [reflexivity|]. split; [exact Hhist|].
    split; [reflexivity|].
    cbn [fullUsage cost p_cost p_provider p_model p_inputTokens p_outputTokens orObject].
    rewrite (McpClaims.calculateCost_USD _ _ _ _ _ Hcfg). reflexivity.
  - unfold wrapImageGeneration.
    match goal with
    | |- context [tracked ?u ?rep ?f ?o envStart between envEnd (t, disk)] =>
        destruct (tracked_ends_session u rep f o envStart between envEnd t disk Hbetween)
          as (t' & disk' & Hrun & _ & Hhist & _)
    end.
    cbv zeta in Hrun, Hhist. fold pending in Hhist. fold user in Hhist.
    rewrite Hrun. eexists; exists t', disk'. split; [reflexivity|]. split; [exact Hhist|].
    assert (Hn : orCount (Some (orCount n 1)) 0 = orCount n 1).
    { destruct n as [k|]; simpl; [|reflexivity].
      destruct (Z.eqb_spec k 0); simpl; [reflexivity|].
      destruct (Z.eqb_spec k 0); [contradiction | reflexivity]. }
    split.
    { cbn [fullUsage totalTokens p_totalTokens]. unfold orCount at 1.
      destruct (Z.eqb_spec (orCount n 1) 0) as [H0|]; [|reflexivity].
      exfalso. destruct n as [k|]; simpl in H0; [|discriminate].
      destruct (Z.eqb_spec k 0); congruence. }
    cbn [fullUsage cost p_cost p_provider p_model p_inputTokens p_outputTokens orObject].
    rewrite (McpClaims.calculateCost_USD _ _ _ _ _ Hcfg). f_equal.
    rewrite Hn.
    assert (Hm : orString (Some (orString model "dall-e-3")) "unknown"
                 = orString model "dall-e-3").
    { simpl. destruct (String.eqb_spec (orString model "dall-e-3") "") as [He|]; [|reflexivity].
      exfalso. destruct model as [m|]; simpl in He; [|discriminate].
      destruct (String.eqb_spec m ""); [discriminate | contradiction]. }
    rewrite Hm. unfold Pricing.calculateCost. cbn [String.eqb Ascii.eqb Bool.eqb].
    unfold Pricing.openaiBlock. rewrite Hdalle. reflexivity.
Qed.


Lemma audio_and_images_are_billed_flat_witness :
  (exists r t' disk',
     snd (wrapAudioTranscription (Resolved tt) someEnv [] laterEnv (freshTracker, emptyDisk))
     = (t', disk')
     /\ usageHistory t' !! "anonymous" = Some [r]
     /\ cost r = {| amount := 0.006; currency := USD |})
  /\ (exists r t' disk',
        snd (wrapImageGeneration (Some "dall-e-2") (Some 3%Z) (Resolved tt) someEnv []
               laterEnv (freshTracker, emptyDisk)) = (t', disk')
        /\ usageHistory t' !! "anonymous" = Some [r]
        /\ cost r = {| amount := 3 * 0.040; currency := USD |}).
Proof.
  destruct (audio_and_images_are_billed_flat (Some "dall-e-2") (Some 3%Z) someEnv []
              laterEnv freshTracker emptyDisk eq_refl)
    as [(r & t' & disk' & Hrun & Hhist & _ & Hcost)
        (r2 & t2 & disk2 & Hrun2 & Hhist2 & _ & Hcost2)].
  - discriminate.
  - reflexivity.
  - split.
    + exists r, t', disk'. split; [exact Hrun|]. split; [exact Hhist | exact Hcost].
    + exists r2, t2, disk2. split; [exact Hrun2|]. split; [exact Hhist2 | exact Hcost2].
Defined.

End WrapperProperties.

Module StreamProperties.
Import Json Types JsNumber Storage Tracker TrackerFacts TrackerAdmin OpenAIWrapper.
Import WrapperFacts PricingTools Scenarios.
Local Open Scope Z_scope.

(** X23. A streamed chat completion, read to its end, is recorded with no
    input tokens: totalTokens and outputTokens are the estimate
    (streamed text length / 4, rounded up, which never decreases while
    the stream goes on), and the cost is that of the output alone.  A
    stream that fails is recorded with the tokens counted so far, at
    zero cost, flagged [error: true]. *)
Theorem wrapStream_bills_the_output_only
    chunks ending trackingId model envEnd t disk tracking :
  activeTracking t !! trackingId = Some tracking ->
  let user := orString (t_userId tracking) "anonymous" in
  exists r t' disk',
    snd (wrapStream chunks ending trackingId model envEnd (t, disk)) = (t', disk')
    /\ activeTracking t' !! trackingId = None
    /\ usageHistory t' !! user = Some (historyOf user t ++ [r])%list
    /\ inputTokens r = None
    /\ totalTokens r = accumulatedTokens chunks
    /\ 4 * (totalTokens r - 1) < Z.of_nat (String.length (streamed chunks)) <= 4 * totalTokens r
    /\ (forall more, totalTokens r <= accumulatedTokens (chunks ++ more))
    /\ match ending with
       | Resolved _ =>
           outputTokens r = Some (accumulatedTokens chunks)
           /\ cost r
              = Tracker.calculateCost t "openai" (orString (Some model) "unknown")
                  0 (accumulatedTokens chunks)
       | Rejected =>
           outputTokens r = None
           /\ (amount (cost r) =? 0)%float = true
           /\ getField "error" (default [] (metadata r)) = JsBool true
       end.
Proof.
  intros Hactive user.
  assert (Hacc : 0 <= accumulatedTokens chunks).
  { unfold accumulatedTokens, ceilQuarter. Z.div_mod_to_equations. lia. }
  destruct ending as [[]|]; unfold wrapStream.
  - match goal with
    | |- context [endTracking trackingId ?u envEnd (t, disk)] =>
        destruct (endTracking_known _ _ u envEnd _ disk Hactive)
          as (t' & disk' & Hend & Hhist & Hgone & _ & _)
    end.
    rewrite Hend. eexists; exists t', disk'. split; [reflexivity|].
    split; [rewrite Hgone; apply lookup_delete_eq|].
    split; [rewrite Hhist; apply lookup_insert_eq|].
    split; [reflexivity|].
    assert (Ht : totalTokens (fullUsage t tracking
                    {| p_provider := Some "openai"; p_model := Some model;
                       p_inputTokens := None;
                       p_outputTokens := Some (accumulatedTokens chunks);
                       p_totalTokens := Some (orCount None 0 + accumulatedTokens chunks);
                       p_cost := None; p_metadata := None |} envEnd)
                 = accumulatedTokens chunks).
    { cbn [fullUsage totalTokens p_totalTokens p_inputTokens p_outputTokens orCount].
      repeat match goal with
             | |- context [(?a =? ?b)%Z] => destruct (Z.eqb_spec a b)
             end; try change (addCount 0 0) with 0; lia. }
    rewrite Ht. split; [reflexivity|].
    split; [unfold accumulatedTokens, ceilQuarter; Z.div_mod_to_equations; lia|].
    split.
    { intros more. unfold accumulatedTokens, ceilQuarter.
      pose proof (streamed_grows chunks more). Z.div_mod_to_equations. lia. }
    split; [reflexivity|].
    cbn [fullUsage cost p_cost p_provider p_model p_inputTokens p_outputTokens orObject].
    cbn [orCount]. do 2 f_equal.
    destruct (Z.eqb_spec (accumulatedTokens chunks) 0) as [E|]; [|reflexivity].
    rewrite E. reflexivity.
  - match goal with
    | |- context [endTracking trackingId ?u envEnd (t, disk)] =>
        destruct (endTracking_known _ _ u envEnd _ disk Hactive)
          as (t' & disk' & Hend & Hhist & Hgone & _ & _)
    end.
    rewrite Hend. eexists; exists t', disk'. split; [reflexivity|].
    split; [rewrite Hgone; apply lookup_delete_eq|].
    split; [rewrite Hhist; apply lookup_insert_eq|].
    split; [reflexivity|].
    assert (Ht : totalTokens (fullUsage t tracking
                    {| p_provider := Some "openai"; p_model := Some model;
                       p_inputTokens := None; p_outputTokens := None;
                       p_totalTokens := Some (accumulatedTokens chunks);
                       p_cost := None;
                       p_metadata := Some [("error", JsBool true)] |} envEnd)
                 = accumulatedTokens chunks).
    { cbn [fullUsage totalTokens p_totalTokens p_inputTokens p_outputTokens orCount].
      repeat match goal with
             | |- context [(?a =? ?b)%Z] => destruct (Z.eqb_spec a b)
             end; try change (addCount 0 0) with 0; lia. }
    rewrite Ht. split; [reflexivity|].
    split; [unfold accumulatedTokens, ceilQuarter; Z.div_mod_to_equations; lia|].
    split.
    { intros more. unfold accumulatedTokens, ceilQuarter.
      pose proof (streamed_grows chunks more). Z.div_mod_to_equations. lia. }
    split; [reflexivity|]. split; [|reflexivity].
    cbn [fullUsage cost p_cost p_provider p_model p_inputTokens p_outputTokens orObject
         orCount].
    apply ResolverFacts.trackerCost_zero.
Qed.

Lemma wrapStream_bills_the_output_only_witness :
  exists r t' disk',
    snd (wrapStream [Some "Once upon"; None; Some " a time"] (Resolved tt)
           "track_1759800000000_k3x9q0zab" "gpt-4" laterEnv
           (snd (startTracking None None someEnv freshTracker), emptyDisk)) = (t', disk')
    /\ usageHistory t' !! "anonymous" = Some [r]
    /\ inputTokens r = None
    /\ totalTokens r = 4.
Proof.
  destruct (wrapStream_bills_the_output_only [Some "Once upon"; None; Some " a time"]
              (Resolved tt) "track_1759800000000_k3x9q0zab" "gpt-4" laterEnv
              (snd (startTracking None None someEnv freshTracker)) emptyDisk
              {| t_userId := None; t_sessionId := None; startTime := 1759800000000 |})
    as (r & t' & disk' & Hrun & _ & Hhist & Hin & Htotal & _).
  - vm_compute. reflexivity.
  - exists r, t', disk'. split; [exact Hrun|]. split; [exact Hhist|].
    split; [exact Hin | exact Htotal].
Defined.

End StreamProperties.

Module AnthropicFacts.
Import Json Types JsNumber Storage Tracker TrackerFacts PricingTools OpenAIWrapper.
Import AnthropicWrapper.
Local Open Scope Z_scope.

Lemma orCount_given n : orCount (Some n) 0 = n.
Proof. simpl. destruct (Z.eqb_spec n 0); congruence. Qed.

(** While text arrives the input count stays, and the output count is
    the estimate from all the text read so far. *)
Lemma texts_counters texts c :
  outputTokens c = ceilQuarter (Z.of_nat (String.length (accumulatedContent c))) ->
  let c' := fold_left step (List.map (fun text => ContentBlockDelta (Some text)) texts) c in
  inputTokens c' = inputTokens c
  /\ String.length (accumulatedContent c')
     = (String.length (accumulatedContent c) + list_sum (List.map String.length texts))%nat
  /\ outputTokens c' = ceilQuarter (Z.of_nat (String.length (accumulatedContent c'))).
Proof.
  revert c. induction texts as [|text rest IH]; intros c Hc; cbv zeta.
  - simpl. split; [reflexivity|]. split; [lia | exact Hc].
  - cbn [List.map fold_left list_sum step].
    destruct (String.eqb_spec text "") as [->|Hne].
    + destruct (IH c Hc) as (Hi & Hlen & Ho). cbv zeta in Hi, Hlen, Ho.
      split; [exact Hi|]. split; [rewrite Hlen; simpl; lia | exact Ho].
    + match goal with
      | |- context [fold_left step _ ?c1] =>
          destruct (IH c1 eq_refl) as (Hi & Hlen & Ho)
      end.
      cbv zeta in Hi, Hlen, Ho. cbn [inputTokens accumulatedContent] in Hi, Hlen.
      split; [exact Hi|]. split; [|exact Ho].
      rewrite Hlen, PricingToolsFacts.length_append. simpl. lia.
Qed.

(** The counters after a stream that reports its counts. *)
Lemma counters_reported input output texts :
  inputTokens (counters (reported input output texts)) = input
  /\ outputTokens (counters (reported input output texts))
     = if output =? 0
       then ceilQuarter (Z.of_nat (list_sum (List.map String.length texts)))
       else output.
Proof.
  unfold counters, reported. cbn [fold_left].
  rewrite fold_left_app.
  match goal with
  | |- context [fold_left step (List.map _ texts) ?c1] =>
      destruct (texts_counters texts c1 eq_refl) as (Hi & Hlen & Ho)
  end.
  cbv zeta in Hi, Hlen, Ho.
  cbn [step start inputTokens outputTokens accumulatedContent input_tokens output_tokens
       String.length] in Hi, Hlen, Ho |- *.
  cbn [fold_left step inputTokens outputTokens input_tokens output_tokens].
  rewrite orCount_given in Hi, Hlen, Ho |- *.
  rewrite Hi. split; [reflexivity|].
  cbn [orCount]. rewrite Ho, Hlen. reflexivity.
Qed.

End AnthropicFacts.

Module AnthropicProperties.
Import Json Types JsNumber Storage Tracker TrackerFacts TrackerAdmin PricingTools.
Import OpenAIWrapper AnthropicWrapper AnthropicFacts Scenarios.
Local Open Scope Z_scope.

(** X24. For a Claude stream of an active session that reports its input
    count at [message_start] and an output count at [message_delta], the
    record carries the reported input count and, as output count, the
    reported one when it is not 0: a reported 0 leaves the estimate from
    the text (its length / 4, rounded up).  totalTokens is the sum of the
    two, added as JavaScript numbers (so exactly, while the sum is a safe
    integer), and the cost is computed from the two counts. *)
Theorem claude_stream_records_reported_counts
    input output texts trackingId model envEnd t disk tracking :
  activeTracking t !! trackingId = Some tracking ->
  let user := orString (t_userId tracking) "anonymous" in
  let estimate := ceilQuarter (Z.of_nat (list_sum (List.map String.length texts))) in
  let counted := if output =? 0 then estimate else output in
  exists r t' disk',
    wrapStream (reported input output texts) (Resolved tt) trackingId model envEnd (t, disk)
    = (Returned, (t', disk'))
    /\ activeTracking t' !! trackingId = None
    /\ usageHistory t' !! user = Some (historyOf user t ++ [r])%list
    /\ Types.inputTokens r = Some input /\ Types.outputTokens r = Some counted
    /\ totalTokens r = addCount input counted
    /\ (0 <= input -> 0 <= output -> input + counted <= 2 ^ 53 ->
        totalTokens r = input + counted)
    /\ cost r
       = Tracker.calculateCost t "anthropic" (orString (Some model) "unknown") input counted.
Proof.
  intros Hactive user estimate counted. unfold wrapStream.
  destruct (counters_reported input output texts) as [Hin Hout].
  fold estimate in Hout. fold counted in Hout. rewrite Hin, Hout.
  match goal with
  | |- context [endTracking trackingId ?u envEnd (t, disk)] =>
      destruct (endTracking_known _ _ u envEnd _ disk Hactive)
        as (t' & disk' & Hend & Hhist & Hgone & _ & _)
  end.
  rewrite Hend. eexists; exists t', disk'. split; [reflexivity|].
  split; [rewrite Hgone; apply lookup_delete_eq|].
  split; [rewrite Hhist; apply lookup_insert_eq|].
  split; [reflexivity|]. split; [reflexivity|].
  assert (Htotal : totalTokens
                     (fullUsage t tracking
                        {| p_provider := Some "anthropic"; p_model := Some model;
                           p_inputTokens := Some input; p_outputTokens := Some counted;
                           p_totalTokens := Some (addCount input counted);
                           p_cost := None; p_metadata := None |} envEnd)
                   = addCount input counted).
  { cbn [fullUsage totalTokens p_totalTokens p_inputTokens p_outputTokens].
    rewrite !orCount_given. cbn [orCount].
    destruct (addCount input counted =? 0); reflexivity. }
  split; [exact Htotal|]. split.
  - intros Hi Ho Hsum. rewrite Htotal. apply Binary64.addCount_exact; [exact Hi| |exact Hsum].
    subst counted estimate. destruct (output =? 0); [|exact Ho].
    unfold ceilQuarter. Z.div_mod_to_equations. lia.
  - cbn [fullUsage cost p_cost p_provider p_model p_inputTokens p_outputTokens orObject].
    rewrite !orCount_given. reflexivity.
Qed.

Lemma claude_stream_records_reported_counts_witness :
  exists r t' disk',
    wrapStream (reported 25 0 ["Hello"; ", "; "world"]) (Resolved tt)
      "track_1759800000000_k3x9q0zab" "claude-3-haiku-20240307" laterEnv
      (snd (startTracking (Some "ada") None someEnv freshTracker), emptyDisk)
    = (Returned, (t', disk'))
    /\ usageHistory t' !! "ada" = Some [r]
    /\ Types.outputTokens r = Some 3
    /\ totalTokens r = 28.
Proof.
  destruct (claude_stream_records_reported_counts 25 0 ["Hello"; ", "; "world"]
              "track_1759800000000_k3x9q0zab" "claude-3-haiku-20240307" laterEnv
              (snd (startTracking (Some "ada") None someEnv freshTracker)) emptyDisk
              {| t_userId := Some "ada"; t_sessionId := None; startTime := 1759800000000 |})
    as (r & t' & disk' & Hrun & _ & Hhist & _ & Hout & Htotal & _).
  - vm_compute. reflexivity.
  - exists r, t', disk'. split; [exact Hrun|]. split; [exact Hhist|].
    split; [exact Hout | exact Htotal].
Defined.

End AnthropicProperties.

(** ** The exchange-rate cache *)

Module ExchangeRateProperties.
Import Json JsNumber Storage ExchangeRate StorageFacts.

(** X25. Starting without a usable cache, a fetched rate is returned and
    cached.  A later [getUSDtoKRW] returns the same rate without regard
    to the network while the cache is at most [cacheExpiryHours] old
    (the bound included), and also when the cache is older but the fetch
    fails; once the cache is older, a successful fetch is returned
    instead. *)
Theorem fetched_rate_is_served_from_the_cache
    m now fetchedAt rate response disk later laterFetch laterResponse :
  file disk = Missing \/ file disk = Unparsable ->
  writeFails disk = false ->
  fetchExchangeRate response = Some rate ->
  isJsonNumber rate = true ->
  exists cache,
    getUSDtoKRW m now fetchedAt response disk = Some (JsNumber rate, cache)
    /\ (later - fetchedAt <= cacheExpiryHours m * 3600000 ->
          getUSDtoKRW m later laterFetch laterResponse cache = Some (JsNumber rate, cache))
    /\ (fetchExchangeRate laterResponse = None ->
          getUSDtoKRW m later laterFetch laterResponse cache = Some (JsNumber rate, cache))
    /\ (cacheExpiryHours m * 3600000 < later - fetchedAt ->
          forall newer, fetchExchangeRate laterResponse = Some newer ->
          fst <$> getUSDtoKRW m later laterFetch laterResponse cache = Some (JsNumber newer)).
Proof.
  intros Hfile Hwrite Hfetch Hrate.
  assert (Htruthy : truthy (JsNumber rate) = true).
  { destruct response as [|[] [x|]]; cbn [fetchExchangeRate] in Hfetch; try discriminate.
    destruct (truthy (JsNumber x)) eqn:E; [|discriminate Hfetch].
    injection Hfetch as <-. exact E. }
  set (doc := JsObject [ ("rate", JsNumber rate); ("lastUpdated", JsIso fetchedAt);
                         ("source", JsString "exchangerate-api") ]).
  assert (Hsave : saveToCache rate "exchangerate-api" fetchedAt disk
                  = {| file := Document doc; writeFails := false |}).
  { unfold saveToCache. simpl. rewrite (isJsonNumber_keeps rate Hrate), Hwrite. reflexivity. }
  exists {| file := Document doc; writeFails := false |}.
  assert (Hfirst : getUSDtoKRW m now fetchedAt response disk
                   = Some (JsNumber rate, {| file := Document doc; writeFails := false |})).
  { unfold getUSDtoKRW, loadFromCache.
    destruct Hfile as [-> | ->]; simpl; rewrite Hfetch, Hsave; reflexivity. }
  split; [exact Hfirst|].
  unfold getUSDtoKRW, loadFromCache. simpl.
  replace (cacheExpiryHours m * 60 * 60 * 1000) with (cacheExpiryHours m * 3600000) by lia.
  split; [|split].
  - intros Hfresh. destruct (Z.ltb_spec (cacheExpiryHours m * 3600000) (later - fetchedAt));
      [lia | reflexivity].
  - intros Hfail. rewrite Hfail.
    destruct (_ <? _); reflexivity.
  - intros Hstale newer Hnewer. rewrite Hnewer.
    destruct (Z.ltb_spec (cacheExpiryHours m * 3600000) (later - fetchedAt)); [|lia].
    reflexivity.
Qed.

Lemma fetched_rate_is_served_from_the_cache_witness :
  exists cache,
    getUSDtoKRW (newExchangeRateManager None) 1759800000000 1759800000750
      (Http true (Some 1391.5%float)) {| file := Unparsable; writeFails := false |}
    = Some (JsNumber 1391.5%float, cache)
    /\ getUSDtoKRW (newExchangeRateManager None) (1759800000750 + 86400000) 0 NetworkError cache
       = Some (JsNumber 1391.5%float, cache).
Proof.
  destruct (fetched_rate_is_served_from_the_cache (newExchangeRateManager None)
              1759800000000 1759800000750 1391.5%float (Http true (Some 1391.5%float))
              {| file := Unparsable; writeFails := false |}
              (1759800000750 + 86400000) 0 NetworkError)
    as (cache & Hfirst & Hfresh & _).
  - right. reflexivity.
  - reflexivity.
  - reflexivity.
  - reflexivity.
  - exists cache. split; [exact Hfirst|]. apply Hfresh. simpl. lia.
Defined.

(** X26. When the rate cannot be fetched, [getUSDtoKRW] still returns:
    the fallback rate (1380 unless changed) without a usable cache, the
    cached rate otherwise, however old; a cache without [lastUpdated]
    never expires.  It leaves the file untouched.  [forceRefresh]
    rethrows instead. *)
Theorem getUSDtoKRW_degrades_without_failing m now fetchedAt response disk :
  fetchExchangeRate response = None ->
  (file disk = Missing \/ file disk = Unparsable ->
     getUSDtoKRW m now fetchedAt response disk = Some (JsNumber (fallbackRate m), disk))
  /\ (forall fields stamp,
        file disk = Document (JsObject fields) ->
        getField "lastUpdated" fields = JsIso stamp \/ getField "lastUpdated" fields = JsUndefined ->
        getUSDtoKRW m now fetchedAt response disk = Some (getField "rate" fields, disk))
  /\ forceRefresh fetchedAt response disk = (None, disk).
Proof.
  intros Hfail. unfold getUSDtoKRW, forceRefresh, loadFromCache. rewrite Hfail.
  split; [|split; [|reflexivity]].
  - intros [-> | ->]; reflexivity.
  - intros fields stamp -> [H|H]; simpl; unfold isCacheExpired; rewrite H; simpl.
    + destruct (_ <? _); reflexivity.
    + reflexivity.
Qed.

Lemma getUSDtoKRW_degrades_without_failing_witness :
  getUSDtoKRW (newExchangeRateManager None) 1759800000000 1759800000750 (Http false None)
    {| file := Missing; writeFails := false |}
  = Some (JsNumber 1380%float, {| file := Missing; writeFails := false |}).
Proof.
  destruct (getUSDtoKRW_degrades_without_failing (newExchangeRateManager None)
              1759800000000 1759800000750 (Http false None)
              {| file := Missing; writeFails := false |} eq_refl) as (H & _).
  apply H. left. reflexivity.
Defined.

End ExchangeRateProperties.

(** ** The compare_costs tool and the tracker it borrows *)

Module CompareFacts.
Import Json Types JsNumber Storage Tracker TrackerFacts McpServer.
Local Open Scope float_scope.

(** One iteration leaves the two maps as they were, less the scratch user. *)
Lemma compareOne_frame scratch tokens entry env t disk :
  scratch <> "" ->
  let done := compareOne scratch tokens entry env (t, disk) in
  fst (fst done) = snd entry
  /\ usageHistory (fst (snd done)) = delete scratch (usageHistory t)
  /\ userTotals (fst (snd done)) = delete scratch (userTotals t).
Proof.
  intros Hscratch. destruct entry as [[provider model] name]. cbv zeta.
  unfold compareOne.
  set (usage := {| p_provider := Some provider; p_model := Some model;
                   p_inputTokens := Some (tokens / 2)%Z;
                   p_outputTokens := Some (- (- tokens / 2))%Z;
                   p_totalTokens := Some tokens; p_cost := None;
                   p_metadata := None |}).
  set (tracking := {| t_userId := Some scratch; t_sessionId := None;
                      startTime := now env |}).
  assert (Huser : sessionUser (Some scratch) t = Some scratch).
  { simpl. destruct (String.eqb_spec scratch ""); congruence. }
  unfold startTracking. cbv beta iota zeta. rewrite Huser. fold tracking.
  set (trackingId := trackingIdOf env).
  set (t1 := withTracking t (<[trackingId := tracking]> (activeTracking t))).
  assert (Hactive : activeTracking t1 !! trackingId = Some tracking)
    by apply lookup_insert_eq.
  destruct (endTracking_known _ _ usage env _ disk Hactive)
    as (t2 & disk2 & Hend & Hhist & _ & _ & Htotals).
  rewrite Hend.
  assert (Hkey : orString (t_userId tracking) "anonymous" = scratch).
  { simpl. destruct (String.eqb_spec scratch ""); congruence. }
  rewrite Hkey in Hhist, Htotals.
  assert (Hfst : fst (clearUserUsage scratch env (t2, disk2))
                 = withMaps t2 (delete scratch (usageHistory t2))
                     (delete scratch (userTotals t2)))
    by (unfold clearUserUsage; apply saveToStorage_tracker).
  destruct (clearUserUsage scratch env (t2, disk2)) as [t' disk'].
  simpl in Hfst. subst t'. cbn [fst snd withMaps usageHistory userTotals].
  rewrite Hhist, Htotals.
  split; [reflexivity|]. split; apply delete_insert_eq.
Qed.

Lemma compareAll_frame scratch tokens entries i envs t disk :
  scratch <> "" -> entries <> [] ->
  let done := compareAll scratch tokens entries i envs (t, disk) in
  List.map fst (fst done) = List.map snd entries
  /\ usageHistory (fst (snd done)) = delete scratch (usageHistory t)
  /\ userTotals (fst (snd done)) = delete scratch (userTotals t).
Proof.
  intros Hscratch. revert i t disk.
  induction entries as [|entry rest IH]; intros i t disk Hne; [contradiction|].
  cbv zeta. cbn [compareAll].
  pose proof (compareOne_frame scratch tokens entry (envs i) t disk Hscratch) as H1.
  cbv zeta in H1.
  destruct (compareOne scratch tokens entry (envs i) (t, disk)) as [item [t1 disk1]].
  cbn [fst snd] in H1. destruct H1 as (Hname & Hh & Ht).
  destruct rest as [|next rest'].
  - cbn [compareAll fst snd List.map]. rewrite Hname. auto.
  - specialize (IH (S i) t1 disk1 ltac:(discriminate)). cbv zeta in IH.
    destruct (compareAll scratch tokens (next :: rest') (S i) envs (t1, disk1))
      as [items w2].
    cbn [fst snd] in IH |- *. destruct IH as (Hnames & Hh2 & Ht2).
    cbn [List.map]. rewrite Hname, Hnames, Hh2, Ht2, Hh, Ht.
    split; [reflexivity|]. split; apply delete_delete_eq.
Qed.

Lemma insertByCost_perm x sorted : Permutation (insertByCost x sorted) (x :: sorted).
Proof.
  induction sorted as [|y rest IH]; simpl; [reflexivity|].
  destruct (snd x - snd y <? 0); [reflexivity|].
  rewrite IH. apply perm_swap.
Qed.

Lemma sortByCost_perm items : Permutation (sortByCost items) items.
Proof.
  unfold sortByCost.
  assert (H : forall acc, Permutation (fold_left (fun sorted x => insertByCost x sorted)
                                         items acc) (items ++ acc)).
  { induction items as [|x rest IH]; intros acc; simpl; [reflexivity|].
    rewrite IH, insertByCost_perm. symmetry. apply Permutation_middle. }
  rewrite H, app_nil_r. reflexivity.
Qed.

End CompareFacts.

Module CompareProperties.
Import Json Types JsNumber Storage Tracker TrackerFacts McpServer CompareFacts.
Local Open Scope float_scope.

(** X27. [compareCosts], for every token count and every tracker state:
    the reply ranks each of the five models once; afterwards the user
    "_compare" has neither totals nor history, whatever that user held
    before, and every other user's totals and history are unchanged. *)
Theorem compareCosts_clears_the_scratch_user tokens envs t disk :
  let done := compareCosts tokens envs (t, disk) in
  Permutation (List.map fst (fst done))
    ["GPT-3.5"; "GPT-4"; "Claude Haiku"; "Claude Sonnet"; "Claude Opus"]
  /\ getUserUsage "_compare" (fst (snd done)) = None
  /\ getUserHistory "_compare" 100 (fst (snd done)) = []
  /\ (forall user, user <> "_compare" ->
        getUserUsage user (fst (snd done)) = getUserUsage user t
        /\ forall limit,
             getUserHistory user limit (fst (snd done)) = getUserHistory user limit t).
Proof.
  cbv zeta. unfold compareCosts.
  pose proof (compareAll_frame "_compare" tokens models 0 envs t disk
                ltac:(discriminate) ltac:(discriminate)) as H.
  cbv zeta in H.
  destruct (compareAll "_compare" tokens models 0 envs (t, disk)) as [comparison w'].
  cbn [fst snd] in *. destruct H as (Hnames & Hh & Ht).
  split.
  - rewrite (Permutation_map fst (sortByCost_perm comparison)), Hnames. reflexivity.
  - unfold getUserUsage, getUserHistory, historyOf. rewrite Hh, Ht.
    split; [apply lookup_delete_eq|]. split; [rewrite lookup_delete_eq; reflexivity|].
    intros user Huser. rewrite !lookup_delete_ne by congruence. auto.
Qed.

End CompareProperties.
